(** * Statistical clear-sky fitting: the orchestration code, embedded and verified

    The development follows the two sources of the repository:

    - [clearsky/main.py], class [IterativeClearSky] (module [ClearSky] below):
      weight computation of [__init__], [calc_objective], [min_L], [min_R]
      and the loop of [minimize_objective];
    - [statistical_clear_sky/algorithm/iterative_fitting.py], class
      [IterativeFitting] (module [Fitting] below): [_calculate_objective],
      [_obtain_weights], the state-data bookkeeping and the loop of
      [_minimize_objective] with its [try / except / else].

    Modelling conventions.

    - A Python / numpy float is a value of [fl]: a rational, one of the two
      infinities, or NaN.  The special values follow IEEE 754 as numpy does
      (division by zero yields an infinity or NaN, every comparison with NaN
      is false).  Rounding of finite results and the sign of zero are not
      modelled: finite arithmetic is exact.
    - A numpy vector is a [list fl], a matrix the list of its rows.  Shapes
      are assumed to conform where numpy would otherwise raise a shape error.
    - What lives outside the repository is a parameter.  The numeric
      primitives of numpy that are not rational functions ([np.power], the
      square root behind the Frobenius norm, [np.percentile], [np.median],
      [np.std]) are the fields of the class [Numeric]; the convex solver
      (cvxpy) called by [min_L] and [min_R] is the class [Solver].  The
      classes [LeftMatrixMinimization], [RightMatrixMinimization] and
      [WeightSetting] are not part of the sources at hand; [IterativeFitting]
      sees them only through their constructors and their [minimize] /
      [obtain_weights] methods, which are the fields of [Minimization].
    - Exceptions are explicit: a fallible step returns [Ok] or [Raise].
    - [print] becomes an [event] appended to a log.
    - A [while] loop is a fixpoint over a fuel argument counting iterations;
      [None] means that the fuel ran out before the loop condition failed. *)

From Stdlib Require Import String QArith Qabs ZArith List Bool Lia Lqa.
Import ListNotations.

Set Implicit Arguments.

(* ------------------------------------------------------------------ *)
(** * Floats *)
(* ------------------------------------------------------------------ *)

Module Float.

Inductive fl : Type :=
| Fin (q : Q)
| PInf
| NInf
| NaN.

Definition Qltb (a b : Q) : bool := negb (Qle_bool b a).

Definition fl_neg (x : fl) : fl :=
  match x with
  | Fin q => Fin (- q)
  | PInf => NInf
  | NInf => PInf
  | NaN => NaN
  end.

Definition fl_abs (x : fl) : fl :=
  match x with
  | Fin q => Fin (Qabs q)
  | PInf | NInf => PInf
  | NaN => NaN
  end.

Definition fl_add (x y : fl) : fl :=
  match x, y with
  | NaN, _ | _, NaN => NaN
  | Fin a, Fin b => Fin (a + b)
  | PInf, NInf | NInf, PInf => NaN
  | PInf, _ | _, PInf => PInf
  | NInf, _ | _, NInf => NInf
  end.

Definition fl_sub (x y : fl) : fl := fl_add x (fl_neg y).

(** Product of an infinity with a finite factor: the sign decides, and
    [inf * 0] is NaN. *)
Definition inf_times (positive : bool) (a : Q) : fl :=
  match a ?= 0 with
  | Eq => NaN
  | Gt => if positive then PInf else NInf
  | Lt => if positive then NInf else PInf
  end.

Definition fl_mul (x y : fl) : fl :=
  match x, y with
  | NaN, _ | _, NaN => NaN
  | Fin a, Fin b => Fin (a * b)
  | Fin a, PInf | PInf, Fin a => inf_times true a
  | Fin a, NInf | NInf, Fin a => inf_times false a
  | PInf, PInf | NInf, NInf => PInf
  | PInf, NInf | NInf, PInf => NInf
  end.

(** numpy float division: no exception, [x / 0] is an infinity of the sign
    of [x], and [0 / 0] is NaN. *)
Definition fl_div (x y : fl) : fl :=
  match x, y with
  | NaN, _ | _, NaN => NaN
  | Fin a, Fin b =>
      match b ?= 0 with
      | Eq => match a ?= 0 with Eq => NaN | Gt => PInf | Lt => NInf end
      | _ => Fin (a / b)
      end
  | Fin _, PInf | Fin _, NInf => Fin 0
  | PInf, Fin b => if Qltb b 0 then NInf else PInf
  | NInf, Fin b => if Qltb b 0 then PInf else NInf
  | _, _ => NaN
  end.

Definition fl_leb (x y : fl) : bool :=
  match x, y with
  | NaN, _ | _, NaN => false
  | Fin a, Fin b => Qle_bool a b
  | NInf, _ => true
  | _, PInf => true
  | _, _ => false
  end.

Definition fl_ltb (x y : fl) : bool :=
  match x, y with
  | NaN, _ | _, NaN => false
  | Fin a, Fin b => Qltb a b
  | PInf, _ => false
  | _, NInf => false
  | _, _ => true
  end.

Definition fl_geb (x y : fl) : bool := fl_leb y x.
Definition fl_gtb (x y : fl) : bool := fl_ltb y x.

(** [np.maximum] and [np.minimum] propagate NaN. *)
Definition fl_maximum (x y : fl) : fl :=
  match x, y with
  | NaN, _ | _, NaN => NaN
  | _, _ => if fl_leb x y then y else x
  end.

Definition fl_minimum (x y : fl) : fl :=
  match x, y with
  | NaN, _ | _, NaN => NaN
  | _, _ => if fl_leb x y then x else y
  end.

(** [np.clip(x, lo, hi)] is [minimum(maximum(x, lo), hi)]; [None] leaves the
    side open. *)
Definition np_clip (x : fl) (lo hi : option fl) : fl :=
  let x1 := match lo with Some l => fl_maximum x l | None => x end in
  match hi with Some h => fl_minimum x1 h | None => x1 end.

(** Literals of the sources. *)
Definition fzero : fl := Fin 0.
Definition fone : fl := Fin 1.
Definition ftwo : fl := Fin 2.
Definition half : fl := Fin (1 # 2).

(** The interval test used to state that a weight lies in [[0,1]]. *)
Definition in_unit (x : fl) : bool := fl_leb fzero x && fl_leb x fone.

Definition is_nan (x : fl) : bool :=
  match x with NaN => true | _ => false end.

End Float.

Export Float.

(* ------------------------------------------------------------------ *)
(** * numpy operations on vectors and matrices *)
(* ------------------------------------------------------------------ *)

Module Np.

Definition vec := list fl.
Definition matrix := list (list fl).

(** Python slices with the bounds that occur in the sources.  A negative
    stop counts from the end and is clamped at the start of the sequence,
    which is what the truncated subtraction of [nat] does. *)
Definition upto_last (A : Type) (c : nat) (l : list A) : list A :=
  firstn (length l - c) l.                       (* l[:-c] *)
Definition from (A : Type) (c : nat) (l : list A) : list A :=
  skipn c l.                                     (* l[c:] *)
Definition inner (A : Type) (l : list A) : list A :=
  skipn 1 (firstn (length l - 1) l).             (* l[1:-1] *)

Definition nrows (M : matrix) : nat := length M.
Definition ncols (M : matrix) : nat :=
  match M with [] => 0%nat | r :: _ => length r end.

Definition cols (f : vec -> vec) (M : matrix) : matrix := map f M.

Fixpoint zip_with (A B C : Type) (f : A -> B -> C) (a : list A) (b : list B)
  : list C :=
  match a, b with
  | x :: a', y :: b' => f x y :: zip_with f a' b'
  | _, _ => []
  end.

Definition vadd : vec -> vec -> vec := zip_with fl_add.
Definition vsub : vec -> vec -> vec := zip_with fl_sub.
Definition vscale (c : fl) : vec -> vec := map (fl_mul c).
Definition madd : matrix -> matrix -> matrix := zip_with vadd.
Definition msub : matrix -> matrix -> matrix := zip_with vsub.
Definition mscale (c : fl) : matrix -> matrix := map (vscale c).
Definition mabs : matrix -> matrix := map (map fl_abs).

Definition np_sum (v : vec) : fl := fold_left fl_add v fzero.
Definition msum (M : matrix) : fl := np_sum (map np_sum M).

Definition dot (a b : vec) : fl := np_sum (zip_with fl_mul a b).

(** The [j]-th column of a matrix given by rows. *)
Definition column (j : nat) (M : matrix) : vec := map (fun r => nth j r NaN) M.

Definition transpose (M : matrix) : matrix :=
  map (fun j => column j M) (seq 0 (ncols M)).

(** [A.dot(B)]; the column count of the result is that of [B]. *)
Definition matmul (A B : matrix) : matrix :=
  map (fun a => map (dot a) (transpose B)) A.

Definition np_diag (w : vec) : matrix :=
  map (fun i => map (fun j => if Nat.eqb i j then nth i w NaN else fzero)
                    (seq 0 (length w)))
      (seq 0 (length w)).

Definition np_eye (k : nat) : matrix :=
  map (fun i => map (fun j => if Nat.eqb i j then fone else fzero) (seq 0 k))
      (seq 0 k).

(** Sum over the rows ([axis=0]) of a matrix with [n] columns: one entry per
    column.  The column count is passed because a matrix without rows still
    has columns in numpy, and each of them sums to zero. *)
Definition sum_axis0 (n : nat) (M : matrix) : vec :=
  map (fun j => np_sum (column j M)) (seq 0 n).

(** [np.average(M, axis=1)]: one entry per row, the row sum divided by the
    number of columns. *)
Definition average_axis1 (M : matrix) : vec :=
  map (fun r => fl_div (np_sum r) (Fin (inject_Z (Z.of_nat (length r))))) M.

(** [np.average] of all entries of a matrix. *)
Definition average_all (M : matrix) : fl :=
  fl_div (msum M)
         (Fin (inject_Z (Z.of_nat (length (concat M))))).

(** Second difference along the rows axis, [M[:-2] - 2*M[1:-1] + M[2:]],
    and along the columns axis, [M[:, :-2] - 2*M[:, 1:-1] + M[:, 2:]]. *)
Definition diff2_rows (M : matrix) : matrix :=
  madd (msub (upto_last 2 M) (mscale ftwo (inner M))) (from 2 M).
Definition diff2_cols (M : matrix) : matrix :=
  madd (msub (cols (upto_last 2) M) (mscale ftwo (cols (@inner fl) M)))
       (cols (from 2) M).

(** The lag-365 difference [M[:, :-365] - M[:, 365:]]. *)
Definition lag365 (M : matrix) : matrix :=
  msub (cols (upto_last 365) M) (cols (from 365) M).

(** Sum of the squares of all entries. *)
Definition sumsq (M : matrix) : fl :=
  msum (map (map (fun x => fl_mul x x)) M).

(** [np.max] of a vector; NaN propagates.  numpy raises on an empty vector;
    the model then answers NaN, and no caller relies on it. *)
Definition np_max (v : vec) : fl :=
  match v with
  | [] => NaN
  | x :: t => fold_left fl_maximum t x
  end.

(** [w[idx] = 0] for an index array [idx] within range. *)
Definition zero_at (idx : list nat) (w : vec) : vec :=
  map (fun p => if existsb (Nat.eqb (fst p)) idx then fzero else snd p)
      (combine (seq 0 (length w)) w).

(** Boolean-mask selection [v[mask]] and column selection [M[:, mask]]. *)
Fixpoint select (A : Type) (mask : list bool) (l : list A) : list A :=
  match mask, l with
  | b :: mask', x :: l' => if b then x :: select mask' l' else select mask' l'
  | _, _ => []
  end.

Definition select_cols (mask : list bool) (M : matrix) : matrix :=
  map (select mask) M.

End Np.

Export Np.

(* ------------------------------------------------------------------ *)
(** * What the repository takes from outside *)
(* ------------------------------------------------------------------ *)

(** Numeric primitives of numpy whose results are not rational functions of
    their arguments.  [np_sqrt] and [np_power] are given on non-negative
    finite arguments; the special values are added around them below. *)
Class Numeric : Type := {
  np_sqrt : Q -> Q;
  np_power : Q -> Q -> Q;
  np_percentile : vec -> Q -> fl;
  np_median : vec -> fl;
  np_std : vec -> fl
}.

Section NumericOps.
Context {num : Numeric}.

Definition fl_sqrt (x : fl) : fl :=
  match x with
  | Fin q => if Qltb q 0 then NaN else Fin (np_sqrt q)
  | PInf => PInf
  | NInf => NaN
  | NaN => NaN
  end.

(** [np.power(x, e)] for the positive, non-integer exponents of the sources
    (0.1 and 0.9). *)
Definition fl_power (x : fl) (e : Q) : fl :=
  match x with
  | Fin q => if Qltb q 0 then NaN else Fin (np_power q e)
  | PInf => PInf
  | NInf => PInf
  | NaN => NaN
  end.

(** [norm(M, 'fro')]. *)
Definition norm_fro (M : matrix) : fl := fl_sqrt (sumsq M).

End NumericOps.

(** The exceptions the fitting code raises or catches. *)
Inductive exn : Type :=
| SolverError
| ProblemStatusError (msg : string).

Inductive result (A : Type) : Type :=
| Ok (a : A)
| Raise (e : exn).

Arguments Raise {A} e.

Definition bind (A B : Type) (r : result A) (f : A -> result B) : result B :=
  match r with
  | Ok a => f a
  | Raise e => Raise e
  end.

Notation "x <- c ;; k" := (bind c (fun x => k))
  (at level 61, c at next level, right associativity).

(** What [problem.solve] leaves behind: either it raises [cvx.SolverError],
    or it returns with a status string and the values written to the
    decision variables. *)
Inductive solve_result (V : Type) : Type :=
| SolverRaised
| Solved (status : string) (value : V).

Arguments SolverRaised {V}.

(** What the code prints, in the order it prints it.  Number formatting and
    the elapsed time are left out. *)
Inductive event : Type :=
| Starting (objective : fl) (components : list fl)
| Iteration (it : Z) (objective : fl) (components : list fl)
| ObjectiveIncreased
| ReachedIterationLimit (previous_improvement_percent : fl)
| MinimizationComplete
| MinimizingLeft
| MinimizingRight
| ResidualsIncreased
| SolverFailed
| StatusErrorPrinted (msg : string)
| ObtainingWeights.

(** The weighted quantile loss shared by the objective and both subproblems:
    [sum((0.5*abs(D - LR) + (tau - 0.5)*(D - LR)) * diag(w))], where the last
    product is a matrix product. *)
Definition quantile_loss (tau : fl) (D LR : matrix) (w : vec) : fl :=
  msum (matmul (madd (mscale half (mabs (msub D LR)))
                     (mscale (fl_sub tau half) (msub D LR)))
               (np_diag w)).

(* ------------------------------------------------------------------ *)
(** * clearsky/main.py: class IterativeClearSky *)
(* ------------------------------------------------------------------ *)

Module ClearSky.

(** The attributes of the object that the modelled methods read or write.
    [L_cs], [R_cs] and [beta] hold the [.value] of the cvxpy variables; the
    declared shape of [R_cs] is [(k, D.shape[1])]. *)
Record IterativeClearSky : Type := {
  D : matrix;
  k : nat;
  L_cs : matrix;
  R_cs : matrix;
  beta : fl;
  good_fit : bool;
  r0 : vec;
  mu_L : fl;
  mu_R : fl;
  tau : fl;
  weights : vec;
  test_days : option (list nat)
}.

Definition set_L_cs (self : IterativeClearSky) (v : matrix) :=
  {| D := D self; k := k self; L_cs := v; R_cs := R_cs self;
     beta := beta self; good_fit := good_fit self; r0 := r0 self;
     mu_L := mu_L self; mu_R := mu_R self; tau := tau self;
     weights := weights self; test_days := test_days self |}.

Definition set_R_cs (self : IterativeClearSky) (v : matrix) :=
  {| D := D self; k := k self; L_cs := L_cs self; R_cs := v;
     beta := beta self; good_fit := good_fit self; r0 := r0 self;
     mu_L := mu_L self; mu_R := mu_R self; tau := tau self;
     weights := weights self; test_days := test_days self |}.

Definition set_beta (self : IterativeClearSky) (v : fl) :=
  {| D := D self; k := k self; L_cs := L_cs self; R_cs := R_cs self;
     beta := v; good_fit := good_fit self; r0 := r0 self;
     mu_L := mu_L self; mu_R := mu_R self; tau := tau self;
     weights := weights self; test_days := test_days self |}.

Definition set_good_fit (self : IterativeClearSky) (v : bool) :=
  {| D := D self; k := k self; L_cs := L_cs self; R_cs := R_cs self;
     beta := beta self; good_fit := v; r0 := r0 self;
     mu_L := mu_L self; mu_R := mu_R self; tau := tau self;
     weights := weights self; test_days := test_days self |}.

Definition set_r0 (self : IterativeClearSky) (v : vec) :=
  {| D := D self; k := k self; L_cs := L_cs self; R_cs := R_cs self;
     beta := beta self; good_fit := good_fit self; r0 := v;
     mu_L := mu_L self; mu_R := mu_R self; tau := tau self;
     weights := weights self; test_days := test_days self |}.

Definition set_weights (self : IterativeClearSky) (v : vec) :=
  {| D := D self; k := k self; L_cs := L_cs self; R_cs := R_cs self;
     beta := beta self; good_fit := good_fit self; r0 := r0 self;
     mu_L := mu_L self; mu_R := mu_R self; tau := tau self;
     weights := v; test_days := test_days self |}.

(** ** The subproblems handed to the solver *)

(** The constraints of [min_L], one constructor per entry of its list. *)
Inductive constraint_L : Type :=
| L_times_R_nonneg (R : matrix)        (* L_cs * R_cs.value >= 0 *)
| L_rows_zero (mask : list bool)       (* L_cs[mask, :] == 0 *)
| L_tail_columns_sum_zero.             (* cvx.sum(L_cs[:, 1:], axis=0) == 0 *)

Record problem_L : Type := {
  objective_L : matrix -> fl;
  constraints_L : list constraint_L
}.

(** The constraints of [min_R].  The degradation constraints carry the
    coefficient vector [1./r0[:-365]] computed when the problem is built. *)
Inductive constraint_R : Type :=
| L_times_R_nonneg_R (L : matrix)      (* L_cs.value * R_cs >= 0 *)
| degradation_eq_beta (inv_r0 : vec)   (* multiply(1./r0[:-365], r[365:] - r[:-365]) == beta *)
| degradation_eq_zero (inv_r0 : vec)   (* multiply(1./r0[:-365], r[365:] - r[:-365]) == 0 *)
| beta_ge (b : fl)                     (* beta >= b *)
| beta_le (b : fl).                    (* beta <= b *)

(** The objective of [min_R] depends on [R_cs] and on the padding variable
    stacked to its right when the series is shorter than 367 days. *)
Record problem_R : Type := {
  objective_R : matrix -> matrix -> fl;
  constraints_R : list constraint_R
}.

(** The solver, seen from [min_L] and [min_R]. *)
Class Solver : Type := {
  solve_L : problem_L -> solve_result matrix;
  solve_R : problem_R -> solve_result (matrix * fl)
}.

(** When a left factor satisfies a constraint of [min_L], exactly. *)
Definition is_zero (x : fl) : bool :=
  match x with Fin q => Qeq_bool q 0 | _ => false end.

Definition sat_L (rank : nat) (L : matrix) (c : constraint_L) : bool :=
  match c with
  | L_times_R_nonneg R => forallb (forallb (fl_leb fzero)) (matmul L R)
  | L_rows_zero mask => forallb (forallb is_zero) (select mask L)
  | L_tail_columns_sum_zero =>
      forallb is_zero (sum_axis0 (rank - 1) (cols (from 1) L))
  end.

Section Methods.
Context {num : Numeric} {cvx : Solver}.

(** ** [__init__], lines 52-65: the per-day weights

    [x_value] is the value the solver left in the envelope variable [x]. *)
Definition threshold (w : fl) : fl :=
  if fl_ltb w (Fin (6 # 10)) then Fin 0 else w.

Definition temporal_consistency (D : matrix) : vec :=
  let tc := sum_axis0 (ncols D) (mabs (diff2_rows D)) in
  let tc := map (fun t => fl_sub (np_percentile tc 50) t) tc in
  let mx := np_max tc in
  let tc := map (fun t => fl_div t mx) tc in
  map (fun t => np_clip t (Some fzero) None) tc.

Definition energy_ratio (D : matrix) (x_value : vec) : vec :=
  let de := sum_axis0 (ncols D) D in
  map (fun t => np_clip t (Some fzero) (Some fone)) (zip_with fl_div de x_value).

(** The combined score [tc^th * de^(1 - th)] with [th = .1]. *)
Definition score (D : matrix) (x_value : vec) : vec :=
  let th : Q := 1 # 10 in
  zip_with fl_mul
           (map (fun t => fl_power t th) (temporal_consistency D))
           (map (fun t => fl_power t (1 - th)) (energy_ratio D x_value)).

Definition init_weights (D : matrix) (x_value : vec) : vec :=
  map threshold (score D x_value).

(** ** [calc_objective] *)
Definition calc_components (self : IterativeClearSky) : list fl :=
  let f1 := quantile_loss (tau self) (D self)
                          (matmul (L_cs self) (R_cs self)) (weights self) in
  let W2 := np_eye (k self) in
  let f2 := fl_mul (mu_L self)
                   (norm_fro (matmul (diff2_rows (L_cs self)) W2)) in
  let f3 := fl_mul (mu_R self) (norm_fro (diff2_cols (R_cs self))) in
  let f4 := if (ncols (D self) <? 365 + 2)%nat
            then Fin 0
            else fl_mul (mu_R self) (norm_fro (lag365 (from 1 (R_cs self)))) in
  [f1; f2; f3; f4].

Definition calc_objective (self : IterativeClearSky) : fl :=
  np_sum (calc_components self).

(** ** [min_L] *)
Definition zero_average_rows (D : matrix) : list bool :=
  map (fun a => fl_leb a (Fin (1 # 100000))) (average_axis1 D).

Definition build_problem_L (self : IterativeClearSky) : problem_L :=
  let f1 := fun L => quantile_loss (tau self) (D self)
                                   (matmul L (R_cs self)) (weights self) in
  let W2 := np_eye (k self) in
  let f2 := fun L => fl_mul (mu_L self)
                            (norm_fro (matmul (diff2_rows L) W2)) in
  {| objective_L := fun L => fl_add (f1 L) (f2 L);
     constraints_L :=
       [ L_times_R_nonneg (R_cs self);
         L_rows_zero (zero_average_rows (D self));
         L_tail_columns_sum_zero ] |}.

Definition min_L (self : IterativeClearSky) : result IterativeClearSky :=
  match solve_L (build_problem_L self) with
  | SolverRaised => Raise SolverError
  | Solved status value =>
      if negb (String.eqb status "optimal")
      then Raise (ProblemStatusError ("Minimize R status: " ++ status))
      else Ok (set_L_cs self value)
  end.

(** ** [min_R] *)
Definition hstack (R pad : matrix) : matrix := zip_with (@app fl) R pad.

Definition build_problem_R (self : IterativeClearSky) (calc_deg : bool)
           (max_deg min_deg : option fl) : problem_R :=
  let n := ncols (D self) in
  let R_tilde := fun R pad =>
    if (n <? 365 + 2)%nat then hstack R pad else R in
  let f1 := fun R => quantile_loss (tau self) (D self)
                                   (matmul (L_cs self) R) (weights self) in
  let f2 := fun R pad =>
    fl_mul (mu_R self) (norm_fro (diff2_cols (R_tilde R pad))) in
  let inv_r0 := map (fl_div fone) (upto_last 365 (r0 self)) in
  let degradation :=
    if (365 <? n)%nat then
      if calc_deg then
        [degradation_eq_beta inv_r0; beta_ge (Fin (- (1 # 4)))]
        ++ match max_deg with Some b => [beta_le b] | None => [] end
        ++ match min_deg with Some b => [beta_ge b] | None => [] end
      else [degradation_eq_zero inv_r0]
    else [] in
  let f3 := fun R pad =>
    if (365 <? n)%nat
    then fl_mul (mu_R self) (norm_fro (lag365 (from 1 (R_tilde R pad))))
    else fl_mul (mu_R self) (norm_fro (lag365 (R_tilde R pad))) in
  {| objective_R := fun R pad => fl_add (fl_add (f1 R) (f2 R pad)) (f3 R pad);
     constraints_R := L_times_R_nonneg_R (L_cs self) :: degradation |}.

(** [beta] is a variable of the problem only in the branch that adds the
    degradation equation; otherwise the solver leaves its value alone. *)
Definition min_R (self : IterativeClearSky) (calc_deg : bool)
           (max_deg min_deg : option fl) : result IterativeClearSky :=
  match solve_R (build_problem_R self calc_deg max_deg min_deg) with
  | SolverRaised => Raise SolverError
  | Solved status (R_value, beta_value) =>
      if negb (String.eqb status "optimal")
      then Raise (ProblemStatusError ("Minimize R status: " ++ status))
      else
        let self := set_R_cs self R_value in
        let self := if (365 <? ncols (D self))%nat && calc_deg
                    then set_beta self beta_value else self in
        Ok (set_r0 self (nth 0 R_value []))
  end.

(** ** [minimize_objective] *)

(** The local variables of the loop, next to the object and the output. *)
Record loop_state : Type := {
  self_of : IterativeClearSky;
  improvement : fl;
  old_obj : fl;
  it : Z;
  printed : list event
}.

Definition apply_test_days (self : IterativeClearSky) : IterativeClearSky :=
  match test_days self with
  | Some days => set_weights self (zero_at days (weights self))
  | None => self
  end.

(** One pass through the body of the [while]. *)
Definition loop_body (max_iter : Z) (calc_deg : bool)
           (max_deg min_deg : option fl) (s : loop_state) : result loop_state :=
  let self := apply_test_days (self_of s) in
  self <- min_L self ;;
  self <- min_R self calc_deg max_deg min_deg ;;
  let new_obj := calc_objective self in
  let improvement :=
    fl_div (fl_mul (fl_sub (old_obj s) new_obj) fone) (old_obj s) in
  let old_obj := new_obj in
  let it := (it s + 1)%Z in
  let printed := printed s ++ [Iteration it new_obj (calc_components self)] in
  let '(self, improvement, printed) :=
    if fl_ltb improvement fzero
    then (set_good_fit self false, fl_mul improvement (Fin (-1)),
          printed ++ [ObjectiveIncreased])
    else (self, improvement, printed) in
  let '(improvement, printed) :=
    if (max_iter <=? it)%Z
    then (fzero,
          printed ++ [ReachedIterationLimit (fl_mul improvement (Fin 100))])
    else (improvement, printed) in
  Ok {| self_of := self; improvement := improvement; old_obj := old_obj;
        it := it; printed := printed |}.

Fixpoint while_loop (fuel : nat) (eps : fl) (max_iter : Z) (calc_deg : bool)
         (max_deg min_deg : option fl) (s : loop_state)
  : option (result loop_state) :=
  if fl_geb (improvement s) eps then
    match fuel with
    | O => None
    | S fuel' =>
        match loop_body max_iter calc_deg max_deg min_deg s with
        | Ok s' => while_loop fuel' eps max_iter calc_deg max_deg min_deg s'
        | Raise e => Some (Raise e)
        end
    end
  else Some (Ok s).

Definition initial_loop_state (self : IterativeClearSky) : loop_state :=
  {| self_of := set_good_fit self true;
     improvement := PInf;
     old_obj := calc_objective self;
     it := 0;
     printed := [Starting (calc_objective self) (calc_components self)] |}.

(** The method returns nothing; the model returns the final loop state, so
    that the iteration count and the output can be spoken about. *)
Definition minimize_objective (fuel : nat) (self : IterativeClearSky)
           (eps : fl) (max_iter : Z) (calc_deg : bool)
           (max_deg min_deg : option fl) : option (result loop_state) :=
  match while_loop fuel eps max_iter calc_deg max_deg min_deg
                   (initial_loop_state self) with
  | Some (Ok s) =>
      Some (Ok {| self_of := self_of s; improvement := improvement s;
                  old_obj := old_obj s; it := it s;
                  printed := printed s ++ [MinimizationComplete] |})
  | other => other
  end.

End Methods.

End ClearSky.

(* ------------------------------------------------------------------ *)
(** * statistical_clear_sky/algorithm/iterative_fitting.py: class IterativeFitting *)
(* ------------------------------------------------------------------ *)

Module Fitting.

(** [StateData] is declared outside the sources at hand; its fields are the
    attributes that [IterativeFitting] reads and writes.  An empty list is an
    array of size zero, [None] is Python's [None]. *)
Record StateData : Type := {
  mu_l : option fl;
  mu_r : option fl;
  tau : option fl;
  l_value : matrix;
  r_value : matrix;
  beta_value : fl;
  component_r0 : vec;
  f1_increase : bool;
  obj_increase : bool;
  is_solver_error : bool;
  is_problem_status_error : bool;
  residuals_median : option fl;
  residuals_variance : option fl;
  residual_l0_norm : option fl;
  weights : vec
}.

(** The attributes of the object used by the modelled methods.  The three
    result attributes do not exist before their first assignment. *)
Record IterativeFitting : Type := {
  _solver_type : string;
  _power_signals_d : matrix;
  _rank_k : nat;
  _matrix_l0 : matrix;
  _test_days : option (list nat);
  _state_data : StateData;
  _residuals_median : option fl;
  _residuals_variance : option fl;
  _residual_l0_norm : option fl;
  _l_cs_value : option matrix;
  _r_cs_value : option matrix;
  _beta_value : option fl
}.

Definition with_state_data (self : IterativeFitting) (sd : StateData) :=
  {| _solver_type := _solver_type self;
     _power_signals_d := _power_signals_d self;
     _rank_k := _rank_k self; _matrix_l0 := _matrix_l0 self;
     _test_days := _test_days self; _state_data := sd;
     _residuals_median := _residuals_median self;
     _residuals_variance := _residuals_variance self;
     _residual_l0_norm := _residual_l0_norm self;
     _l_cs_value := _l_cs_value self; _r_cs_value := _r_cs_value self;
     _beta_value := _beta_value self |}.

Definition set_f1_increase (sd : StateData) (b : bool) :=
  {| mu_l := mu_l sd; mu_r := mu_r sd; tau := tau sd; l_value := l_value sd;
     r_value := r_value sd; beta_value := beta_value sd;
     component_r0 := component_r0 sd; f1_increase := b;
     obj_increase := obj_increase sd; is_solver_error := is_solver_error sd;
     is_problem_status_error := is_problem_status_error sd;
     residuals_median := residuals_median sd;
     residuals_variance := residuals_variance sd;
     residual_l0_norm := residual_l0_norm sd; weights := weights sd |}.

Definition set_obj_increase (sd : StateData) (b : bool) :=
  {| mu_l := mu_l sd; mu_r := mu_r sd; tau := tau sd; l_value := l_value sd;
     r_value := r_value sd; beta_value := beta_value sd;
     component_r0 := component_r0 sd; f1_increase := f1_increase sd;
     obj_increase := b; is_solver_error := is_solver_error sd;
     is_problem_status_error := is_problem_status_error sd;
     residuals_median := residuals_median sd;
     residuals_variance := residuals_variance sd;
     residual_l0_norm := residual_l0_norm sd; weights := weights sd |}.

Definition set_is_solver_error (sd : StateData) (b : bool) :=
  {| mu_l := mu_l sd; mu_r := mu_r sd; tau := tau sd; l_value := l_value sd;
     r_value := r_value sd; beta_value := beta_value sd;
     component_r0 := component_r0 sd; f1_increase := f1_increase sd;
     obj_increase := obj_increase sd; is_solver_error := b;
     is_problem_status_error := is_problem_status_error sd;
     residuals_median := residuals_median sd;
     residuals_variance := residuals_variance sd;
     residual_l0_norm := residual_l0_norm sd; weights := weights sd |}.

Definition set_is_problem_status_error (sd : StateData) (b : bool) :=
  {| mu_l := mu_l sd; mu_r := mu_r sd; tau := tau sd; l_value := l_value sd;
     r_value := r_value sd; beta_value := beta_value sd;
     component_r0 := component_r0 sd; f1_increase := f1_increase sd;
     obj_increase := obj_increase sd; is_solver_error := is_solver_error sd;
     is_problem_status_error := b;
     residuals_median := residuals_median sd;
     residuals_variance := residuals_variance sd;
     residual_l0_norm := residual_l0_norm sd; weights := weights sd |}.

(** The two minimizer classes are outside the sources at hand.  Each is an
    abstract object type with its constructor and its [minimize] method; the
    method may raise, and may change the minimizer object itself. *)
Class Minimization : Type := {
  LeftMatrixMinimization : Type;
  RightMatrixMinimization : Type;
  new_left :
    matrix -> nat -> vec -> fl -> fl -> string -> LeftMatrixMinimization;
  new_right :
    matrix -> nat -> vec -> fl -> fl -> vec -> bool -> option fl ->
    option fl -> string -> RightMatrixMinimization;
  left_minimize :
    LeftMatrixMinimization -> matrix -> matrix -> fl ->
    result (LeftMatrixMinimization * (matrix * matrix * fl));
  right_minimize :
    RightMatrixMinimization -> matrix -> matrix -> fl ->
    result (RightMatrixMinimization * (matrix * matrix * fl));
  (** [WeightSetting.obtain_weights] *)
  obtain_weights : matrix -> vec
}.

Section Methods.
Context {num : Numeric} {mz : Minimization}.

(** ** [_calculate_objective] with [sum_components=False] *)
Definition _calculate_objective (self : IterativeFitting)
           (mu_l mu_r tau : fl) (l_cs_value r_cs_value : matrix)
           (beta_value : fl) (weights : vec) : list fl :=
  let term_f1 := quantile_loss tau (_power_signals_d self)
                               (matmul l_cs_value r_cs_value) weights in
  let weights_w2 := np_eye (_rank_k self) in
  let term_f2 :=
    fl_mul mu_l (norm_fro (matmul (diff2_rows l_cs_value) weights_w2)) in
  let term_f3 := fl_mul mu_r (norm_fro (diff2_cols r_cs_value)) in
  let term_f4 :=
    if (ncols r_cs_value <? 365 + 2)%nat
    then Fin 0
    else fl_mul mu_r (norm_fro (lag365 (from 1 r_cs_value))) in
  [term_f1; term_f2; term_f3; term_f4].

(** ** [_obtain_weights] *)
Definition _obtain_weights (self : IterativeFitting) : vec :=
  match weights (_state_data self) with
  | _ :: _ => weights (_state_data self)
  | [] =>
      let weights := obtain_weights (_power_signals_d self) in
      match _test_days self with
      | Some days => zero_at days weights
      | None => weights
      end
  end.

(** ** State bookkeeping *)
Definition _store_minimization_state_data (self : IterativeFitting)
           (mu_l' mu_r' tau' : fl) (l_cs_value r_cs_value : matrix)
           (beta_value' : fl) (component_r0' : vec) : IterativeFitting :=
  let sd := _state_data self in
  with_state_data self
    {| mu_l := Some mu_l'; mu_r := Some mu_r'; tau := Some tau';
       l_value := l_cs_value; r_value := r_cs_value;
       beta_value := beta_value'; component_r0 := component_r0';
       f1_increase := f1_increase sd; obj_increase := obj_increase sd;
       is_solver_error := is_solver_error sd;
       is_problem_status_error := is_problem_status_error sd;
       residuals_median := residuals_median sd;
       residuals_variance := residuals_variance sd;
       residual_l0_norm := residual_l0_norm sd; weights := weights sd |}.

Definition _make_result_variables_accessible (self : IterativeFitting)
           (l_cs_value r_cs_value : matrix) (beta_value : fl)
  : IterativeFitting :=
  {| _solver_type := _solver_type self;
     _power_signals_d := _power_signals_d self;
     _rank_k := _rank_k self; _matrix_l0 := _matrix_l0 self;
     _test_days := _test_days self; _state_data := _state_data self;
     _residuals_median := _residuals_median self;
     _residuals_variance := _residuals_variance self;
     _residual_l0_norm := _residual_l0_norm self;
     _l_cs_value := Some l_cs_value; _r_cs_value := Some r_cs_value;
     _beta_value := Some beta_value |}.

(** ** [_analyze_residuals] *)
Definition isclose0 (a : fl) : bool :=
  match a with
  | Fin q => Qle_bool (Qabs q) (1 # 100000000)
  | _ => false
  end.

Definition _analyze_residuals (self : IterativeFitting)
           (l_cs_value r_cs_value : matrix) (weights : vec)
  : IterativeFitting :=
  let d := _power_signals_d self in
  let weights_w1 := np_diag weights in
  let wres := matmul (msub (matmul l_cs_value r_cs_value) d) weights_w1 in
  let use_days :=
    map (fun s => negb (isclose0 s)) (sum_axis0 (length weights) wres) in
  let d_used := select_cols use_days d in
  let scaled_wres :=
    map (map (fun x => fl_div x (average_all d_used)))
        (select_cols use_days wres) in
  let final_metric :=
    concat (zip_with (fun drow row =>
                        select (map (fun x => fl_gtb x (Fin (1 # 1000))) drow)
                               row)
                     d_used scaled_wres) in
  let sd := np_std final_metric in
  {| _solver_type := _solver_type self;
     _power_signals_d := _power_signals_d self;
     _rank_k := _rank_k self; _matrix_l0 := _matrix_l0 self;
     _test_days := _test_days self; _state_data := _state_data self;
     _residuals_median := Some (np_median final_metric);
     _residuals_variance := Some (fl_mul sd sd);
     _residual_l0_norm :=
       Some (fl_sqrt (np_sum (map (fun x => fl_mul x x)
                                  (vsub (column 0 (_matrix_l0 self))
                                        (column 0 l_cs_value)))));
     _l_cs_value := _l_cs_value self; _r_cs_value := _r_cs_value self;
     _beta_value := _beta_value self |}.

(** ** [_minimize_objective] *)

(** The local variables that live across iterations. *)
Record locals : Type := {
  l_cs : matrix;
  r_cs : matrix;
  beta : fl;
  r0 : vec;
  improvement : fl;
  old_objective_value : fl;
  iteration : Z;
  left_matric_minimization : LeftMatrixMinimization;
  right_matric_minimization : RightMatrixMinimization
}.

(** The object together with what has been printed. *)
Record world : Type := {
  obj : IterativeFitting;
  printed : list event
}.

Definition say (verbose : bool) (e : event) (w : world) : world :=
  if verbose then {| obj := obj w; printed := printed w ++ [e] |} else w.

Definition on_obj (f : IterativeFitting -> IterativeFitting) (w : world)
  : world :=
  {| obj := f (obj w); printed := printed w |}.

Definition on_state_data (f : StateData -> StateData) : world -> world :=
  on_obj (fun self => with_state_data self (f (_state_data self))).

(** One pass through the body of the [while].  A raise leaves the world as
    it was when the minimizer was called. *)
Definition loop_body (mu_l mu_r tau : fl) (weights : vec) (max_iteration : Z)
           (verbose : bool) (f1_last : fl) (w : world) (s : locals)
  : world * result locals :=
  let store := fun l r b c0 =>
    on_obj (fun self => _store_minimization_state_data self mu_l mu_r tau
                                                       l r b c0) in
  let w := store (l_cs s) (r_cs s) (beta s) (r0 s) w in
  let w := say verbose MinimizingLeft w in
  match left_minimize (left_matric_minimization s)
                      (l_cs s) (r_cs s) (beta s) with
  | Raise e => (w, Raise e)
  | Ok (left', (l_cs_value, r_cs_value, beta_value)) =>
      let w := say verbose MinimizingRight w in
      match right_minimize (right_matric_minimization s)
                           l_cs_value r_cs_value beta_value with
      | Raise e => (w, Raise e)
      | Ok (right', (l_cs_value, r_cs_value, beta_value)) =>
          let component_r0 := nth 0 r_cs_value [] in
          let objective_values :=
            _calculate_objective (obj w) mu_l mu_r tau l_cs_value r_cs_value
                                 beta_value weights in
          let new_objective_value := np_sum objective_values in
          let improvement :=
            fl_div (fl_mul (fl_sub (old_objective_value s)
                                   new_objective_value) fone)
                   (old_objective_value s) in
          let old_objective_value := new_objective_value in
          let iteration := (iteration s + 1)%Z in
          let w := say verbose
                       (Iteration iteration new_objective_value
                                  objective_values) w in
          let w :=
            if fl_gtb (nth 0 objective_values NaN) f1_last
            then say verbose ResidualsIncreased
                     (on_state_data (fun sd => set_f1_increase sd true) w)
            else w in
          let '(w, improvement) :=
            if fl_ltb improvement fzero
            then (on_state_data (fun sd => set_obj_increase sd true)
                                (say verbose ObjectiveIncreased w),
                  fl_mul improvement (Fin (-1)))
            else (w, improvement) in
          let '(w, improvement) :=
            if (max_iteration <=? iteration)%Z
            then (say verbose
                      (ReachedIterationLimit (fl_mul improvement (Fin 100)))
                      w,
                  fzero)
            else (w, improvement) in
          let w := store l_cs_value r_cs_value beta_value component_r0 w in
          (w, Ok {| l_cs := l_cs_value; r_cs := r_cs_value;
                    beta := beta_value; r0 := component_r0;
                    improvement := improvement;
                    old_objective_value := old_objective_value;
                    iteration := iteration;
                    left_matric_minimization := left';
                    right_matric_minimization := right' |})
      end
  end.

Fixpoint while_loop (fuel : nat) (mu_l mu_r tau : fl) (weights : vec)
         (exit_criterion_epsilon : fl) (max_iteration : Z) (verbose : bool)
         (f1_last : fl) (w : world) (s : locals)
  : option (world * result locals) :=
  if fl_geb (improvement s) exit_criterion_epsilon then
    match fuel with
    | O => None
    | S fuel' =>
        match loop_body mu_l mu_r tau weights max_iteration verbose
                        f1_last w s with
        | (w', Ok s') =>
            while_loop fuel' mu_l mu_r tau weights exit_criterion_epsilon
                       max_iteration verbose f1_last w' s'
        | (w', Raise e) => Some (w', Raise e)
        end
    end
  else Some (w, Ok s).

(** The locals as they stand when the loop is first tested. *)
Definition initial_locals (self : IterativeFitting)
           (l_cs_value r_cs_value : matrix) (beta_value : fl)
           (component_r0 weights : vec) (mu_l mu_r tau : fl)
           (is_degradation_calculated : bool)
           (max_degradation min_degradation : option fl) : locals :=
  let objective_values :=
    _calculate_objective self mu_l mu_r tau l_cs_value r_cs_value beta_value
                         weights in
  {| l_cs := l_cs_value; r_cs := r_cs_value; beta := beta_value;
     r0 := component_r0;
     improvement := PInf;
     old_objective_value := np_sum objective_values;
     iteration := 0;
     left_matric_minimization :=
       new_left (_power_signals_d self) (_rank_k self) weights tau mu_l
                (_solver_type self);
     right_matric_minimization :=
       new_right (_power_signals_d self) (_rank_k self) weights tau mu_r
                 component_r0 is_degradation_calculated max_degradation
                 min_degradation (_solver_type self) |}.

(** The handlers of the [try] statement and its [else] branch. *)
Definition finish (verbose : bool) (weights : vec)
           (r : world * result locals) : world * result locals :=
  match r with
  | (w, Raise SolverError) =>
      (on_state_data (fun sd => set_is_solver_error sd true)
                     (say verbose SolverFailed w),
       Raise SolverError)
  | (w, Raise (ProblemStatusError msg)) =>
      (on_state_data (fun sd => set_is_problem_status_error sd true)
                     (say verbose (StatusErrorPrinted msg) w),
       Raise (ProblemStatusError msg))
  | (w, Ok s) =>
      let w := say verbose MinimizationComplete w in
      let w := on_obj (fun self =>
                         _analyze_residuals self (l_cs s) (r_cs s) weights) w in
      let w := on_obj (fun self =>
                         _make_result_variables_accessible
                           self (l_cs s) (r_cs s) (beta s)) w in
      (w, Ok s)
  end.

(** The method returns nothing.  The model returns the object and the output
    and, so that iteration counts can be spoken about, the locals at the
    exit of the loop or the exception that was caught. *)
Definition _minimize_objective (fuel : nat) (self : IterativeFitting)
           (l_cs_value r_cs_value : matrix) (beta_value : fl)
           (component_r0 weights : vec) (mu_l mu_r tau : fl)
           (exit_criterion_epsilon : fl) (max_iteration : Z)
           (is_degradation_calculated : bool)
           (max_degradation min_degradation : option fl) (verbose : bool)
  : option (world * result locals) :=
  let s0 := initial_locals self l_cs_value r_cs_value beta_value component_r0
                           weights mu_l mu_r tau is_degradation_calculated
                           max_degradation min_degradation in
  let f1_last :=
    nth 0 (_calculate_objective self mu_l mu_r tau l_cs_value r_cs_value
                                beta_value weights) NaN in
  let w0 := say verbose
                (Starting (old_objective_value s0)
                          (_calculate_objective self mu_l mu_r tau l_cs_value
                                                r_cs_value beta_value weights))
                {| obj := self; printed := [] |} in
  option_map (finish verbose weights)
             (while_loop fuel mu_l mu_r tau weights exit_criterion_epsilon
                         max_iteration verbose f1_last w0 s0).

End Methods.

End Fitting.

(* ------------------------------------------------------------------ *)
(** * Runs of the loop of [_minimize_objective] *)
(* ------------------------------------------------------------------ *)

Module Runs.
Import Fitting.

Section Runs.
Context {num : Numeric} {mz : Minimization}.

(** The fractional improvement as the body computes it, before the sign flip
    and before the cap. *)
Definition raw_improvement (old_value new_value : fl) : fl :=
  fl_div (fl_mul (fl_sub old_value new_value) fone) old_value.

(** The loop head reached after [n] passes through the body, each entered
    with the loop condition true and left without a raise. *)
Fixpoint after (n : nat) (mu_l mu_r tau : fl) (weights : vec)
         (exit_criterion_epsilon : fl) (max_iteration : Z) (verbose : bool)
         (f1_last : fl) (w : world) (s : locals) : option (world * locals) :=
  match n with
  | O => Some (w, s)
  | S n' =>
      if fl_geb (improvement s) exit_criterion_epsilon then
        match loop_body mu_l mu_r tau weights max_iteration verbose
                        f1_last w s with
        | (w', Ok s') =>
            after n' mu_l mu_r tau weights exit_criterion_epsilon
                  max_iteration verbose f1_last w' s'
        | (_, Raise _) => None
        end
      else None
  end.

(** The world in which the loop is first tested. *)
Definition initial_world (self : IterativeFitting)
           (l_cs_value r_cs_value : matrix) (beta_value : fl)
           (weights : vec) (mu_l mu_r tau : fl) (verbose : bool) : world :=
  let objective_values :=
    _calculate_objective self mu_l mu_r tau l_cs_value r_cs_value beta_value
                         weights in
  say verbose (Starting (np_sum objective_values) objective_values)
      {| obj := self; printed := [] |}.

Definition initial_f1 (self : IterativeFitting)
           (l_cs_value r_cs_value : matrix) (beta_value : fl)
           (weights : vec) (mu_l mu_r tau : fl) : fl :=
  nth 0 (_calculate_objective self mu_l mu_r tau l_cs_value r_cs_value
                              beta_value weights) NaN.

(** The snapshot held by the state data. *)
Definition snapshot (self : IterativeFitting) : matrix * matrix * fl * vec :=
  let sd := _state_data self in
  (l_value sd, r_value sd, Fitting.beta_value sd, component_r0 sd).

(** What the object publishes: the result accessors and the residual
    statistics. *)
Definition published (self : IterativeFitting)
  : option matrix * option matrix * option fl
    * (option fl * option fl * option fl) :=
  (_l_cs_value self, _r_cs_value self, _beta_value self,
   (_residuals_median self, _residuals_variance self,
    _residual_l0_norm self)).

(** The failure flag that belongs to an exception. *)
Definition failure_flag (e : exn) (sd : StateData) : bool :=
  match e with
  | SolverError => is_solver_error sd
  | ProblemStatusError _ => is_problem_status_error sd
  end.

End Runs.

End Runs.

(* ------------------------------------------------------------------ *)
(** * Sample data and sample backends *)
(* ------------------------------------------------------------------ *)

Module Samples.

(** A numeric backend that can be run: the square root rounded down to
    three decimals, the median by sorting, the population standard
    deviation, and a coarse power that is exact at 0 and at 1. *)
Definition sqrt3 (q : Q) : Q :=
  Z.sqrt (Qnum q * Zpos (Qden q) * 1000000) # (Qden q * 1000).

Fixpoint insert_sorted (x : Q) (l : list Q) : list Q :=
  match l with
  | [] => [x]
  | y :: t => if Qle_bool x y then x :: l else y :: insert_sorted x t
  end.

Definition sort_values (l : list Q) : list Q := fold_right insert_sorted [] l.

Fixpoint finite_values (v : vec) : option (list Q) :=
  match v with
  | [] => Some []
  | Fin q :: t => option_map (cons q) (finite_values t)
  | _ :: _ => None
  end.

Definition median (v : vec) : fl :=
  match finite_values v with
  | None | Some [] => NaN
  | Some l =>
      let s := sort_values l in
      let n := length s in
      if Nat.even n
      then Fin ((nth (n / 2 - 1) s 0 + nth (n / 2) s 0) / 2)
      else Fin (nth (n / 2) s 0)
  end.

Definition std (v : vec) : fl :=
  let n := Fin (inject_Z (Z.of_nat (length v))) in
  let mean := fl_div (np_sum v) n in
  let dev := map (fun x => fl_mul (fl_sub x mean) (fl_sub x mean)) v in
  match fl_div (np_sum dev) n with
  | Fin q => Fin (sqrt3 q)
  | other => other
  end.

#[export] Instance sample_numeric : Numeric := {
  np_sqrt := sqrt3;
  np_power := fun q e => if Qeq_bool e 0 then 1 else q;
  np_percentile := fun v _ => median v;
  np_median := median;
  np_std := std
}.

(** A solver that answers every left problem with one status and value and
    every right problem with another. *)
Definition constant_solver (status_L : string) (value_L : matrix)
           (status_R : string) (value_R : matrix) (value_beta : fl)
  : ClearSky.Solver :=
  {| ClearSky.solve_L := fun _ => Solved status_L value_L;
     ClearSky.solve_R := fun _ => Solved status_R (value_R, value_beta) |}.

(** Minimizers that play a script: each call consumes the next entry, which
    is the new factor or an exception; once the script is exhausted the
    factors are returned unchanged. *)
Definition scripted (left_script right_script : list (result matrix))
           (fresh_weights : vec) : Fitting.Minimization :=
  {| Fitting.LeftMatrixMinimization := list (result matrix);
     Fitting.RightMatrixMinimization := list (result matrix);
     Fitting.new_left := fun _ _ _ _ _ _ => left_script;
     Fitting.new_right := fun _ _ _ _ _ _ _ _ _ _ => right_script;
     Fitting.left_minimize := fun script l r b =>
       match script with
       | [] => Ok ([], (l, r, b))
       | Ok l' :: rest => Ok (rest, (l', r, b))
       | Raise e :: _ => Raise e
       end;
     Fitting.right_minimize := fun script l r b =>
       match script with
       | [] => Ok ([], (l, r, b))
       | Ok r' :: rest => Ok (rest, (l, r', b))
       | Raise e :: _ => Raise e
       end;
     Fitting.obtain_weights := fun _ => fresh_weights |}.

(** One sample a day, one day: the measurement 10, rank 1. *)
Definition one_by_one (x : Q) : matrix := [[Fin x]].

Definition empty_state_data : Fitting.StateData :=
  {| Fitting.mu_l := None; Fitting.mu_r := None; Fitting.tau := None;
     Fitting.l_value := []; Fitting.r_value := [];
     Fitting.beta_value := fzero; Fitting.component_r0 := [];
     Fitting.f1_increase := false; Fitting.obj_increase := false;
     Fitting.is_solver_error := false;
     Fitting.is_problem_status_error := false;
     Fitting.residuals_median := None; Fitting.residuals_variance := None;
     Fitting.residual_l0_norm := None; Fitting.weights := [] |}.

Definition fitting_1x1 : Fitting.IterativeFitting :=
  {| Fitting._solver_type := "ecos";
     Fitting._power_signals_d := one_by_one 10;
     Fitting._rank_k := 1;
     Fitting._matrix_l0 := one_by_one 1;
     Fitting._test_days := None;
     Fitting._state_data := empty_state_data;
     Fitting._residuals_median := None;
     Fitting._residuals_variance := None;
     Fitting._residual_l0_norm := None;
     Fitting._l_cs_value := Some (one_by_one 1);
     Fitting._r_cs_value := Some (one_by_one 0);
     Fitting._beta_value := Some fzero |}.

(** [_minimize_objective] on the 1x1 sample, with the default [mu_l], [mu_r]
    and [tau], degradation on, no bounds. *)
Definition run_1x1 (mz : Fitting.Minimization) (fuel : nat) (r_start : Q)
           (weights : vec) (eps : fl) (max_iteration : Z) (verbose : bool) :=
  @Fitting._minimize_objective sample_numeric mz fuel fitting_1x1
    (one_by_one 1) (one_by_one r_start) fzero [Fin r_start] weights
    (Fin 1) (Fin 20) (Fin (8 # 10)) eps max_iteration true None None verbose.

Definition clearsky_1x1 (r_start : Q) (weights : vec)
  : ClearSky.IterativeClearSky :=
  {| ClearSky.D := one_by_one 10; ClearSky.k := 1;
     ClearSky.L_cs := one_by_one 1; ClearSky.R_cs := one_by_one r_start;
     ClearSky.beta := fzero; ClearSky.good_fit := false;
     ClearSky.r0 := [Fin r_start];
     ClearSky.mu_L := Fin 1; ClearSky.mu_R := Fin 20;
     ClearSky.tau := Fin (8 # 10);
     ClearSky.weights := weights; ClearSky.test_days := None |}.

(** Three identical days of three samples each. *)
Definition ones_3x3 : matrix :=
  [[Fin 1; Fin 1; Fin 1]; [Fin 1; Fin 1; Fin 1]; [Fin 1; Fin 1; Fin 1]].

(** Two samples a day, two days, the second day a sensor dropout. *)
Definition dropout_2x2 : matrix := [[Fin 1; Fin 0]; [Fin 1; Fin 0]].

Definition clearsky_dropout : ClearSky.IterativeClearSky :=
  {| ClearSky.D := dropout_2x2; ClearSky.k := 1;
     ClearSky.L_cs := [[Fin 1]; [Fin 1]]; ClearSky.R_cs := [[Fin 1; Fin 0]];
     ClearSky.beta := fzero; ClearSky.good_fit := false;
     ClearSky.r0 := [Fin 1; Fin 0];
     ClearSky.mu_L := Fin 1; ClearSky.mu_R := Fin 20;
     ClearSky.tau := Fin (8 # 10);
     ClearSky.weights := [Fin 1; Fin 0]; ClearSky.test_days := None |}.

End Samples.

(* ------------------------------------------------------------------ *)
(** * The periodicity penalty, entry by entry *)
(* ------------------------------------------------------------------ *)

Module Periodicity.

(** The sum of squares behind the annual-periodicity term, written over the
    entries it ties together: every row but row 0, every day [t] that has a
    day [t + 365] in a series of [n] days.  This follows the description of
    the term, not the slices of the code, and is compared with them below. *)
Definition periodicity_sumsq (R : matrix) (n : nat) : fl :=
  np_sum
    (map (fun i =>
            np_sum
              (map (fun t =>
                      let d := fl_sub (nth t (nth i R []) NaN)
                                      (nth (t + 365) (nth i R []) NaN) in
                      fl_mul d d)
                   (seq 0 (n - 365))))
         (seq 1 (length R - 1))).

End Periodicity.

Module MoreSamples.
Import Samples.

(** Two samples a day, two days; the second sample is always dark. *)
Definition night_2x2 : matrix := [[Fin 1; Fin 1]; [Fin 0; Fin 0]].

Definition clearsky_night : ClearSky.IterativeClearSky :=
  {| ClearSky.D := night_2x2; ClearSky.k := 1;
     ClearSky.L_cs := [[Fin 1]; [Fin 1]]; ClearSky.R_cs := [[Fin 1; Fin 1]];
     ClearSky.beta := fzero; ClearSky.good_fit := false;
     ClearSky.r0 := [Fin 1; Fin 1];
     ClearSky.mu_L := Fin 1; ClearSky.mu_R := Fin 20;
     ClearSky.tau := Fin (8 # 10);
     ClearSky.weights := [Fin 1; Fin 1]; ClearSky.test_days := None |}.

(** One sample a day over 366 days, so that the degradation constraint is
    built. *)
Definition clearsky_366 : ClearSky.IterativeClearSky :=
  {| ClearSky.D := [repeat (Fin 1) 366]; ClearSky.k := 1;
     ClearSky.L_cs := [[Fin 1]]; ClearSky.R_cs := [repeat (Fin 1) 366];
     ClearSky.beta := fzero; ClearSky.good_fit := false;
     ClearSky.r0 := repeat (Fin 1) 366;
     ClearSky.mu_L := Fin 1; ClearSky.mu_R := Fin 20;
     ClearSky.tau := Fin (8 # 10);
     ClearSky.weights := repeat (Fin 1) 366; ClearSky.test_days := None |}.

(** Solvers for the samples: each reports ['optimal'] with a fixed value. *)
Definition night_solver : ClearSky.Solver :=
  constant_solver "optimal" [[Fin 1]; [Fin 0]] "optimal" [[Fin 1; Fin 1]] fzero.

Definition dropout_solver : ClearSky.Solver :=
  constant_solver "optimal" [[Fin 1]; [Fin 1]] "optimal" [[Fin 1; Fin 0]] fzero.

Definition solver_366 : ClearSky.Solver :=
  constant_solver "optimal" [[Fin 1]] "optimal" [repeat (Fin 2) 366]
                  (Fin (- (1 # 10))).

(** A right factor of two rows over 367 days: flat, but for the first day of
    the second row. *)
Definition right_367 : matrix :=
  [repeat (Fin 1) 367; Fin 5 :: repeat (Fin 1) 366].

End MoreSamples.

Module Scenarios.
Import Samples.

(** Scripts for the minimizers of the 1x1 sample.  With the left factor 1,
    the measurement 10 and the weight 1, the objective is [0.8 * (10 - r)]
    for a right factor [r] below 10. *)
Definition idle : Fitting.Minimization := scripted [] [] [].

Definition one_step : Fitting.Minimization :=
  scripted [] [Ok (one_by_one 5)] [].

(** From [r = 5] to [r = 3]: the objective rises from 4 to 5.6. *)
Definition rise : Fitting.Minimization :=
  scripted [] [Ok (one_by_one 3)] [].

(** From [r = 0] to 5 to 3: the loss falls from 8 to 4 and rises to 5.6. *)
Definition dip_then_rise : Fitting.Minimization :=
  scripted [] [Ok (one_by_one 5); Ok (one_by_one 3)] [].

(** The right minimizer succeeds once and then reports a status error. *)
Definition fails_second : Fitting.Minimization :=
  scripted []
           [Ok (one_by_one 5);
            Raise (ProblemStatusError "Minimize R status: infeasible")]
           [].

(** The world, the locals and the reference loss with which the loop of the
    1x1 sample starts, and its first pass. *)
Definition world_1x1 (r_start : Q) (weights : vec) (verbose : bool)
  : Fitting.world :=
  @Runs.initial_world sample_numeric fitting_1x1 (one_by_one 1)
    (one_by_one r_start) fzero weights (Fin 1) (Fin 20) (Fin (8 # 10)) verbose.

Definition locals_1x1 (mz : Fitting.Minimization) (r_start : Q)
           (weights : vec) : Fitting.locals :=
  @Fitting.initial_locals sample_numeric mz fitting_1x1 (one_by_one 1)
    (one_by_one r_start) fzero [Fin r_start] weights (Fin 1) (Fin 20)
    (Fin (8 # 10)) true None None.

Definition f1_1x1 (r_start : Q) (weights : vec) : fl :=
  @Runs.initial_f1 sample_numeric fitting_1x1 (one_by_one 1)
    (one_by_one r_start) fzero weights (Fin 1) (Fin 20) (Fin (8 # 10)).

Definition first_pass_1x1 (mz : Fitting.Minimization) (r_start : Q)
           (weights : vec) (max_iteration : Z) (verbose : bool)
  : Fitting.world * result Fitting.locals :=
  @Fitting.loop_body sample_numeric mz (Fin 1) (Fin 20) (Fin (8 # 10)) weights
    max_iteration verbose (f1_1x1 r_start weights)
    (world_1x1 r_start weights verbose) (locals_1x1 mz r_start weights).

(** The loop head of the 1x1 sample after [n] passes, and the fit loss
    ([f1], component 0 of the objective) at a loop head. *)
Definition after_1x1 (mz : Fitting.Minimization) (n : nat) (r_start : Q)
           (weights : vec) (eps : fl) (max_iteration : Z) (verbose : bool)
  : option (Fitting.world * Fitting.locals) :=
  @Runs.after sample_numeric mz n (Fin 1) (Fin 20) (Fin (8 # 10)) weights eps
    max_iteration verbose (f1_1x1 r_start weights)
    (world_1x1 r_start weights verbose) (locals_1x1 mz r_start weights).

Definition loss_1x1 (mz : Fitting.Minimization) (weights : vec)
           (s : Fitting.locals) : fl :=
  nth 0 (@Fitting._calculate_objective sample_numeric fitting_1x1 (Fin 1)
           (Fin 20) (Fin (8 # 10)) (Fitting.l_cs s) (Fitting.r_cs s)
           (Fitting.beta s) weights) NaN.

(** The same 1x1 sample for [IterativeClearSky], with a solver that always
    answers [L = 1] and [R = r]. *)
Definition sky_solver (r : Q) : ClearSky.Solver :=
  constant_solver "optimal" (one_by_one 1) "optimal" (one_by_one r) fzero.

Definition sky_run (fuel : nat) (r_solver r_start : Q) (weights : vec)
           (eps : fl) (max_iter : Z) :=
  @ClearSky.minimize_objective sample_numeric (sky_solver r_solver) fuel
    (clearsky_1x1 r_start weights) eps max_iter true (Some fzero)
    (Some (Fin (- (1 # 4)))).

Definition sky_first_pass (r_solver r_start : Q) (weights : vec)
           (max_iter : Z) :=
  @ClearSky.loop_body sample_numeric (sky_solver r_solver) max_iter true
    (Some fzero) (Some (Fin (- (1 # 4))))
    (@ClearSky.initial_loop_state sample_numeric
                                  (clearsky_1x1 r_start weights)).

(** The default epsilon. *)
Definition eps_default : fl := Fin (1 # 1000).

End Scenarios.

(* ------------------------------------------------------------------ *)
(** * Start-up code of both classes *)
(* ------------------------------------------------------------------ *)

Module Startup.

(** [np.isclose(a, b)] with the default tolerances: finite values are close
    when [|a - b| <= 1e-8 + 1e-5 * |b|]; an infinity is close to itself
    only; NaN is close to nothing. *)
Definition np_isclose (a b : fl) : bool :=
  match a, b with
  | Fin x, Fin y =>
      Qle_bool (Qabs (x - y)) ((1 # 100000000) + (1 # 100000) * Qabs y)
  | PInf, PInf | NInf, NInf => true
  | _, _ => false
  end.

(** [np.alltrue(np.isclose(A, B))] for two matrices of one shape. *)
Definition all_close (A B : matrix) : bool :=
  forallb (fun b : bool => b) (concat (zip_with (zip_with np_isclose) A B)).

(** What the start-up code calls outside the sources at hand:
    [fix_time_shifts], [np.random.choice(day_indices, num, replace=False)]
    (given the number of days and [num]) and
    [LinearizationHelper.obtain_component_r0]. *)
Class Collaborators : Type := {
  fix_time_shifts : matrix -> matrix;
  np_random_choice : nat -> Z -> list nat;
  obtain_component_r0 : matrix -> matrix -> vec -> matrix -> nat -> vec
}.

(** ** [_handle_time_shift]: the matrix to fit and [_fixed_time_stamps] *)
Definition _handle_time_shift {env : Collaborators}
           (power_signals_d : matrix) (auto_fix_time_shifts : bool)
  : matrix * bool :=
  if auto_fix_time_shifts then
    let power_signals_d_fix := fix_time_shifts power_signals_d in
    if all_close power_signals_d power_signals_d_fix
    then (power_signals_d, false)
    else (power_signals_d_fix, true)
  else (power_signals_d, false).

(** ** [_adjust_low_rank_matrices], and lines 31-33 of main.py

    [U[:, 0] *= -1] and [V[0] *= -1]. *)
Definition flip (x : fl) : fl := fl_mul x (Fin (-1)).

Definition flip_column0 (U : matrix) : matrix :=
  map (fun row => match row with
                  | x :: rest => flip x :: rest
                  | [] => []
                  end) U.

Definition flip_row0 (V : matrix) : matrix :=
  match V with
  | row :: rest => map flip row :: rest
  | [] => []
  end.

Definition _adjust_low_rank_matrices (left_low_rank_matrix_u
                                      right_low_rank_matrix_v : matrix)
  : matrix * matrix :=
  if fl_ltb (np_sum (column 0 left_low_rank_matrix_u)) fzero
  then (flip_column0 left_low_rank_matrix_u,
        flip_row0 right_low_rank_matrix_v)
  else (left_low_rank_matrix_u, right_low_rank_matrix_v).

(** ** [_set_testdays], and lines 66-72 of main.py

    [reserve_test_data] is [False], [True] or a fraction. *)
Inductive reserve : Type :=
| ReserveFalse
| ReserveTrue
| ReserveFraction (q : Q).

(** Python's truth value of the argument. *)
Definition truthy (r : reserve) : bool :=
  match r with
  | ReserveFalse => false
  | ReserveTrue => true
  | ReserveFraction q => negb (Qeq_bool q 0)
  end.

(** [int(n * reserve_test_data)]: the product, truncated toward zero. *)
Definition reserved_count (n : nat) (r : reserve) : Z :=
  match r with
  | ReserveFalse => 0
  | ReserveTrue => Z.of_nat n
  | ReserveFraction q =>
      let p := inject_Z (Z.of_nat n) * q in
      Z.quot (Qnum p) (Zpos (Qden p))
  end.

(** [np.sort] on day indices. *)
Fixpoint insert_day (d : nat) (l : list nat) : list nat :=
  match l with
  | [] => [d]
  | x :: rest => if (d <=? x)%nat then d :: l else x :: insert_day d rest
  end.

Definition np_sort (l : list nat) : list nat := fold_right insert_day [] l.

Definition _set_testdays {env : Collaborators} (n : nat)
           (reserve_test_data : reserve) : option (list nat) :=
  if truthy reserve_test_data then
    let num := reserved_count n reserve_test_data in
    Some (np_sort (np_random_choice n num))
  else None.

End Startup.

(* ------------------------------------------------------------------ *)
(** * iterative_fitting.py: [execute] and the values it starts from *)
(* ------------------------------------------------------------------ *)

Module Execute.
Import Fitting Startup.

(** The attributes that hold the singular value decomposition. *)
Record Decomposition : Type := {
  _left_low_rank_matrix_u : matrix;
  _singular_values_sigma : vec;
  _right_low_rank_matrix_v : matrix
}.

(** [a.size] of a two-dimensional array. *)
Definition size (M : matrix) : nat := length (concat M).

(** [x != 0.0] *)
Definition differs_from_zero (x : fl) : bool :=
  match x with
  | Fin q => negb (Qeq_bool q 0)
  | _ => true
  end.

Definition _store_final_state_data (self : IterativeFitting) (weights' : vec)
  : IterativeFitting :=
  let sd := _state_data self in
  with_state_data self
    {| mu_l := mu_l sd; mu_r := mu_r sd; tau := tau sd;
       l_value := l_value sd; r_value := r_value sd;
       beta_value := beta_value sd; component_r0 := component_r0 sd;
       f1_increase := f1_increase sd; obj_increase := obj_increase sd;
       is_solver_error := is_solver_error sd;
       is_problem_status_error := is_problem_status_error sd;
       residuals_median := _residuals_median self;
       residuals_variance := _residuals_variance self;
       residual_l0_norm := _residual_l0_norm self;
       weights := weights' |}.

(** The two messages that [execute] prints through the helpers below, whose
    [verbose] parameter it leaves at its default [True]. *)
Inductive announcement : Type :=
| ObtainingComponentR0
| ObtainingWeightsAnnounced.

Section Methods.
Context {num : Numeric} {mz : Minimization} {env : Collaborators}.

Definition _obtain_initial_values (self : IterativeFitting)
           (svd : Decomposition)
  : IterativeFitting * (matrix * matrix * fl) :=
  let sd := _state_data self in
  let l_cs_value :=
    if (0 <? size (l_value sd))%nat then l_value sd
    else cols (firstn (_rank_k self)) (_left_low_rank_matrix_u svd) in
  let r_cs_value :=
    if (0 <? size (r_value sd))%nat then r_value sd
    else matmul (np_diag (firstn (_rank_k self) (_singular_values_sigma svd)))
                (firstn (_rank_k self) (_right_low_rank_matrix_v svd)) in
  let beta_value' :=
    if differs_from_zero (beta_value sd) then beta_value sd else Fin 0 in
  (_make_result_variables_accessible self l_cs_value r_cs_value beta_value',
   (l_cs_value, r_cs_value, beta_value')).

Definition _obtain_initial_component_r0 (self : IterativeFitting)
           (svd : Decomposition) : vec :=
  match component_r0 (_state_data self) with
  | _ :: _ => component_r0 (_state_data self)
  | [] =>
      obtain_component_r0 (_power_signals_d self)
                          (_left_low_rank_matrix_u svd)
                          (_singular_values_sigma svd)
                          (_right_low_rank_matrix_v svd) (_rank_k self)
  end.

(** [execute]: the announcements, then the world and the outcome of
    [_minimize_objective], with the final state data stored. *)
Definition execute (fuel : nat) (self : IterativeFitting)
           (svd : Decomposition) (mu_l mu_r tau : fl)
           (exit_criterion_epsilon : fl) (max_iteration : Z)
           (is_degradation_calculated : bool)
           (max_degradation min_degradation : option fl) (verbose : bool)
  : option (list announcement * world * result locals) :=
  let '(self, (l_cs_value, r_cs_value, beta_value)) :=
    _obtain_initial_values self svd in
  let component_r0 := _obtain_initial_component_r0 self svd in
  let weights := _obtain_weights self in
  match _minimize_objective fuel self l_cs_value r_cs_value beta_value
                            component_r0 weights mu_l mu_r tau
                            exit_criterion_epsilon max_iteration
                            is_degradation_calculated max_degradation
                            min_degradation verbose with
  | None => None
  | Some (w, outcome) =>
      Some ([ObtainingComponentR0; ObtainingWeightsAnnounced],
            on_obj (fun self => _store_final_state_data self weights) w,
            outcome)
  end.

(** [clear_sky_signals]: the product of the published factors.  Before the
    attributes exist the method cannot be evaluated. *)
Definition clear_sky_signals (self : IterativeFitting) : option matrix :=
  match _l_cs_value self, _r_cs_value self with
  | Some l, Some r => Some (matmul l r)
  | _, _ => None
  end.

End Methods.

End Execute.

(* ------------------------------------------------------------------ *)
(** * Constraints on the degradation rate, and value equality *)
(* ------------------------------------------------------------------ *)

Module Meaning.

(** Two floats that compare equal as numbers (NaN equals nothing). *)
Definition fl_eqb (x y : fl) : bool :=
  match x, y with
  | Fin a, Fin b => Qeq_bool a b
  | PInf, PInf | NInf, NInf => true
  | _, _ => false
  end.

(** Two floats that are the same value: equal as numbers, or both NaN. *)
Definition same_value (x y : fl) : bool :=
  match x, y with
  | NaN, NaN => true
  | _, _ => fl_eqb x y
  end.

(** When a value of [beta] satisfies a bound constraint of [min_R]; the
    constraints that do not bound [beta] alone are left to the solver. *)
Definition beta_within (b : fl) (c : ClearSky.constraint_R) : bool :=
  match c with
  | ClearSky.beta_ge lo => fl_leb lo b
  | ClearSky.beta_le hi => fl_leb b hi
  | _ => true
  end.

(** Whether a constraint mentions [beta] at all. *)
Definition mentions_beta (c : ClearSky.constraint_R) : bool :=
  match c with
  | ClearSky.degradation_eq_beta _ => true
  | ClearSky.beta_ge _ | ClearSky.beta_le _ => true
  | _ => false
  end.

(** The data of the problem as a pass of [minimize_objective] sees it. *)
Definition problem_data (x : ClearSky.IterativeClearSky) :=
  (ClearSky.D x, ClearSky.k x, ClearSky.mu_L x, ClearSky.mu_R x,
   ClearSky.tau x, ClearSky.test_days x).

(** Weights with the test days of the object set to zero. *)
Definition masked (x : ClearSky.IterativeClearSky) (w : vec) : vec :=
  match ClearSky.test_days x with
  | Some days => zero_at days w
  | None => w
  end.

End Meaning.

Module ExtraSamples.
Import Samples Startup.

(** Collaborators for the samples: a time-shift fix that changes nothing, a
    choice that takes the first [num] days, a flat initial [r0]. *)
Definition idle_collaborators : Collaborators :=
  {| fix_time_shifts := fun D => D;
     np_random_choice := fun n num => seq 0 (Z.to_nat num);
     obtain_component_r0 := fun D _ _ _ _ => repeat fone (ncols D) |}.

Definition svd_1x1 : Execute.Decomposition :=
  {| Execute._left_low_rank_matrix_u := one_by_one 1;
     Execute._singular_values_sigma := [Fin 10];
     Execute._right_low_rank_matrix_v := one_by_one 1 |}.

(** The 1x1 object after an earlier fit that left every flag set. *)
Definition flagged_1x1 : Fitting.IterativeFitting :=
  Fitting.with_state_data
    fitting_1x1
    (Fitting.set_f1_increase
       (Fitting.set_obj_increase
          (Fitting.set_is_solver_error
             (Fitting.set_is_problem_status_error empty_state_data true)
             true)
          true)
       true).

Definition run_flagged (fuel : nat) (verbose : bool) :=
  @Fitting._minimize_objective sample_numeric Scenarios.one_step fuel
    flagged_1x1 (one_by_one 1) (one_by_one 0) fzero [Fin 0] [Fin 1]
    (Fin 1) (Fin 20) (Fin (8 # 10)) Scenarios.eps_default 100 true None None
    verbose.

(** Minimizers that move the right factor to 5 once; the weight setting
    gives the single day the weight 1. *)
Definition weighted_step : Fitting.Minimization :=
  scripted [] [Ok (one_by_one 5)] [Fin 1].

(** The 1x1 samples with their single day reserved as a test day. *)
Definition fitting_reserved : Fitting.IterativeFitting :=
  {| Fitting._solver_type := "ecos";
     Fitting._power_signals_d := one_by_one 10;
     Fitting._rank_k := 1;
     Fitting._matrix_l0 := one_by_one 1;
     Fitting._test_days := Some [0%nat];
     Fitting._state_data := empty_state_data;
     Fitting._residuals_median := None;
     Fitting._residuals_variance := None;
     Fitting._residual_l0_norm := None;
     Fitting._l_cs_value := None;
     Fitting._r_cs_value := None;
     Fitting._beta_value := None |}.

Definition clearsky_reserved : ClearSky.IterativeClearSky :=
  {| ClearSky.D := one_by_one 10; ClearSky.k := 1;
     ClearSky.L_cs := one_by_one 1; ClearSky.R_cs := one_by_one 5;
     ClearSky.beta := fzero; ClearSky.good_fit := false;
     ClearSky.r0 := [Fin 5];
     ClearSky.mu_L := Fin 1; ClearSky.mu_R := Fin 20;
     ClearSky.tau := Fin (8 # 10);
     ClearSky.weights := [Fin 1]; ClearSky.test_days := Some [0%nat] |}.

(** A solver that finds both subproblems infeasible. *)
Definition infeasible_solver : ClearSky.Solver :=
  constant_solver "infeasible" (one_by_one 1) "infeasible" (one_by_one 1)
                  fzero.

(** Two days of two samples, one measurement missing. *)
Definition gap_2x2 : matrix := [[Fin 1; NaN]; [Fin 1; Fin 0]].

(** [execute] on the fresh 1x1 object. *)
Definition execute_1x1 (fuel : nat) :=
  @Execute.execute sample_numeric weighted_step idle_collaborators fuel
    fitting_1x1 svd_1x1 (Fin 1) (Fin 20) (Fin (8 # 10))
    Scenarios.eps_default 100 true None None true.

(** [execute] with a right minimizer whose first call fails. *)
Definition failing_step : Fitting.Minimization :=
  scripted [] [Raise SolverError] [Fin 1].

Definition execute_failing (fuel : nat) :=
  @Execute.execute sample_numeric failing_step idle_collaborators fuel
    fitting_1x1 svd_1x1 (Fin 1) (Fin 20) (Fin (8 # 10))
    Scenarios.eps_default 100 true None None true.

End ExtraSamples.

(* ------------------------------------------------------------------ *)
(** * Facts about floats and lists *)
(* ------------------------------------------------------------------ *)

Module FloatFacts.

Lemma Qltb_true (a b : Q) : Qltb a b = true <-> a < b.
Proof.
  unfold Qltb. rewrite negb_true_iff. split; intro H.
  - destruct (Qlt_le_dec a b) as [L|L]; auto.
    apply Qle_bool_iff in L. congruence.
  - destruct (Qle_bool b a) eqn:E; auto. apply Qle_bool_iff in E. lra.
Qed.

(** With a positive epsilon the test [0. >= eps] fails. *)
Lemma positive_epsilon_stops_zero (eps : fl) :
  fl_ltb fzero eps = true -> fl_geb fzero eps = false.
Proof.
  destruct eps as [q| | |]; simpl; try discriminate; auto.
  unfold fl_geb, fzero; simpl. unfold Qltb. rewrite negb_true_iff. auto.
Qed.

(** [np.inf >= eps] holds for every epsilon but NaN. *)
Lemma inf_geb (eps : fl) : fl_geb PInf eps = negb (is_nan eps).
Proof. now destruct eps. Qed.

Lemma positive_epsilon_not_nan (eps : fl) :
  fl_ltb fzero eps = true -> is_nan eps = false.
Proof. now destruct eps. Qed.

(** [improvement *= -1] on a negative improvement is its absolute value. *)
Lemma flip_negative_is_abs (x : fl) :
  fl_ltb x fzero = true -> fl_mul x (Fin (-1)) = fl_abs x.
Proof.
  destruct x as [q| | |]; simpl; try discriminate; auto.
  intro H. apply Qltb_true in H. f_equal.
  destruct q as [n d]. unfold Qmult, Qabs, Qlt in *. simpl in *.
  rewrite Pos.mul_1_r. f_equal. lia.
Qed.

End FloatFacts.

Module ListFacts.

Lemma zip_with_map_same (A B C D : Type) (f : B -> C -> D) (g : A -> B)
      (h : A -> C) (l : list A) :
  zip_with f (map g l) (map h l) = map (fun x => f (g x) (h x)) l.
Proof. induction l as [|x l IH]; simpl; [reflexivity | now rewrite IH]. Qed.

Lemma zip_with_nth (A B C : Type) (f : A -> B -> C) (da : A) (db : B) :
  forall (a : list A) (b : list B),
    zip_with f a b =
    map (fun t => f (nth t a da) (nth t b db))
        (seq 0 (Nat.min (length a) (length b))).
Proof.
  induction a as [|x a IH]; intros [|y b]; simpl; try reflexivity.
  f_equal. rewrite IH, <- seq_shift, map_map. reflexivity.
Qed.

Lemma skipn_as_map (A : Type) (d : A) (c : nat) (l : list A) :
  skipn c l = map (fun i => nth i l d) (seq c (length l - c)).
Proof.
  revert c. induction l as [|x l IH]; intros c.
  - destruct c; reflexivity.
  - destruct c as [|c]; simpl.
    + f_equal. rewrite (IH 0%nat) at 1. simpl. rewrite Nat.sub_0_r.
      rewrite <- seq_shift, map_map. reflexivity.
    + rewrite IH, <- seq_shift, map_map. reflexivity.
Qed.

Lemma nth_skipn (A : Type) (d : A) (c t : nat) (l : list A) :
  nth t (skipn c l) d = nth (t + c) l d.
Proof.
  revert l. induction c as [|c IH]; intros l.
  - now rewrite Nat.add_0_r.
  - destruct l; simpl.
    + destruct t; destruct (_ + S c)%nat; reflexivity.
    + rewrite IH. now rewrite Nat.add_succ_r.
Qed.

Lemma nth_firstn (A : Type) (d : A) (m t : nat) (l : list A) :
  (t < m)%nat -> nth t (firstn m l) d = nth t l d.
Proof.
  revert t l. induction m as [|m IH]; intros t l H; [lia|].
  destruct l; simpl; [now destruct t|].
  destruct t; [reflexivity|]. apply IH. lia.
Qed.

(** A row selected by the mask of [L[mask, :] == 0] is zero in any [L] that
    satisfies the constraint. *)
Lemma select_row (mask : list bool) :
  forall (L : matrix) (i : nat),
    forallb (forallb ClearSky.is_zero) (select mask L) = true ->
    nth i mask false = true ->
    forallb ClearSky.is_zero (nth i L []) = true.
Proof.
  induction mask as [|b mask IH]; intros L i Hz Hi.
  - now destruct i.
  - destruct L as [|row L]; [now destruct i|].
    simpl in Hz. destruct i as [|i]; simpl in *.
    + subst b. simpl in Hz. now apply andb_true_iff in Hz.
    + destruct b; simpl in Hz.
      * apply andb_true_iff in Hz. now apply IH.
      * now apply IH.
Qed.

(** One row of the lag-365 difference, entry by entry. *)
Lemma lag_row (n : nat) (r : vec) :
  length r = n ->
  vsub (upto_last 365 r) (from 365 r) =
  map (fun t => fl_sub (nth t r NaN) (nth (t + 365) r NaN)) (seq 0 (n - 365)).
Proof.
  intro Hn. unfold vsub, upto_last, from.
  rewrite (zip_with_nth fl_sub NaN NaN).
  rewrite length_firstn, length_skipn, Hn.
  replace (Nat.min (Nat.min (n - 365) n) (n - 365)) with (n - 365)%nat by lia.
  apply map_ext_in. intros t Ht. apply in_seq in Ht.
  rewrite nth_firstn by lia. now rewrite nth_skipn.
Qed.

(** The slices [R[1:, :-365] - R[1:, 365:]] tie together exactly the
    entries that the description of the penalty names. *)
Lemma lag365_entries (R : matrix) (n : nat) :
  Forall (fun row => length row = n) R ->
  sumsq (lag365 (from 1 R)) = Periodicity.periodicity_sumsq R n.
Proof.
  intro Hrect. unfold sumsq, msum, lag365, msub, cols,
    Periodicity.periodicity_sumsq.
  f_equal. rewrite zip_with_map_same.
  change (from 1 R) with (skipn 1 R). rewrite (skipn_as_map [] 1 R). rewrite !map_map.
  apply map_ext_in. intros i Hi. apply in_seq in Hi.
  assert (Hlen : length (nth i R []) = n).
  { rewrite Forall_forall in Hrect. apply Hrect. apply nth_In. lia. }
  rewrite (lag_row _ Hlen). now rewrite map_map.
Qed.

End ListFacts.

(* ------------------------------------------------------------------ *)
(** * clearsky/main.py: the minimizers, the objective and the weights *)
(* ------------------------------------------------------------------ *)

Module SolverStatus.
Import ClearSky.

Section WithBackend.
Context {num : Numeric} {cvx : Solver}.

(** When [min_L] returns normally. *)
Lemma min_L_returns (self self' : IterativeClearSky) :
  min_L self = Ok self' <->
  exists value,
    solve_L (build_problem_L self) = Solved "optimal" value /\
    self' = set_L_cs self value.
Proof.
  unfold min_L.
  destruct (solve_L (build_problem_L self)) as [|status value].
  - split; [intro H; discriminate H | intros (value & H & _); discriminate H].
  - destruct (String.eqb_spec status "optimal") as [E|E]; simpl.
    + subst status. split.
      * intro H. inversion H. eauto.
      * intros (value' & H & ->). inversion H. reflexivity.
    + split; [intro H; discriminate H|].
      intros (value' & H & _). inversion H. contradiction.
Qed.

(** When [min_R] returns normally. *)
Lemma min_R_returns (self self' : IterativeClearSky) (calc_deg : bool)
      (max_deg min_deg : option fl) :
  min_R self calc_deg max_deg min_deg = Ok self' <->
  exists value b,
    solve_R (build_problem_R self calc_deg max_deg min_deg)
    = Solved "optimal" (value, b) /\
    self' = set_r0 (if (365 <? ncols (D self))%nat && calc_deg
                    then set_beta (set_R_cs self value) b
                    else set_R_cs self value)
                   (nth 0 value []).
Proof.
  unfold min_R.
  destruct (solve_R (build_problem_R self calc_deg max_deg min_deg))
    as [|status [value b]].
  - split; [intro H; discriminate H
           | intros (value & b & H & _); discriminate H].
  - destruct (String.eqb_spec status "optimal") as [E|E]; simpl.
    + subst status. split.
      * intro H. inversion H. exists value, b. split; [reflexivity|].
        now destruct ((365 <? ncols (D self))%nat && calc_deg).
      * intros (value' & b' & H & ->). inversion H.
        now destruct ((365 <? ncols (D self))%nat && calc_deg).
    + split; [intro H; discriminate H|].
      intros (value' & b' & H & _). inversion H. contradiction.
Qed.

(** C3.  [min_L] and [min_R] raise [ProblemStatusError] exactly when the
    solver returns with a status other than ['optimal'], and they return
    normally only with the value the solver reported under ['optimal']: no
    other status is turned into a result. *)
Theorem status_error_iff_not_optimal :
  forall (self : IterativeClearSky) (calc_deg : bool)
         (max_deg min_deg : option fl),
    ((exists msg, min_L self = Raise (ProblemStatusError msg)) <->
     (exists status value,
         solve_L (build_problem_L self) = Solved status value /\
         status <> "optimal"%string))
    /\
    ((exists msg,
         min_R self calc_deg max_deg min_deg = Raise (ProblemStatusError msg))
     <->
     (exists status value,
         solve_R (build_problem_R self calc_deg max_deg min_deg)
         = Solved status value /\
         status <> "optimal"%string))
    /\
    (forall self',
        min_L self = Ok self' <->
        exists value,
          solve_L (build_problem_L self) = Solved "optimal" value /\
          self' = set_L_cs self value)
    /\
    (forall self',
        min_R self calc_deg max_deg min_deg = Ok self' <->
        exists value b,
          solve_R (build_problem_R self calc_deg max_deg min_deg)
          = Solved "optimal" (value, b) /\
          self' = set_r0 (if (365 <? ncols (D self))%nat && calc_deg
                          then set_beta (set_R_cs self value) b
                          else set_R_cs self value)
                         (nth 0 value [])).
Proof.
  intros self calc_deg max_deg min_deg. unfold min_L, min_R.
  split; [|split; [|split]].
  - destruct (solve_L (build_problem_L self)) as [|status value].
    + split; [intros [msg H]; discriminate H
             | intros (status & value & H & _); discriminate H].
    + destruct (String.eqb_spec status "optimal") as [E|E]; simpl.
      * split; [intros [msg H]; discriminate H|].
        intros (status' & value' & H & Hne). inversion H; subst. now elim Hne.
      * split; intros _; eauto.
  - destruct (solve_R (build_problem_R self calc_deg max_deg min_deg))
      as [|status [value b]].
    + split; [intros [msg H]; discriminate H
             | intros (status & value & H & _); discriminate H].
    + destruct (String.eqb_spec status "optimal") as [E|E]; simpl.
      * split; [intros [msg H]; discriminate H|].
        intros (status' & value' & H & Hne). inversion H; subst. now elim Hne.
      * split; intros _; eauto.
  - intro self'. apply min_L_returns.
  - intro self'. apply min_R_returns.
Qed.

End WithBackend.

End SolverStatus.

Module Objective.
Import ClearSky Fitting Periodicity.

Section WithNumeric.
Context {num : Numeric}.

(** The fourth component, as both evaluators branch on the day count. *)
Lemma f4_of_calculate_objective (self : IterativeFitting)
      (mu_l mu_r tau : fl) (l r : matrix) (b : fl) (w : vec) :
  nth 3 (_calculate_objective self mu_l mu_r tau l r b w) NaN =
  if (ncols r <? 367)%nat then Fin 0
  else fl_mul mu_r (norm_fro (lag365 (from 1 r))).
Proof. reflexivity. Qed.

Lemma f4_of_calc_components (self : IterativeClearSky) :
  nth 3 (calc_components self) NaN =
  if (ncols (D self) <? 367)%nat then Fin 0
  else fl_mul (mu_R self) (norm_fro (lag365 (from 1 (R_cs self)))).
Proof. reflexivity. Qed.

(** C6.  The periodicity component of the objective is exactly 0 when the
    series has fewer than 367 days; from 367 days on it is [mu_R] times the
    Frobenius norm of [R[1:, :-365] - R[1:, 365:]], that is, of the
    differences between day [t] and day [t + 365] over all rows but row 0.
    The evaluator is a total function: no branch raises.  The hypothesis
    says that the right factor is a matrix of [n] columns. *)
Theorem periodicity_component :
  forall (fit : IterativeFitting) (sky : IterativeClearSky)
         (mu_l mu_r tau : fl) (l r : matrix) (b : fl) (w : vec),
    Forall (fun row => length row = ncols r) r ->
    Forall (fun row => length row = ncols (D sky)) (R_cs sky) ->
    nth 3 (_calculate_objective fit mu_l mu_r tau l r b w) NaN
    = (if (ncols r <? 367)%nat then Fin 0
       else fl_mul mu_r (fl_sqrt (periodicity_sumsq r (ncols r))))
    /\
    nth 3 (calc_components sky) NaN
    = (if (ncols (D sky) <? 367)%nat then Fin 0
       else fl_mul (mu_R sky)
                   (fl_sqrt (periodicity_sumsq (R_cs sky) (ncols (D sky))))).
Proof.
  intros fit sky mu_l mu_r tau l r b w Hr Hsky.
  rewrite f4_of_calculate_objective, f4_of_calc_components.
  unfold norm_fro.
  rewrite (ListFacts.lag365_entries Hr), (ListFacts.lag365_entries Hsky).
  split; reflexivity.
Qed.

End WithNumeric.

(** A right factor of 367 days with one entry off by 4 from the entry a year
    later: the component is [mu_R * sqrt(16)]; with 366 days it is 0. *)
Lemma periodicity_component_witness :
  nth 3 (@_calculate_objective Samples.sample_numeric Samples.fitting_1x1
           (Fin 1) (Fin 20) (Fin (8 # 10)) (Samples.one_by_one 1)
           MoreSamples.right_367 fzero [Fin 1]) NaN
  = fl_mul (Fin 20) (@fl_sqrt Samples.sample_numeric (Fin 16))
  /\
  nth 3 (@calc_components Samples.sample_numeric MoreSamples.clearsky_366) NaN
  = Fin 0.
Proof.
  destruct (@periodicity_component Samples.sample_numeric
              Samples.fitting_1x1 MoreSamples.clearsky_366
              (Fin 1) (Fin 20) (Fin (8 # 10)) (Samples.one_by_one 1)
              MoreSamples.right_367 fzero [Fin 1]) as [H1 H2].
  - repeat constructor.
  - repeat constructor.
  - split.
    + rewrite H1. vm_compute. reflexivity.
    + rewrite H2. reflexivity.
Defined.

End Objective.

Module Weights.
Import ClearSky.

(** A day whose combined score is below 0.6 gets the weight 0. *)
Lemma hard_threshold {num : Numeric} (D : matrix) (x_value : vec) (j : nat) :
  fl_ltb (nth j (score D x_value) NaN) (Fin (6 # 10)) = true ->
  nth j (init_weights D x_value) NaN = Fin 0.
Proof.
  intro H. unfold init_weights.
  change NaN with (threshold NaN) at 1. rewrite map_nth.
  unfold threshold. now rewrite H.
Qed.

(** [w[days] = 0] leaves a zero at every index of [days]. *)
Lemma zero_at_days (days : list nat) (w : vec) (d : nat) :
  In d days -> (d < length w)%nat -> nth d (zero_at days w) NaN = fzero.
Proof.
  intros Hin Hlt. unfold zero_at.
  set (f := fun p : nat * fl =>
              if existsb (Nat.eqb (fst p)) days then fzero else snd p).
  assert (Hd : f (d, nth d w NaN) = fzero).
  { unfold f. simpl.
    assert (E : existsb (Nat.eqb d) days = true).
    { apply existsb_exists. exists d. split; [exact Hin | apply Nat.eqb_refl]. }
    now rewrite E. }
  rewrite (nth_indep _ NaN (f (0%nat, NaN)))
    by (rewrite length_map, length_combine, length_seq; lia).
  rewrite map_nth, combine_nth by now rewrite length_seq.
  rewrite seq_nth by exact Hlt. exact Hd.
Qed.

(** The reserved test days carry the weight 0 in the vector the minimizers
    of [minimize_objective] see, and in the vector [_obtain_weights]
    computes afresh. *)
Lemma test_days_zeroed :
  (forall (self : IterativeClearSky) (days : list nat) (d : nat),
      test_days self = Some days -> In d days ->
      (d < length (weights self))%nat ->
      nth d (weights (apply_test_days self)) NaN = fzero)
  /\
  (forall (mz : Fitting.Minimization) (self : Fitting.IterativeFitting)
          (days : list nat) (d : nat),
      Fitting.weights (Fitting._state_data self) = [] ->
      Fitting._test_days self = Some days -> In d days ->
      (d < length (Fitting.obtain_weights (Fitting._power_signals_d self)))%nat ->
      nth d (Fitting._obtain_weights self) NaN = fzero).
Proof.
  split.
  - intros self days d Hdays Hin Hlt. unfold apply_test_days.
    rewrite Hdays. simpl. now apply zero_at_days.
  - intros mz self days d Hempty Hdays Hin Hlt. unfold Fitting._obtain_weights.
    rewrite Hempty, Hdays. now apply zero_at_days.
Qed.

(** C5, evaluated where it fails.  For three identical days the roughness
    scores are all equal, their distance to the median is 0 for every day,
    the normalization divides 0 by 0, and no later step removes the NaN:
    whatever envelope the solver returned, every weight is NaN, which is
    neither in [[0,1]] nor below the threshold. *)
Theorem constant_days_give_nan_weights :
  (forall x_value : vec,
      Forall (fun w => is_nan w = true /\ in_unit w = false)
             (@init_weights Samples.sample_numeric Samples.ones_3x3 x_value))
  /\ @init_weights Samples.sample_numeric Samples.ones_3x3
                   [Fin 3; Fin 3; Fin 3]
     = [NaN; NaN; NaN].
Proof.
  split; [|reflexivity].
  intro x_value. unfold init_weights, score.
  change (@temporal_consistency Samples.sample_numeric Samples.ones_3x3)
    with [NaN; NaN; NaN].
  simpl map at 2.
  destruct (map _ (energy_ratio Samples.ones_3x3 x_value))
    as [|a [|b [|c rest]]]; simpl; repeat constructor.
Qed.

End Weights.

Module LeftConstraint.
Import ClearSky.

Section WithBackend.
Context {num : Numeric} {cvx : Solver}.

(** C9, as the code has it.  The mask of the constraint [L_cs[mask, :] == 0]
    is computed with [np.average(D, axis=1)]: it selects the rows of [D]
    (the intraday samples) whose average over all days is at most 1e-5.
    Those rows of [L] are constrained to zero, and when the solver's optimal
    value satisfies the constraints it was given, they are zero in the [L]
    that [min_L] stores. *)
Theorem zero_average_rows_constrained :
  forall (self self' : IterativeClearSky),
    (forall value,
        solve_L (build_problem_L self) = Solved "optimal" value ->
        forallb (sat_L (k self) value) (constraints_L (build_problem_L self))
        = true) ->
    min_L self = Ok self' ->
    In (L_rows_zero (zero_average_rows (D self)))
       (constraints_L (build_problem_L self))
    /\
    forall i : nat,
      fl_leb (nth i (average_axis1 (D self)) NaN) (Fin (1 # 100000)) = true ->
      forallb is_zero (nth i (L_cs self') []) = true.
Proof.
  intros self self' Hsound Hmin. split.
  - simpl. auto.
  - intros i Havg.
    apply SolverStatus.min_L_returns in Hmin.
    destruct Hmin as (value & Hsolved & ->).
    specialize (Hsound value Hsolved). simpl in Hsound.
    apply andb_true_iff in Hsound. destruct Hsound as [_ Hsound].
    apply andb_true_iff in Hsound. destruct Hsound as [Hrows _].
    apply (ListFacts.select_row _ _ _ Hrows).
    unfold zero_average_rows.
    change false with ((fun a => fl_leb a (Fin (1 # 100000))) NaN).
    rewrite map_nth. exact Havg.
Qed.

End WithBackend.

(** A backend whose optimal left factor is dark where the data are dark:
    row 1 of the data averages 0, and row 1 of the stored factor is zero. *)
Lemma zero_average_rows_constrained_witness :
  forallb is_zero
          (nth 1 (L_cs (set_L_cs MoreSamples.clearsky_night
                                 [[Fin 1]; [Fin 0]])) [])
  = true.
Proof.
  refine (proj2 (@zero_average_rows_constrained
                   Samples.sample_numeric MoreSamples.night_solver
                   MoreSamples.clearsky_night
                   (set_L_cs MoreSamples.clearsky_night [[Fin 1]; [Fin 0]])
                   _ _) 1%nat _).
  - intros value H. inversion H. reflexivity.
  - reflexivity.
  - reflexivity.
Defined.

(** The same mask looks at no column of [D].  For a day that is all zero
    (column 1 below) no row of [L] is selected, and a left factor without a
    zero row satisfies every constraint of the problem and is returned. *)
Lemma dropout_day_constrains_no_row :
  column 1 (D Samples.clearsky_dropout) = [Fin 0; Fin 0]
  /\ zero_average_rows (D Samples.clearsky_dropout) = [false; false]
  /\ exists self',
      @min_L Samples.sample_numeric MoreSamples.dropout_solver
             Samples.clearsky_dropout = Ok self'
      /\ forallb (sat_L 1 (L_cs self'))
                 (constraints_L (@build_problem_L Samples.sample_numeric
                                                  Samples.clearsky_dropout))
         = true
      /\ forallb is_zero (nth 1 (L_cs self') []) = false.
Proof.
  split; [reflexivity|]. split; [reflexivity|].
  eexists. split; [reflexivity|]. split; reflexivity.
Qed.

End LeftConstraint.

(* ------------------------------------------------------------------ *)
(** * iterative_fitting.py: the loop of [_minimize_objective] *)
(* ------------------------------------------------------------------ *)

Module LoopFacts.
Import Fitting Runs.

Section WithBackend.
Context {num : Numeric} {mz : Minimization}.

Variables (mu_l mu_r tau : fl) (weights : vec).
Variables (eps : fl) (max_iteration : Z) (verbose : bool) (f1_last : fl).

Local Abbreviation body :=
  (loop_body mu_l mu_r tau weights max_iteration verbose f1_last).
Local Abbreviation loop fuel :=
  (while_loop fuel mu_l mu_r tau weights eps max_iteration verbose f1_last).
Local Abbreviation run n :=
  (after n mu_l mu_r tau weights eps max_iteration verbose f1_last).

(** Case analysis of one pass through the body that did not raise: both
    minimizers returned, and the three tests went one way or the other. *)
Ltac body_ok H :=
  unfold loop_body in H;
  destruct (left_minimize _ _ _ _) as [[? [[? ?] ?]]|?] eqn:Hleft;
    [|discriminate H];
  destruct (right_minimize _ _ _ _) as [[? [[? ?] ?]]|?] eqn:Hright;
    [|discriminate H];
  destruct (fl_gtb _ f1_last) eqn:Hf1;
  destruct (fl_ltb _ fzero) eqn:Hneg;
  destruct (_ <=? _)%Z eqn:Hcap;
  inversion H; subst; clear H.

(** Case analysis of a pass that raised: in the left or in the right
    minimizer. *)
Ltac body_raise H :=
  unfold loop_body in H;
  destruct (left_minimize _ _ _ _) as [[? [[? ?] ?]]|?] eqn:Hleft;
    [destruct (right_minimize _ _ _ _) as [[? [[? ?] ?]]|?] eqn:Hright;
       [destruct (fl_gtb _ f1_last); destruct (fl_ltb _ fzero);
        destruct (_ <=? _)%Z; discriminate H|]|];
  inversion H; subst; clear H.

Lemma body_counts (w w' : world) (s s' : locals) :
  body w s = (w', Ok s') -> iteration s' = (iteration s + 1)%Z.
Proof. intro H. body_ok H; reflexivity. Qed.

(** Once the counter has reached the cap the improvement is reset to 0,
    and the message is printed when [verbose] is on. *)
Lemma body_at_cap (w w' : world) (s s' : locals) :
  body w s = (w', Ok s') ->
  (max_iteration <= iteration s')%Z ->
  improvement s' = fzero /\
  (verbose = true -> exists p, In (ReachedIterationLimit p) (printed w')).
Proof.
  intros H Hle. body_ok H; simpl in *;
    try (apply Z.leb_gt in Hcap; lia);
    (split; [reflexivity|]); intros ->; simpl;
    eexists; rewrite ?in_app_iff; simpl; eauto 10.
Qed.

(** Below the cap the improvement tested by the loop is the fractional
    improvement, with its sign flipped when it is negative. *)
Lemma body_below_cap (w w' : world) (s s' : locals) :
  body w s = (w', Ok s') ->
  (iteration s' < max_iteration)%Z ->
  improvement s' =
  (let imp := raw_improvement (old_objective_value s)
                              (old_objective_value s') in
   if fl_ltb imp fzero then fl_mul imp (Fin (-1)) else imp).
Proof.
  intros H Hlt. body_ok H; simpl in *;
    try (apply Z.leb_le in Hcap; lia);
    unfold raw_improvement; now rewrite Hneg.
Qed.

(** What the pass leaves in the state data and in the object. *)
Lemma body_state (w w' : world) (s s' : locals) :
  body w s = (w', Ok s') ->
  snapshot (obj w') = (l_cs s', r_cs s', beta s', r0 s')
  /\ r0 s' = nth 0 (r_cs s') []
  /\ published (obj w') = published (obj w)
  /\ obj_increase (_state_data (obj w'))
     = (obj_increase (_state_data (obj w))
        || fl_ltb (raw_improvement (old_objective_value s)
                                   (old_objective_value s')) fzero)
  /\ f1_increase (_state_data (obj w'))
     = (f1_increase (_state_data (obj w))
        || fl_gtb (nth 0 (_calculate_objective (obj w) mu_l mu_r tau
                            (l_cs s') (r_cs s') (beta s') weights) NaN)
                  f1_last)
  /\ is_solver_error (_state_data (obj w'))
     = is_solver_error (_state_data (obj w))
  /\ is_problem_status_error (_state_data (obj w'))
     = is_problem_status_error (_state_data (obj w)).
Proof.
  intro H. body_ok H; destruct verbose; simpl in *;
    unfold raw_improvement; simpl; rewrite ?Hneg, ?Hf1, ?orb_true_r, ?orb_false_r;
    repeat split; reflexivity.
Qed.

(** A pass in which both minimizers return is completed, whatever the
    objective does. *)
Lemma body_returns (w : world) (s : locals)
      (left' : LeftMatrixMinimization) (right' : RightMatrixMinimization)
      (l1 r1 l2 r2 : matrix) (b1 b2 : fl) :
  left_minimize (left_matric_minimization s) (l_cs s) (r_cs s) (beta s)
  = Ok (left', (l1, r1, b1)) ->
  right_minimize (right_matric_minimization s) l1 r1 b1
  = Ok (right', (l2, r2, b2)) ->
  exists (w' : world) (s' : locals),
    body w s = (w', Ok s')
    /\ (l_cs s', r_cs s', beta s') = (l2, r2, b2).
Proof.
  intros Hleft Hright. unfold loop_body. rewrite Hleft, Hright.
  destruct (fl_gtb _ f1_last); destruct (fl_ltb _ fzero);
    destruct (_ <=? _)%Z; eexists; eexists; split; reflexivity.
Qed.

(** The objective kept for the next pass is the one evaluated at the new
    factors. *)
Lemma body_objective (w w' : world) (s s' : locals) :
  body w s = (w', Ok s') ->
  old_objective_value s'
  = np_sum (_calculate_objective (obj w) mu_l mu_r tau
                                 (l_cs s') (r_cs s') (beta s') weights).
Proof. intro H. body_ok H; destruct verbose; reflexivity. Qed.

(** A pass that raises leaves the snapshot taken at its start, and touches
    neither the published results nor the flags. *)
Lemma body_raises (w w' : world) (s : locals) (e : exn) :
  body w s = (w', Raise e) ->
  snapshot (obj w') = (l_cs s, r_cs s, beta s, r0 s)
  /\ published (obj w') = published (obj w)
  /\ is_solver_error (_state_data (obj w'))
     = is_solver_error (_state_data (obj w))
  /\ is_problem_status_error (_state_data (obj w'))
     = is_problem_status_error (_state_data (obj w)).
Proof.
  intro H. body_raise H; destruct verbose; simpl; repeat split; reflexivity.
Qed.

(** Nothing printed is ever taken back, and nothing is printed when
    [verbose] is off. *)
Lemma body_keeps_output (w w' : world) (s : locals) (r : result locals)
      (e : event) :
  body w s = (w', r) -> In e (printed w) -> In e (printed w').
Proof.
  intros H Hin. destruct r as [s'|x].
  - body_ok H; destruct verbose; simpl; rewrite ?in_app_iff; auto 10.
  - body_raise H; destruct verbose; simpl; rewrite ?in_app_iff; auto 10.
Qed.

Lemma body_quiet (w w' : world) (s : locals) (r : result locals) :
  verbose = false -> body w s = (w', r) -> printed w' = printed w.
Proof.
  intros -> H. destruct r as [s'|x].
  - body_ok H; reflexivity.
  - body_raise H; reflexivity.
Qed.

(** ** The loop *)

Lemma loop_after (n : nat) :
  forall (w w1 : world) (s s1 : locals) (fuel : nat),
    run n w s = Some (w1, s1) -> loop (n + fuel) w s = loop fuel w1 s1.
Proof.
  induction n as [|n IH]; intros w w1 s s1 fuel H; simpl in *.
  - now inversion H.
  - destruct (fl_geb (improvement s) eps); [|discriminate H].
    destruct (body w s) as [w' [s'|e]]; [|discriminate H]. now apply IH.
Qed.

Lemma loop_counts_up (fuel : nat) :
  forall (w w' : world) (s s' : locals),
    loop fuel w s = Some (w', Ok s') -> (iteration s <= iteration s')%Z.
Proof.
  induction fuel as [|fuel IH]; intros w w' s s' H; simpl in H;
    destruct (fl_geb (improvement s) eps) eqn:Hc;
    try discriminate H; try (inversion H; subst; lia).
  destruct (body w s) as [w1 [s1|e]] eqn:Hb; [|discriminate H].
  apply IH in H. apply body_counts in Hb. lia.
Qed.

(** A loop entered with its condition true and left normally has made at
    least one pass. *)
Lemma loop_enters (fuel : nat) (w w' : world) (s s' : locals) :
  fl_geb (improvement s) eps = true ->
  loop fuel w s = Some (w', Ok s') -> (iteration s < iteration s')%Z.
Proof.
  intros Hc H. destruct fuel as [|fuel]; simpl in H; rewrite Hc in H;
    [discriminate H|].
  destruct (body w s) as [w1 [s1|e]] eqn:Hb; [|discriminate H].
  apply loop_counts_up in H. apply body_counts in Hb. lia.
Qed.

Lemma loop_keeps_output (fuel : nat) :
  forall (w w' : world) (s : locals) (r : result locals) (e : event),
    loop fuel w s = Some (w', r) -> In e (printed w) -> In e (printed w').
Proof.
  induction fuel as [|fuel IH]; intros w w' s r e H Hin; simpl in H;
    destruct (fl_geb (improvement s) eps);
    try discriminate H; try (inversion H; subst; exact Hin).
  destruct (body w s) as [w1 [s1|x]] eqn:Hb.
  - eapply IH; [exact H|]. eapply body_keeps_output; eauto.
  - inversion H; subst. eapply body_keeps_output; eauto.
Qed.

Lemma loop_keeps_published (fuel : nat) :
  forall (w w' : world) (s : locals) (r : result locals),
    loop fuel w s = Some (w', r) -> published (obj w') = published (obj w).
Proof.
  induction fuel as [|fuel IH]; intros w w' s r H; simpl in H;
    destruct (fl_geb (improvement s) eps);
    try discriminate H; try (inversion H; subst; reflexivity).
  destruct (body w s) as [w1 [s1|x]] eqn:Hb.
  - apply IH in H. apply body_state in Hb. rewrite H. apply Hb.
  - inversion H; subst. apply body_raises in Hb. apply Hb.
Qed.

Lemma run_keeps_published (n : nat) :
  forall (w w' : world) (s s' : locals),
    run n w s = Some (w', s') -> published (obj w') = published (obj w).
Proof.
  induction n as [|n IH]; intros w w' s s' H; simpl in H.
  - now inversion H.
  - destruct (fl_geb (improvement s) eps); [|discriminate H].
    destruct (body w s) as [w1 [s1|x]] eqn:Hb; [|discriminate H].
    apply IH in H. apply body_state in Hb. rewrite H. apply Hb.
Qed.

(** If the loop ends normally at or above the cap after at least one pass,
    the message about the limit is in the output of a verbose run. *)
Lemma loop_reports (fuel : nat) :
  forall (w w' : world) (s s' : locals),
    verbose = true ->
    loop fuel w s = Some (w', Ok s') ->
    (iteration s < iteration s')%Z ->
    (max_iteration <= iteration s')%Z ->
    exists p, In (ReachedIterationLimit p) (printed w').
Proof.
  induction fuel as [|fuel IH]; intros w w' s s' Hv H Hlt Hcap; simpl in H;
    destruct (fl_geb (improvement s) eps);
    try discriminate H; try (inversion H; subst; lia).
  destruct (body w s) as [w1 [s1|x]] eqn:Hb; [|discriminate H].
  pose proof (body_counts _ _ Hb) as Hs1.
  destruct (Z_lt_le_dec (iteration s1) (iteration s')) as [Hmore|Hdone].
  - eapply IH; eauto.
  - pose proof (loop_counts_up _ _ _ H) as Hup.
    assert (Hcap1 : (max_iteration <= iteration s1)%Z) by lia.
    destruct (body_at_cap _ _ Hb Hcap1) as [_ Hp].
    destruct (Hp Hv) as [p Hin]. exists p.
    eapply loop_keeps_output; eauto.
Qed.

(** With a positive epsilon the loop ends within [max(1, max_iteration)]
    passes: while the counter is below that bound each pass raises, ends the
    loop, or moves the counter up, and the pass that reaches the bound
    resets the improvement to 0, which is below epsilon. *)
Lemma loop_bounded (fuel : nat) :
  fl_ltb fzero eps = true ->
  forall (w : world) (s : locals),
    (iteration s <= Z.max 1 max_iteration)%Z ->
    (iteration s < Z.max 1 max_iteration)%Z
    \/ fl_geb (improvement s) eps = false ->
    (Z.to_nat (Z.max 1 max_iteration - iteration s) <= fuel)%nat ->
    exists (w' : world) (r : result locals),
      loop fuel w s = Some (w', r) /\
      match r with
      | Ok s' => (iteration s' <= Z.max 1 max_iteration)%Z
      | Raise _ => True
      end.
Proof.
  intro Heps. induction fuel as [|fuel IH]; intros w s Hle Hinv Hfuel;
    simpl; destruct (fl_geb (improvement s) eps) eqn:Hc;
    try (exists w, (Ok s); split; [reflexivity | exact Hle]).
  - destruct Hinv as [Hlt|Hstop]; [lia | congruence].
  - destruct Hinv as [Hlt|Hstop]; [|congruence].
    destruct (body w s) as [w1 [s1|x]] eqn:Hb.
    + pose proof (body_counts _ _ Hb) as Hs1.
      apply IH; try lia.
      destruct (Z_lt_le_dec (iteration s1) (Z.max 1 max_iteration))
        as [Hbelow|Hreached]; [now left | right].
      assert (Hcap : (max_iteration <= iteration s1)%Z) by lia.
      destruct (body_at_cap _ _ Hb Hcap) as [-> _].
      now apply FloatFacts.positive_epsilon_stops_zero.
    + exists w1, (Raise x). split; [reflexivity | exact I].
Qed.

End WithBackend.
End LoopFacts.

(* ------------------------------------------------------------------ *)
(** * clearsky/main.py: the loop of [minimize_objective] *)
(* ------------------------------------------------------------------ *)

Module SkyLoopFacts.
Import ClearSky.

Section WithBackend.
Context {num : Numeric} {cvx : Solver}.

Variables (eps : fl) (max_iter : Z) (calc_deg : bool).
Variables (max_deg min_deg : option fl).

Local Abbreviation body := (loop_body max_iter calc_deg max_deg min_deg).
Local Abbreviation loop fuel :=
  (while_loop fuel eps max_iter calc_deg max_deg min_deg).

Ltac sky_body_ok H :=
  unfold loop_body, bind in H;
  destruct (min_L _) as [?|?] eqn:HL; [|discriminate H];
  destruct (min_R _ _ _ _) as [?|?] eqn:HR; [|discriminate H];
  destruct (fl_ltb _ fzero) eqn:Hneg;
  destruct (_ <=? _)%Z eqn:Hcap;
  inversion H; subst; clear H.

Lemma sky_body_counts (s s' : loop_state) :
  body s = Ok s' -> it s' = (it s + 1)%Z.
Proof. intro H. sky_body_ok H; reflexivity. Qed.

Lemma sky_body_at_cap (s s' : loop_state) :
  body s = Ok s' ->
  (max_iter <= it s')%Z ->
  improvement s' = fzero /\
  exists p, In (ReachedIterationLimit p) (printed s').
Proof.
  intros H Hle. sky_body_ok H; simpl in *;
    try (apply Z.leb_gt in Hcap; lia);
    (split; [reflexivity|]);
    eexists; rewrite ?in_app_iff; simpl; eauto 10.
Qed.

Lemma sky_body_below_cap (s s' : loop_state) :
  body s = Ok s' ->
  (it s' < max_iter)%Z ->
  improvement s' =
  (let imp := Runs.raw_improvement (old_obj s) (old_obj s') in
   if fl_ltb imp fzero then fl_mul imp (Fin (-1)) else imp).
Proof.
  intros H Hlt. sky_body_ok H; simpl in *;
    try (apply Z.leb_le in Hcap; lia);
    unfold Runs.raw_improvement; now rewrite Hneg.
Qed.

Lemma sky_body_returns (s : loop_state) (self1 self2 : IterativeClearSky) :
  min_L (apply_test_days (self_of s)) = Ok self1 ->
  min_R self1 calc_deg max_deg min_deg = Ok self2 ->
  exists s' : loop_state,
    body s = Ok s' /\ old_obj s' = calc_objective self2.
Proof.
  intros HL HR. unfold loop_body, bind. rewrite HL, HR.
  destruct (fl_ltb _ fzero); destruct (_ <=? _)%Z;
    eexists; split; reflexivity.
Qed.

(** A negative improvement clears [good_fit]. *)
Lemma sky_body_flags (s s' : loop_state) :
  body s = Ok s' ->
  fl_ltb (Runs.raw_improvement (old_obj s) (old_obj s')) fzero = true ->
  good_fit (self_of s') = false.
Proof.
  intros H Himp. unfold Runs.raw_improvement in Himp.
  sky_body_ok H; simpl in *; try reflexivity; congruence.
Qed.

Lemma sky_body_keeps_output (s s' : loop_state) (e : event) :
  body s = Ok s' -> In e (printed s) -> In e (printed s').
Proof.
  intros H Hin. sky_body_ok H; simpl; rewrite ?in_app_iff; auto 10.
Qed.

Lemma sky_loop_counts_up (fuel : nat) :
  forall (s s' : loop_state),
    loop fuel s = Some (Ok s') -> (it s <= it s')%Z.
Proof.
  induction fuel as [|fuel IH]; intros s s' H; simpl in H;
    destruct (fl_geb (improvement s) eps) eqn:Hc;
    try discriminate H; try (inversion H; subst; lia).
  destruct (body s) as [s1|e] eqn:Hb; [|discriminate H].
  apply IH in H. apply sky_body_counts in Hb. lia.
Qed.

Lemma sky_loop_enters (fuel : nat) (s s' : loop_state) :
  fl_geb (improvement s) eps = true ->
  loop fuel s = Some (Ok s') -> (it s < it s')%Z.
Proof.
  intros Hc H. destruct fuel as [|fuel]; simpl in H; rewrite Hc in H;
    [discriminate H|].
  destruct (body s) as [s1|e] eqn:Hb; [|discriminate H].
  apply sky_loop_counts_up in H. apply sky_body_counts in Hb. lia.
Qed.

Lemma sky_loop_keeps_output (fuel : nat) :
  forall (s s' : loop_state) (e : event),
    loop fuel s = Some (Ok s') -> In e (printed s) -> In e (printed s').
Proof.
  induction fuel as [|fuel IH]; intros s s' e H Hin; simpl in H;
    destruct (fl_geb (improvement s) eps);
    try discriminate H; try (inversion H; subst; exact Hin).
  destruct (body s) as [s1|x] eqn:Hb; [|discriminate H].
  eapply IH; [exact H|]. eapply sky_body_keeps_output; eauto.
Qed.

Lemma sky_loop_reports (fuel : nat) :
  forall (s s' : loop_state),
    loop fuel s = Some (Ok s') ->
    (it s < it s')%Z ->
    (max_iter <= it s')%Z ->
    exists p, In (ReachedIterationLimit p) (printed s').
Proof.
  induction fuel as [|fuel IH]; intros s s' H Hlt Hcap; simpl in H;
    destruct (fl_geb (improvement s) eps);
    try discriminate H; try (inversion H; subst; lia).
  destruct (body s) as [s1|x] eqn:Hb; [|discriminate H].
  pose proof (sky_body_counts _ Hb) as Hs1.
  destruct (Z_lt_le_dec (it s1) (it s')) as [Hmore|Hdone].
  - eapply IH; eauto.
  - pose proof (sky_loop_counts_up _ _ H) as Hup.
    assert (Hcap1 : (max_iter <= it s1)%Z) by lia.
    destruct (sky_body_at_cap _ Hb Hcap1) as [_ [p Hin]]. exists p.
    eapply sky_loop_keeps_output; eauto.
Qed.

Lemma sky_loop_bounded (fuel : nat) :
  fl_ltb fzero eps = true ->
  forall (s : loop_state),
    (it s <= Z.max 1 max_iter)%Z ->
    (it s < Z.max 1 max_iter)%Z \/ fl_geb (improvement s) eps = false ->
    (Z.to_nat (Z.max 1 max_iter - it s) <= fuel)%nat ->
    exists (r : result loop_state),
      loop fuel s = Some r /\
      match r with
      | Ok s' => (it s' <= Z.max 1 max_iter)%Z
      | Raise _ => True
      end.
Proof.
  intro Heps. induction fuel as [|fuel IH]; intros s Hle Hinv Hfuel;
    simpl; destruct (fl_geb (improvement s) eps) eqn:Hc;
    try (exists (Ok s); split; [reflexivity | exact Hle]).
  - destruct Hinv as [Hlt|Hstop]; [lia | congruence].
  - destruct Hinv as [Hlt|Hstop]; [|congruence].
    destruct (body s) as [s1|x] eqn:Hb.
    + pose proof (sky_body_counts _ Hb) as Hs1.
      apply IH; try lia.
      destruct (Z_lt_le_dec (it s1) (Z.max 1 max_iter))
        as [Hbelow|Hreached]; [now left | right].
      assert (Hcap : (max_iter <= it s1)%Z) by lia.
      destruct (sky_body_at_cap _ Hb Hcap) as [-> _].
      now apply FloatFacts.positive_epsilon_stops_zero.
    + exists (Raise x). split; [reflexivity | exact I].
Qed.

End WithBackend.
End SkyLoopFacts.

(* ------------------------------------------------------------------ *)
(** * The claims about the two loops *)
(* ------------------------------------------------------------------ *)

Module Orchestrator.
Import Fitting Runs.

Section WithBackend.
Context {num : Numeric} {mz : Minimization} {cvx : ClearSky.Solver}.

(** [_minimize_objective] is the loop started in the initial world with the
    initial locals, followed by the handlers of the [try]. *)
Lemma minimize_unfold (fuel : nat) (self : IterativeFitting)
      (l r : matrix) (b : fl) (c0 weights : vec) (mu_l mu_r tau eps : fl)
      (max_iteration : Z) (deg : bool) (mx mn : option fl) (verbose : bool) :
  _minimize_objective fuel self l r b c0 weights mu_l mu_r tau eps
                      max_iteration deg mx mn verbose
  = option_map (finish verbose weights)
      (while_loop fuel mu_l mu_r tau weights eps max_iteration verbose
         (initial_f1 self l r b weights mu_l mu_r tau)
         (initial_world self l r b weights mu_l mu_r tau verbose)
         (initial_locals self l r b c0 weights mu_l mu_r tau deg mx mn)).
Proof. reflexivity. Qed.

Lemma finish_keeps_output (verbose : bool) (weights : vec) (w : world)
      (r : result locals) (e : event) :
  In e (printed w) -> In e (printed (fst (finish verbose weights (w, r)))).
Proof.
  intro H. destruct r as [s|[|msg]]; destruct verbose; simpl;
    rewrite ?in_app_iff; auto.
Qed.

Lemma finish_result (verbose : bool) (weights : vec) (w : world)
      (r : result locals) :
  finish verbose weights (w, r) = (fst (finish verbose weights (w, r)), r).
Proof. now destruct r as [s|[|msg]]. Qed.

(** What the handlers do after a raise: they set the flag of the exception
    and leave the snapshot and the published results alone. *)
Lemma finish_after_raise (verbose : bool) (weights : vec) (w : world)
      (e : exn) :
  let w' := fst (finish verbose weights (w, Raise e)) in
  failure_flag e (_state_data (obj w')) = true
  /\ snapshot (obj w') = snapshot (obj w)
  /\ published (obj w') = published (obj w).
Proof. destruct e; destruct verbose; simpl; repeat split; reflexivity. Qed.

(** C1, as the code has it.  For a positive epsilon the loop runs at most
    [max(1, max_iteration)] passes, whatever the minimizers return: the
    model needs no more fuel than that.  A pass that brings the counter to
    [max_iteration] or beyond resets the improvement to 0, so the test
    [improvement >= eps] fails and the loop is left after that pass,
    whatever improvement was computed.  The cap is reported by the message
    'Reached iteration limit', which [IterativeClearSky] always prints and
    [IterativeFitting] prints when [verbose] is on. *)
Theorem iteration_cap :
  forall (fit : IterativeFitting) (l r : matrix) (b : fl) (c0 weights : vec)
         (mu_l mu_r tau eps : fl) (max_iteration : Z) (deg : bool)
         (mx mn : option fl) (verbose : bool)
         (sky : ClearSky.IterativeClearSky) (calc_deg : bool)
         (max_deg min_deg : option fl) (fuel : nat),
    fl_ltb fzero eps = true ->
    (Z.to_nat (Z.max 1 max_iteration) <= fuel)%nat ->
    (exists (w : world) (res : result locals),
        _minimize_objective fuel fit l r b c0 weights mu_l mu_r tau eps
                            max_iteration deg mx mn verbose = Some (w, res)
        /\ match res with
           | Ok s =>
               (iteration s <= Z.max 1 max_iteration)%Z
               /\ ((max_iteration <= iteration s)%Z -> verbose = true ->
                   exists p, In (ReachedIterationLimit p) (printed w))
           | Raise _ => True
           end)
    /\
    (exists res : result ClearSky.loop_state,
        ClearSky.minimize_objective fuel sky eps max_iteration calc_deg
                                    max_deg min_deg = Some res
        /\ match res with
           | Ok s =>
               (ClearSky.it s <= Z.max 1 max_iteration)%Z
               /\ ((max_iteration <= ClearSky.it s)%Z ->
                   exists p,
                     In (ReachedIterationLimit p) (ClearSky.printed s))
           | Raise _ => True
           end)
    /\
    (forall (f1_last : fl) (w w' : world) (s s' : locals),
        loop_body mu_l mu_r tau weights max_iteration verbose f1_last w s
        = (w', Ok s') ->
        (max_iteration <= iteration s')%Z ->
        improvement s' = fzero /\ fl_geb (improvement s') eps = false)
    /\
    (forall s s' : ClearSky.loop_state,
        ClearSky.loop_body max_iteration calc_deg max_deg min_deg s = Ok s' ->
        (max_iteration <= ClearSky.it s')%Z ->
        ClearSky.improvement s' = fzero
        /\ fl_geb (ClearSky.improvement s') eps = false).
Proof.
  intros fit l r b c0 weights mu_l mu_r tau eps max_iteration deg mx mn
         verbose sky calc_deg max_deg min_deg fuel Heps Hfuel.
  assert (Hinf : fl_geb PInf eps = true).
  { rewrite FloatFacts.inf_geb.
    now rewrite (FloatFacts.positive_epsilon_not_nan _ Heps). }
  split; [|split; [|split]].
  - rewrite minimize_unfold.
    set (f1_last := initial_f1 fit l r b weights mu_l mu_r tau).
    set (w0 := initial_world fit l r b weights mu_l mu_r tau verbose).
    set (s0 := initial_locals fit l r b c0 weights mu_l mu_r tau deg mx mn).
    destruct (@LoopFacts.loop_bounded _ _ mu_l mu_r tau weights eps
                max_iteration verbose f1_last fuel Heps w0 s0)
      as (w' & res & Hloop & Hres); simpl; try lia.
    rewrite Hloop. cbn [option_map].
    exists (fst (finish verbose weights (w', res))), res. split.
    + now rewrite <- finish_result.
    + destruct res as [s'|e]; [|exact I]. split; [exact Hres|].
      intros Hcap Hv. 
      assert (Hin : (iteration s0 < iteration s')%Z)
        by (eapply LoopFacts.loop_enters; eauto).
      assert (Hrep : exists p, In (ReachedIterationLimit p) (printed w'))
        by (eapply LoopFacts.loop_reports; eauto).
      destruct Hrep as [p Hp]. exists p. now apply finish_keeps_output.
  - unfold ClearSky.minimize_objective.
    set (s0 := ClearSky.initial_loop_state sky).
    destruct (@SkyLoopFacts.sky_loop_bounded _ _ eps max_iteration calc_deg
                max_deg min_deg fuel Heps s0)
      as (res & Hloop & Hres); simpl; try lia.
    rewrite Hloop. destruct res as [s'|e].
    + eexists. split; [reflexivity|]. simpl. split; [exact Hres|].
      intro Hcap.
      assert (Hin : (ClearSky.it s0 < ClearSky.it s')%Z)
        by (eapply SkyLoopFacts.sky_loop_enters; eauto).
      assert (Hrep : exists p,
                 In (ReachedIterationLimit p) (ClearSky.printed s'))
        by (eapply SkyLoopFacts.sky_loop_reports; eauto).
      destruct Hrep as [p Hp].
      exists p. rewrite in_app_iff. now left.
    + eexists. split; [reflexivity | exact I].
  - intros f1_last w w' s s' Hb Hcap.
    destruct (LoopFacts.body_at_cap _ _ _ _ _ _ _ _ Hb Hcap) as [-> _].
    split; [reflexivity|].
    now apply FloatFacts.positive_epsilon_stops_zero.
  - intros s s' Hb Hcap.
    destruct (SkyLoopFacts.sky_body_at_cap _ _ _ _ Hb Hcap) as [-> _].
    split; [reflexivity|].
    now apply FloatFacts.positive_epsilon_stops_zero.
Qed.

(** A result of [_minimize_objective] is a result of the loop, passed
    through the handlers. *)
Lemma minimize_inv (fuel : nat) (self : IterativeFitting)
      (l r : matrix) (b : fl) (c0 weights : vec) (mu_l mu_r tau eps : fl)
      (max_iteration : Z) (deg : bool) (mx mn : option fl) (verbose : bool)
      (w : world) (res : result locals) :
  _minimize_objective fuel self l r b c0 weights mu_l mu_r tau eps
                      max_iteration deg mx mn verbose = Some (w, res) ->
  exists w',
    while_loop fuel mu_l mu_r tau weights eps max_iteration verbose
      (initial_f1 self l r b weights mu_l mu_r tau)
      (initial_world self l r b weights mu_l mu_r tau verbose)
      (initial_locals self l r b c0 weights mu_l mu_r tau deg mx mn)
    = Some (w', res)
    /\ w = fst (finish verbose weights (w', res)).
Proof.
  rewrite minimize_unfold. intro H.
  destruct (while_loop _ _ _ _ _ _ _ _ _ _ _) as [[w' res']|];
    [|discriminate H].
  cbn [option_map] in H. rewrite finish_result in H. inversion H; subst.
  exists w'. split; reflexivity.
Qed.

(** C2, as the code has it.  A pass in which both minimizers return and the
    fractional improvement is negative is completed like any other: the
    anomaly is recorded ([obj_increase] set in the state data, [good_fit]
    cleared in [IterativeClearSky]) and nothing is raised.  The improvement
    then tested by the loop is the absolute value of the computed one,
    unless the same pass has brought the counter to [max_iteration], in
    which case it is 0: for a positive epsilon the loop test then fails and
    the loop returns from the loop head that pass has reached, whatever
    fuel is left. *)
Theorem objective_increase_is_recorded :
  forall (mu_l mu_r tau : fl) (weights : vec) (max_iteration : Z)
         (verbose : bool) (f1_last : fl) (w : world) (s : locals)
         (left' : LeftMatrixMinimization) (right' : RightMatrixMinimization)
         (l1 r1 l2 r2 : matrix) (b1 b2 : fl)
         (sky : ClearSky.loop_state) (calc_deg : bool)
         (max_deg min_deg : option fl)
         (sky1 sky2 : ClearSky.IterativeClearSky),
    left_minimize (left_matric_minimization s) (l_cs s) (r_cs s) (beta s)
    = Ok (left', (l1, r1, b1)) ->
    right_minimize (right_matric_minimization s) l1 r1 b1
    = Ok (right', (l2, r2, b2)) ->
    fl_ltb (raw_improvement
              (old_objective_value s)
              (np_sum (_calculate_objective (obj w) mu_l mu_r tau l2 r2 b2
                                            weights)))
           fzero = true ->
    ClearSky.min_L (ClearSky.apply_test_days (ClearSky.self_of sky))
    = Ok sky1 ->
    ClearSky.min_R sky1 calc_deg max_deg min_deg = Ok sky2 ->
    fl_ltb (raw_improvement (ClearSky.old_obj sky)
                            (ClearSky.calc_objective sky2))
           fzero = true ->
    (exists (w' : world) (s' : locals),
        loop_body mu_l mu_r tau weights max_iteration verbose f1_last w s
        = (w', Ok s')
        /\ obj_increase (_state_data (obj w')) = true
        /\ improvement s'
           = (if (max_iteration <=? iteration s + 1)%Z then fzero
              else fl_abs (raw_improvement
                             (old_objective_value s)
                             (np_sum (_calculate_objective
                                        (obj w) mu_l mu_r tau l2 r2 b2
                                        weights))))
        /\ (forall (eps : fl) (fuel : nat),
               fl_ltb fzero eps = true ->
               (max_iteration <=? iteration s + 1)%Z = true ->
               fl_geb (improvement s') eps = false
               /\ while_loop fuel mu_l mu_r tau weights eps max_iteration
                             verbose f1_last w' s'
                  = Some (w', Ok s')))
    /\
    (exists s' : ClearSky.loop_state,
        ClearSky.loop_body max_iteration calc_deg max_deg min_deg sky = Ok s'
        /\ ClearSky.good_fit (ClearSky.self_of s') = false
        /\ ClearSky.improvement s'
           = (if (max_iteration <=? ClearSky.it sky + 1)%Z then fzero
              else fl_abs (raw_improvement (ClearSky.old_obj sky)
                                           (ClearSky.calc_objective sky2)))
        /\ (forall (eps : fl) (fuel : nat),
               fl_ltb fzero eps = true ->
               (max_iteration <=? ClearSky.it sky + 1)%Z = true ->
               fl_geb (ClearSky.improvement s') eps = false
               /\ ClearSky.while_loop fuel eps max_iteration calc_deg
                                      max_deg min_deg s'
                  = Some (Ok s'))).
Proof.
  intros mu_l mu_r tau weights max_iteration verbose f1_last w s left' right'
         l1 r1 l2 r2 b1 b2 sky calc_deg max_deg min_deg sky1 sky2
         Hleft Hright Hneg HL HR Hsky.
  pose proof (FloatFacts.flip_negative_is_abs _ Hneg) as Habs.
  pose proof (FloatFacts.flip_negative_is_abs _ Hsky) as Habs_sky.
  split.
  - destruct (LoopFacts.body_returns mu_l mu_r tau weights max_iteration
                verbose f1_last w _ Hleft Hright) as (w' & s' & Hb & Hval).
    inversion Hval; subst; clear Hval.
    pose proof Hb as Hobj. apply LoopFacts.body_objective in Hobj.
    pose proof Hb as Hcount. apply LoopFacts.body_counts in Hcount.
    pose proof Hb as Hstate. apply LoopFacts.body_state in Hstate.
    destruct Hstate as (_ & _ & _ & Hflag & _).
    rewrite <- Hobj in *.
    exists w', s'. split; [exact Hb|]. split; [|split].
    + rewrite Hflag, Hneg. apply orb_true_r.
    + destruct (max_iteration <=? iteration s + 1)%Z eqn:Hcap.
      * apply Z.leb_le in Hcap.
        eapply LoopFacts.body_at_cap; [exact Hb | lia].
      * apply Z.leb_gt in Hcap.
        apply LoopFacts.body_below_cap in Hb; [|lia].
        rewrite Hb. cbv zeta. rewrite Hneg. exact Habs.
    + intros eps fuel Hpos Hcap. apply Z.leb_le in Hcap.
      assert (Hzero : improvement s' = fzero)
        by (eapply LoopFacts.body_at_cap; [exact Hb | lia]).
      assert (Hstop : fl_geb (improvement s') eps = false)
        by (rewrite Hzero; now apply FloatFacts.positive_epsilon_stops_zero).
      split; [exact Hstop|].
      destruct fuel; simpl; rewrite Hstop; reflexivity.
  - destruct (SkyLoopFacts.sky_body_returns max_iteration _ _ _ _ HL HR)
      as (s' & Hb & Hobj).
    pose proof Hb as Hcount. apply SkyLoopFacts.sky_body_counts in Hcount.
    rewrite <- Hobj in *.
    exists s'. split; [exact Hb|]. split; [|split].
    + eapply SkyLoopFacts.sky_body_flags; eauto.
    + destruct (max_iteration <=? ClearSky.it sky + 1)%Z eqn:Hcap.
      * apply Z.leb_le in Hcap.
        eapply SkyLoopFacts.sky_body_at_cap; [exact Hb | lia].
      * apply Z.leb_gt in Hcap.
        apply SkyLoopFacts.sky_body_below_cap in Hb; [|lia].
        rewrite Hb. cbv zeta. rewrite Hsky. exact Habs_sky.
    + intros eps fuel Hpos Hcap. apply Z.leb_le in Hcap.
      assert (Hzero : ClearSky.improvement s' = fzero)
        by (eapply SkyLoopFacts.sky_body_at_cap; [exact Hb | lia]).
      assert (Hstop : fl_geb (ClearSky.improvement s') eps = false)
        by (rewrite Hzero; now apply FloatFacts.positive_epsilon_stops_zero).
      split; [exact Hstop|].
      destruct fuel; simpl; rewrite Hstop; reflexivity.
Qed.

(** C4.  Suppose [n] passes of the loop have been completed, the loop
    condition holds, and in the next pass the left or the right minimizer
    raises.  Then [_minimize_objective] returns normally, after exactly
    those [n] completed passes: the flag of the exception is set in the
    state data, the snapshot in the state data is the one taken at the start
    of the pass that raised, and the published results and residual
    statistics are those the object had before the call. *)
Theorem solver_failure_preserves_snapshot :
  forall (fit : IterativeFitting) (l r : matrix) (b : fl) (c0 weights : vec)
         (mu_l mu_r tau eps : fl) (max_iteration : Z) (deg : bool)
         (mx mn : option fl) (verbose : bool) (n fuel : nat)
         (w : world) (s : locals) (e : exn),
    after n mu_l mu_r tau weights eps max_iteration verbose
          (initial_f1 fit l r b weights mu_l mu_r tau)
          (initial_world fit l r b weights mu_l mu_r tau verbose)
          (initial_locals fit l r b c0 weights mu_l mu_r tau deg mx mn)
    = Some (w, s) ->
    fl_geb (improvement s) eps = true ->
    left_minimize (left_matric_minimization s) (l_cs s) (r_cs s) (beta s)
    = Raise e
    \/ (exists left' l1 r1 b1,
           left_minimize (left_matric_minimization s) (l_cs s) (r_cs s)
                         (beta s) = Ok (left', (l1, r1, b1))
           /\ right_minimize (right_matric_minimization s) l1 r1 b1
              = Raise e) ->
    (n < fuel)%nat ->
    exists wf : world,
      _minimize_objective fuel fit l r b c0 weights mu_l mu_r tau eps
                          max_iteration deg mx mn verbose
      = Some (wf, Raise e)
      /\ failure_flag e (_state_data (obj wf)) = true
      /\ snapshot (obj wf) = (l_cs s, r_cs s, beta s, r0 s)
      /\ published (obj wf) = published fit.
Proof.
  intros fit l r b c0 weights mu_l mu_r tau eps max_iteration deg mx mn
         verbose n fuel w s e Hafter Hcond Hraise Hfuel.
  set (f1_last := initial_f1 fit l r b weights mu_l mu_r tau) in *.
  assert (Hbody : exists w1,
             loop_body mu_l mu_r tau weights max_iteration verbose f1_last w s
             = (w1, Raise e)).
  { unfold loop_body.
    destruct Hraise as [Hl | (left' & l1 & r1 & b1 & Hl & Hr)].
    - rewrite Hl. eauto.
    - rewrite Hl, Hr. eauto. }
  destruct Hbody as [w1 Hbody].
  rewrite minimize_unfold. fold f1_last.
  replace fuel with (n + S (fuel - S n))%nat by lia.
  erewrite LoopFacts.loop_after by exact Hafter.
  simpl while_loop. rewrite Hcond, Hbody. cbn [option_map].
  rewrite finish_result.
  exists (fst (finish verbose weights (w1, Raise e))). split; [reflexivity|].
  destruct (finish_after_raise verbose weights w1 e) as (Hflag & Hsnap & Hpub).
  pose proof Hbody as Hraised. apply LoopFacts.body_raises in Hraised.
  destruct Hraised as (Hsnap1 & Hpub1 & _).
  split; [exact Hflag|]. split.
  - rewrite Hsnap. exact Hsnap1.
  - rewrite Hpub, Hpub1.
    apply LoopFacts.run_keeps_published in Hafter. rewrite Hafter.
    unfold initial_world. now destruct verbose.
Qed.

(** C10, as the code has it.  Neither loop looks at the weights before it
    starts: whatever they are, all zero included, a call that ends normally
    has made at least one pass through both minimizers, and a call of
    [_minimize_objective] that ends otherwise has caught an exception raised
    inside the loop.  There is no outcome that declares the weights
    degenerate.  (Epsilon is assumed not to be NaN.) *)
Theorem weights_are_not_checked :
  forall (fit : IterativeFitting) (l r : matrix) (b : fl) (c0 weights : vec)
         (mu_l mu_r tau eps : fl) (max_iteration : Z) (deg : bool)
         (mx mn : option fl) (verbose : bool)
         (sky : ClearSky.IterativeClearSky) (calc_deg : bool)
         (max_deg min_deg : option fl) (fuel : nat)
         (w : world) (res : result locals) (sky_s : ClearSky.loop_state),
    is_nan eps = false ->
    _minimize_objective fuel fit l r b c0 weights mu_l mu_r tau eps
                        max_iteration deg mx mn verbose = Some (w, res) ->
    ClearSky.minimize_objective fuel sky eps max_iteration calc_deg max_deg
                                min_deg = Some (Ok sky_s) ->
    match res with
    | Ok s => (1 <= iteration s)%Z
    | Raise e => failure_flag e (_state_data (obj w)) = true
    end
    /\ (1 <= ClearSky.it sky_s)%Z.
Proof.
  intros fit l r b c0 weights mu_l mu_r tau eps max_iteration deg mx mn
         verbose sky calc_deg max_deg min_deg fuel w res sky_s Heps Hfit Hsky.
  assert (Hinf : fl_geb PInf eps = true)
    by (rewrite FloatFacts.inf_geb; now rewrite Heps).
  split.
  - apply minimize_inv in Hfit. destruct Hfit as (w' & Hloop & ->).
    destruct res as [s|e].
    + apply LoopFacts.loop_enters in Hloop; [|exact Hinf].
      simpl in Hloop. lia.
    + apply finish_after_raise.
  - unfold ClearSky.minimize_objective in Hsky.
    destruct (ClearSky.while_loop _ _ _ _ _ _ _) as [[s'|e]|] eqn:Hloop;
      try discriminate Hsky.
    inversion Hsky; subst; clear Hsky. simpl.
    apply SkyLoopFacts.sky_loop_enters in Hloop; [|exact Hinf].
    simpl in Hloop. lia.
Qed.

(** C7.  [min_R] ends by storing row 0 of the [R] it has just solved in
    [r0].  The next pass changes the weights of the test days and the left
    factor and nothing else, so the problem that the next [min_R] builds
    carries, in its degradation constraint, the coefficients [1./r0[:-365]]
    of that refreshed [r0] (the constraint exists when the series is longer
    than 365 days).  In [IterativeFitting] the loop refreshes its local
    [component_r0] from row 0 of the new [R] in every pass and stores it in
    the state data; the constraint itself is built inside
    [RightMatrixMinimization]. *)
Theorem refreshed_r0_feeds_next_constraint :
  forall (self self1 self2 : ClearSky.IterativeClearSky) (calc_deg : bool)
         (max_deg min_deg : option fl) (calc_deg' : bool)
         (max_deg' min_deg' : option fl)
         (mu_l mu_r tau : fl) (weights : vec) (max_iteration : Z)
         (verbose : bool) (f1_last : fl) (w w' : world) (s s' : locals),
    ClearSky.min_R self calc_deg max_deg min_deg = Ok self1 ->
    ClearSky.min_L (ClearSky.apply_test_days self1) = Ok self2 ->
    loop_body mu_l mu_r tau weights max_iteration verbose f1_last w s
    = (w', Ok s') ->
    ClearSky.r0 self1 = nth 0 (ClearSky.R_cs self1) []
    /\ ClearSky.constraints_R
         (ClearSky.build_problem_R self2 calc_deg' max_deg' min_deg')
       = ClearSky.L_times_R_nonneg_R (ClearSky.L_cs self2)
         :: (if (365 <? ncols (ClearSky.D self))%nat then
               let inv_r0 :=
                 map (fl_div fone)
                     (upto_last 365 (nth 0 (ClearSky.R_cs self1) [])) in
               if calc_deg' then
                 [ClearSky.degradation_eq_beta inv_r0;
                  ClearSky.beta_ge (Fin (- (1 # 4)))]
                 ++ match max_deg' with
                    | Some b => [ClearSky.beta_le b]
                    | None => []
                    end
                 ++ match min_deg' with
                    | Some b => [ClearSky.beta_ge b]
                    | None => []
                    end
               else [ClearSky.degradation_eq_zero inv_r0]
             else [])
    /\ r0 s' = nth 0 (r_cs s') []
    /\ component_r0 (_state_data (obj w')) = r0 s'.
Proof.
  intros self self1 self2 calc_deg max_deg min_deg calc_deg' max_deg' min_deg'
         mu_l mu_r tau weights max_iteration verbose f1_last w w' s s'
         HR HL Hb.
  apply SolverStatus.min_R_returns in HR.
  destruct HR as (value & bv & _ & ->).
  apply SolverStatus.min_L_returns in HL.
  destruct HL as (lv & _ & ->).
  apply LoopFacts.body_state in Hb. destruct Hb as (Hsnap & Hr0 & _).
  split; [|split; [|split]].
  - now destruct ((365 <? ncols (ClearSky.D self))%nat && calc_deg).
  - unfold ClearSky.build_problem_R, ClearSky.apply_test_days.
    destruct ((365 <? ncols (ClearSky.D self))%nat && calc_deg);
      simpl; destruct (ClearSky.test_days self); reflexivity.
  - exact Hr0.
  - unfold snapshot in Hsnap. now inversion Hsnap.
Qed.

End WithBackend.

Import Samples MoreSamples Scenarios.

(** Two passes allowed, one needed: the 1x1 sample moves once and stays. *)
Lemma iteration_cap_witness :
  exists (w : world) (res : result locals),
    run_1x1 one_step 2 0 [Fin 1] eps_default 2 true = Some (w, res)
    /\ match res with
       | Ok s =>
           (iteration s <= Z.max 1 2)%Z
           /\ ((2 <= iteration s)%Z -> true = true ->
               exists p, In (ReachedIterationLimit p) (printed w))
       | Raise _ => True
       end.
Proof.
  refine (proj1 (@iteration_cap sample_numeric one_step (sky_solver 5)
                   fitting_1x1 (one_by_one 1) (one_by_one 0) fzero [Fin 0]
                   [Fin 1] (Fin 1) (Fin 20) (Fin (8 # 10)) eps_default 2
                   true None None true (clearsky_1x1 0 [Fin 1]) true
                   (Some fzero) (Some (Fin (- (1 # 4)))) 2 _ _)).
  - reflexivity.
  - vm_compute. lia.
Defined.

(** Where C1 fails as stated.  With [max_iteration = 0] both loops still
    make one pass.  With [eps = 0] and [max_iteration = 1] the reset to 0
    does not stop them: fifty passes later the loop condition still holds.
    And a capped run of [IterativeFitting] with [verbose] off prints
    nothing. *)
Lemma cap_is_not_a_bound_for_every_configuration :
  (exists (w : world) (s : locals),
      run_1x1 one_step 10 0 [Fin 1] eps_default 0 true = Some (w, Ok s)
      /\ iteration s = 1%Z)
  /\ (exists s : ClearSky.loop_state,
         sky_run 10 5 0 [Fin 1] eps_default 0 = Some (Ok s)
         /\ ClearSky.it s = 1%Z)
  /\ run_1x1 one_step 50 0 [Fin 1] fzero 1 true = None
  /\ sky_run 50 5 0 [Fin 1] fzero 1 = None
  /\ (exists (w : world) (s : locals),
         run_1x1 one_step 10 0 [Fin 1] eps_default 1 false = Some (w, Ok s)
         /\ iteration s = 1%Z /\ printed w = []).
Proof.
  split; [|split; [|split; [|split]]].
  - eexists; eexists; split; reflexivity.
  - eexists; split; reflexivity.
  - vm_compute. reflexivity.
  - vm_compute. reflexivity.
  - eexists; eexists; split; [reflexivity | split; reflexivity].
Qed.

(** A pass below the cap in which the objective rises from 4 to 5.6: the
    flag is set and the loop goes on with the absolute value 0.4. *)
Lemma objective_increase_is_recorded_witness :
  (exists (w' : world) (s' : locals),
      first_pass_1x1 rise 5 [Fin 1] 100 true = (w', Ok s')
      /\ obj_increase (_state_data (obj w')) = true
      /\ fl_geb (improvement s') eps_default = true)
  /\ (exists s' : ClearSky.loop_state,
         sky_first_pass 3 5 [Fin 1] 100 = Ok s'
         /\ ClearSky.good_fit (ClearSky.self_of s') = false
         /\ fl_geb (ClearSky.improvement s') eps_default = true).
Proof.
  pose (sky0 := @ClearSky.initial_loop_state sample_numeric
                                            (clearsky_1x1 5 [Fin 1])).
  pose (sky1 := ClearSky.set_L_cs
                  (ClearSky.apply_test_days (ClearSky.self_of sky0))
                  (one_by_one 1)).
  pose (sky2 := ClearSky.set_r0 (ClearSky.set_R_cs sky1 (one_by_one 3))
                                [Fin 3]).
  destruct (@objective_increase_is_recorded sample_numeric rise
              (sky_solver 3) (Fin 1) (Fin 20) (Fin (8 # 10)) [Fin 1] 100
              true (f1_1x1 5 [Fin 1]) (world_1x1 5 [Fin 1] true)
              (locals_1x1 rise 5 [Fin 1]) [] []
              (one_by_one 1) (one_by_one 5) (one_by_one 1) (one_by_one 3)
              fzero fzero sky0 true (Some fzero) (Some (Fin (- (1 # 4))))
              sky1 sky2)
    as [(w' & s' & Hb & Hflag & Himp & _)
          (t' & Hsky & Hgood & Hskyimp & _)].
  - reflexivity.
  - reflexivity.
  - reflexivity.
  - reflexivity.
  - reflexivity.
  - reflexivity.
  - split.
    + exists w', s'. split; [exact Hb|]. split; [exact Hflag|].
      rewrite Himp. reflexivity.
    + exists t'. split; [exact Hsky|]. split; [exact Hgood|].
      rewrite Hskyimp. reflexivity.
Defined.

(** Where C2 fails as stated: the same rise in a pass that reaches the cap
    ([max_iteration = 1]).  The absolute improvement 0.4 would keep the loop
    going, but the value tested is 0 and the loop is left. *)
Lemma cap_overrides_absolute_improvement :
  (exists (w' : world) (s' : locals),
      first_pass_1x1 rise 5 [Fin 1] 1 true = (w', Ok s')
      /\ fl_ltb (raw_improvement (Fin 4) (old_objective_value s')) fzero = true
      /\ fl_geb (fl_abs (raw_improvement (Fin 4) (old_objective_value s')))
                eps_default = true
      /\ improvement s' = fzero
      /\ fl_geb (improvement s') eps_default = false)
  /\ (exists s' : ClearSky.loop_state,
         sky_first_pass 3 5 [Fin 1] 1 = Ok s'
         /\ fl_ltb (raw_improvement (Fin 4) (ClearSky.old_obj s')) fzero = true
         /\ fl_geb (fl_abs (raw_improvement (Fin 4) (ClearSky.old_obj s')))
                   eps_default = true
         /\ ClearSky.improvement s' = fzero
         /\ fl_geb (ClearSky.improvement s') eps_default = false).
Proof.
  split.
  - eexists; eexists. split; [reflexivity|]. repeat split; reflexivity.
  - eexists. split; [reflexivity|]. repeat split; reflexivity.
Qed.

(** The right minimizer succeeds in the first pass and reports an infeasible
    problem in the second: the fit ends with the status flag set and with the
    factors of the first pass in the snapshot. *)
Lemma solver_failure_preserves_snapshot_witness :
  exists wf : world,
    run_1x1 fails_second 10 0 [Fin 1] eps_default 100 true
    = Some (wf, Raise (ProblemStatusError "Minimize R status: infeasible"))
    /\ is_problem_status_error (_state_data (obj wf)) = true
    /\ snapshot (obj wf) = (one_by_one 1, one_by_one 5, fzero, [Fin 5])
    /\ published (obj wf) = published fitting_1x1.
Proof.
  edestruct (@solver_failure_preserves_snapshot sample_numeric fails_second
               fitting_1x1 (one_by_one 1) (one_by_one 0) fzero [Fin 0]
               [Fin 1] (Fin 1) (Fin 20) (Fin (8 # 10)) eps_default 100 true
               None None true 1%nat 10%nat)
    as (wf & Hrun & Hflag & Hsnap & Hpub).
  - reflexivity.
  - reflexivity.
  - right. eexists; eexists; eexists; eexists. split; reflexivity.
  - lia.
  - exists wf. split; [exact Hrun|]. split; [exact Hflag|].
    split; [exact Hsnap | exact Hpub].
Defined.

(** Over 366 days the solver's [R] (all 2) replaces the [r0] of the start
    (all 1): the next problem ties [beta] to coefficients [1/2]. *)
Lemma refreshed_r0_feeds_next_constraint_witness :
  exists self2 : ClearSky.IterativeClearSky,
    In (ClearSky.degradation_eq_beta
          (map (fl_div fone) (upto_last 365 (repeat (Fin 2) 366))))
       (ClearSky.constraints_R
          (@ClearSky.build_problem_R sample_numeric self2 true None None))
    /\ ClearSky.r0 self2 = repeat (Fin 2) 366.
Proof.
  pose (self1 := ClearSky.set_r0
                   (ClearSky.set_beta
                      (ClearSky.set_R_cs clearsky_366 [repeat (Fin 2) 366])
                      (Fin (- (1 # 10))))
                   (repeat (Fin 2) 366)).
  pose (self2 := ClearSky.set_L_cs (ClearSky.apply_test_days self1)
                                   [[Fin 1]]).
  pose (pass := first_pass_1x1 rise 5 [Fin 1] 100 true).
  destruct (@refreshed_r0_feeds_next_constraint sample_numeric rise
              solver_366 clearsky_366 self1 self2 true None None
              true None None (Fin 1) (Fin 20) (Fin (8 # 10)) [Fin 1] 100
              true (f1_1x1 5 [Fin 1]) (world_1x1 5 [Fin 1] true) (fst pass)
              (locals_1x1 rise 5 [Fin 1])
              (match snd pass with
               | Ok s' => s'
               | Raise _ => locals_1x1 rise 5 [Fin 1]
               end))
    as (Hr0 & Hcons & _).
  - reflexivity.
  - reflexivity.
  - reflexivity.
  - exists self2. split.
    + rewrite Hcons. right. left. reflexivity.
    + reflexivity.
Defined.

(** A run with a single day of weight 0: the loop is entered and left
    normally after one pass. *)
Lemma weights_are_not_checked_witness :
  exists (w : world) (s : locals) (t : ClearSky.loop_state),
    run_1x1 idle 10 5 [Fin 0] eps_default 100 true = Some (w, Ok s)
    /\ sky_run 10 5 5 [Fin 0] eps_default 100 = Some (Ok t)
    /\ (1 <= iteration s)%Z /\ (1 <= ClearSky.it t)%Z.
Proof.
  eexists; eexists; eexists.
  split; [reflexivity|]. split; [reflexivity|].
  refine (@weights_are_not_checked sample_numeric idle (sky_solver 5)
            fitting_1x1 (one_by_one 1) (one_by_one 5) fzero [Fin 5] [Fin 0]
            (Fin 1) (Fin 20) (Fin (8 # 10)) eps_default 100 true None None
            true (clearsky_1x1 5 [Fin 0]) true (Some fzero)
            (Some (Fin (- (1 # 4)))) 10 _ (Ok _) _ _ _ _);
    reflexivity.
Defined.

(** Where C10 fails as stated: the only weight is 0, and both fits go
    through the minimizers and end normally, with nothing refused. *)
Lemma all_zero_weights_are_fitted :
  (exists (w : world) (s : locals),
      run_1x1 idle 10 5 [Fin 0] eps_default 100 true = Some (w, Ok s)
      /\ iteration s = 1%Z
      /\ In MinimizingLeft (printed w) /\ In MinimizingRight (printed w)
      /\ is_solver_error (_state_data (obj w)) = false
      /\ is_problem_status_error (_state_data (obj w)) = false)
  /\ (exists t : ClearSky.loop_state,
         sky_run 10 5 5 [Fin 0] eps_default 100 = Some (Ok t)
         /\ ClearSky.it t = 1%Z).
Proof.
  split.
  - eexists; eexists. split; [reflexivity|]. split; [reflexivity|].
    simpl. repeat split; auto.
  - eexists. split; reflexivity.
Qed.

(** C8, evaluated where it fails.  The reference [f1_last] is the loss of
    the starting point and is never updated in the loop.  On the 1x1 sample
    the loss is 8 at the start, 4 after the first pass and 5.6 after the
    second: it has increased against the previous pass, but not against the
    start, and [f1_increase] is not set, neither after the second pass nor
    at the end of the fit. *)
Theorem residual_increase_missed :
  exists (w1 w2 wf : world) (s1 s2 sf : locals),
    after_1x1 dip_then_rise 1 0 [Fin 1] eps_default 100 true = Some (w1, s1)
    /\ after_1x1 dip_then_rise 2 0 [Fin 1] eps_default 100 true
       = Some (w2, s2)
    /\ fl_ltb (loss_1x1 [Fin 1] s1) (loss_1x1 [Fin 1] s2) = true
    /\ fl_ltb (loss_1x1 [Fin 1] s2) (f1_1x1 0 [Fin 1]) = true
    /\ f1_increase (_state_data (obj w2)) = false
    /\ run_1x1 dip_then_rise 10 0 [Fin 1] eps_default 100 true
       = Some (wf, Ok sf)
    /\ f1_increase (_state_data (obj wf)) = false.
Proof.
  let r1 := eval vm_compute in
        (after_1x1 dip_then_rise 1 0 [Fin 1] eps_default 100 true) in
  let r2 := eval vm_compute in
        (after_1x1 dip_then_rise 2 0 [Fin 1] eps_default 100 true) in
  let rf := eval vm_compute in
        (run_1x1 dip_then_rise 10 0 [Fin 1] eps_default 100 true) in
  lazymatch r1 with
  | Some (?w1, ?s1) =>
      lazymatch r2 with
      | Some (?w2, ?s2) =>
          lazymatch rf with
          | Some (?wf, Ok ?sf) => exists w1, w2, wf, s1, s2, sf
          end
      end
  end.
  repeat split; vm_compute; reflexivity.
Qed.
End Orchestrator.

(* ------------------------------------------------------------------ *)
(** * Further properties of [_minimize_objective] *)
(* ------------------------------------------------------------------ *)

Module LoopInvariants.
Import Fitting Runs.

Section WithBackend.
Context {num : Numeric} {mz : Minimization}.

Variables (mu_l mu_r tau : fl) (weights : vec).
Variables (eps : fl) (max_iteration : Z) (verbose : bool) (f1_last : fl).

Local Abbreviation body :=
  (loop_body mu_l mu_r tau weights max_iteration verbose f1_last).
Local Abbreviation loop fuel :=
  (while_loop fuel mu_l mu_r tau weights eps max_iteration verbose f1_last).

(** Every way through the body: a raise in the left minimizer, a raise in
    the right one, or a completed pass with its three tests decided. *)
Ltac through_body H :=
  unfold loop_body in H;
  destruct (left_minimize _ _ _ _) as [[? [[? ?] ?]]|?];
    [destruct (right_minimize _ _ _ _) as [[? [[? ?] ?]]|?];
       [destruct (fl_gtb _ f1_last); destruct (fl_ltb _ fzero);
        destruct (_ <=? _)%Z|]|];
  inversion H; subst; clear H.

(** The four flags of the state data, as one tuple. *)
Local Abbreviation flags sd :=
  (f1_increase sd, obj_increase sd, is_solver_error sd,
   is_problem_status_error sd).

(** [a] implies [b], flag by flag. *)
Local Abbreviation kept a b :=
  (implb (fst (fst (fst a))) (fst (fst (fst b)))
   && implb (snd (fst (fst a))) (snd (fst (fst b)))
   && implb (snd (fst a)) (snd (fst b))
   && implb (snd a) (snd b) = true).

Lemma body_keeps_flags (w w' : world) (s : locals) (r : result locals) :
  body w s = (w', r) ->
  kept (flags (_state_data (obj w))) (flags (_state_data (obj w'))).
Proof.
  intro H. through_body H; destruct verbose; simpl;
    destruct (f1_increase _), (obj_increase _), (is_solver_error _),
      (is_problem_status_error _); reflexivity.
Qed.

Lemma kept_trans (a b c : bool * bool * bool * bool) :
  kept a b -> kept b c -> kept a c.
Proof.
  destruct a as [[[a1 a2] a3] a4], b as [[[b1 b2] b3] b4],
    c as [[[c1 c2] c3] c4]; simpl.
  destruct a1, a2, a3, a4, b1, b2, b3, b4, c1, c2, c3, c4; simpl;
    intros; congruence.
Qed.

Lemma loop_keeps_flags (fuel : nat) :
  forall (w w' : world) (s : locals) (r : result locals),
    loop fuel w s = Some (w', r) ->
    kept (flags (_state_data (obj w))) (flags (_state_data (obj w'))).
Proof.
  induction fuel as [|fuel IH]; intros w w' s r H; simpl in H;
    destruct (fl_geb (improvement s) eps);
    try discriminate H;
    try (inversion H; subst;
         destruct (f1_increase _), (obj_increase _), (is_solver_error _),
           (is_problem_status_error _); reflexivity).
  destruct (body w s) as [w1 [s1|x]] eqn:Hb.
  - eapply kept_trans; [eapply body_keeps_flags; exact Hb | eapply IH; eauto].
  - inversion H; subst. eapply body_keeps_flags; exact Hb.
Qed.

Lemma finish_keeps_flags (w : world) (r : result locals) :
  kept (flags (_state_data (obj w)))
       (flags (_state_data (obj (fst (finish verbose weights (w, r)))))).
Proof.
  destruct r as [s|[|msg]]; destruct verbose; simpl;
    destruct (f1_increase _), (obj_increase _), (is_solver_error _),
      (is_problem_status_error _); reflexivity.
Qed.

(** Nothing is printed when [verbose] is off. *)
Lemma loop_quiet (fuel : nat) :
  verbose = false ->
  forall (w w' : world) (s : locals) (r : result locals),
    loop fuel w s = Some (w', r) -> printed w' = printed w.
Proof.
  intro Hv. induction fuel as [|fuel IH]; intros w w' s r H; simpl in H;
    destruct (fl_geb (improvement s) eps);
    try discriminate H; try (inversion H; subst; reflexivity).
  destruct (body w s) as [w1 [s1|x]] eqn:Hb.
  - apply IH in H. rewrite H. eapply LoopFacts.body_quiet; eauto.
  - inversion H; subst. eapply LoopFacts.body_quiet; eauto.
Qed.

(** After at least one completed pass the snapshot in the state data is
    the locals the loop ended with. *)
Lemma loop_snapshot (fuel : nat) :
  forall (w w' : world) (s s' : locals),
    loop fuel w s = Some (w', Ok s') ->
    (iteration s < iteration s')%Z ->
    snapshot (obj w') = (l_cs s', r_cs s', beta s', r0 s')
    /\ r0 s' = nth 0 (r_cs s') [].
Proof.
  induction fuel as [|fuel IH]; intros w w' s s' H Hlt; simpl in H;
    destruct (fl_geb (improvement s) eps);
    try discriminate H; try (inversion H; subst; lia).
  destruct (body w s) as [w1 [s1|x]] eqn:Hb; [|discriminate H].
  pose proof Hb as Hcount. apply LoopFacts.body_counts in Hcount.
  destruct (Z_lt_le_dec (iteration s1) (iteration s')) as [Hmore|Hdone].
  - eapply IH; eauto.
  - pose proof H as Hup. apply LoopFacts.loop_counts_up in Hup.
    assert (Hsame : (w', s') = (w1, s1)).
    { destruct fuel as [|fuel']; simpl in H;
        destruct (fl_geb (improvement s1) eps) eqn:Hc;
        try discriminate H; try (now inversion H).
      destruct (body w1 s1) as [w2 [s2|y]] eqn:Hb2; [|discriminate H].
      apply LoopFacts.body_counts in Hb2.
      apply LoopFacts.loop_counts_up in H. lia. }
    inversion Hsame; subst. apply LoopFacts.body_state in Hb.
    destruct Hb as (H1 & H2 & _). split; assumption.
Qed.

(** The attributes the fit reads and never writes, with the stored
    weights. *)
Local Abbreviation static self :=
  (_solver_type self, _power_signals_d self, _rank_k self, _matrix_l0 self,
   _test_days self, Fitting.weights (_state_data self)).

Lemma body_keeps_static (w w' : world) (s : locals) (r : result locals) :
  body w s = (w', r) -> static (obj w') = static (obj w).
Proof.
  intro H. through_body H; destruct verbose; reflexivity.
Qed.

Lemma loop_keeps_static (fuel : nat) :
  forall (w w' : world) (s : locals) (r : result locals),
    loop fuel w s = Some (w', r) -> static (obj w') = static (obj w).
Proof.
  induction fuel as [|fuel IH]; intros w w' s r H; simpl in H;
    destruct (fl_geb (improvement s) eps);
    try discriminate H; try (inversion H; subst; reflexivity).
  destruct (body w s) as [w1 [s1|x]] eqn:Hb.
  - apply IH in H. rewrite H. eapply body_keeps_static; exact Hb.
  - inversion H; subst. eapply body_keeps_static; exact Hb.
Qed.

Lemma finish_keeps_static (w : world) (r : result locals) :
  static (obj (fst (finish verbose weights (w, r)))) = static (obj w).
Proof.
  destruct r as [s|[|msg]]; destruct verbose; reflexivity.
Qed.

End WithBackend.

Section Claims.
Context {num : Numeric} {mz : Minimization}.

(** X1.  [_minimize_objective] sets flags and never clears one: each of
    [f1_increase], [obj_increase], [is_solver_error] and
    [is_problem_status_error] that is set in the state data before the call
    is still set after it, whatever the outcome, so a later successful fit
    on the same object still shows the failure of an earlier one. *)
Theorem flags_are_never_cleared :
  forall (fit : IterativeFitting) (l r : matrix) (b : fl) (c0 weights : vec)
         (mu_l mu_r tau eps : fl) (max_iteration : Z) (deg : bool)
         (mx mn : option fl) (verbose : bool) (fuel : nat)
         (w : world) (res : result locals),
    _minimize_objective fuel fit l r b c0 weights mu_l mu_r tau eps
                        max_iteration deg mx mn verbose = Some (w, res) ->
    (f1_increase (_state_data fit) = true ->
     f1_increase (_state_data (obj w)) = true)
    /\ (obj_increase (_state_data fit) = true ->
        obj_increase (_state_data (obj w)) = true)
    /\ (is_solver_error (_state_data fit) = true ->
        is_solver_error (_state_data (obj w)) = true)
    /\ (is_problem_status_error (_state_data fit) = true ->
        is_problem_status_error (_state_data (obj w)) = true).
Proof.
  intros fit l r b c0 weights mu_l mu_r tau eps max_iteration deg mx mn
         verbose fuel w res Hrun.
  apply Orchestrator.minimize_inv in Hrun. destruct Hrun as (w' & Hloop & ->).
  apply loop_keeps_flags in Hloop.
  pose proof (finish_keeps_flags weights verbose w' res) as Hfin.
  assert (H0 : obj (initial_world fit l r b weights mu_l mu_r tau verbose)
               = fit) by (unfold initial_world; now destruct verbose).
  rewrite H0 in Hloop.
  pose proof (kept_trans _ _ _ Hloop Hfin) as H. simpl in H.
  destruct (f1_increase (_state_data fit)),
    (obj_increase (_state_data fit)),
    (is_solver_error (_state_data fit)),
    (is_problem_status_error (_state_data fit)); simpl in H;
    repeat (apply andb_true_iff in H; destruct H as [H ?]);
    repeat split; intros; try discriminate; assumption.
Qed.

(** X2.  With [verbose] off, [_minimize_objective] prints nothing, whatever
    happens in the loop and however it ends. *)
Theorem quiet_fit_prints_nothing :
  forall (fit : IterativeFitting) (l r : matrix) (b : fl) (c0 weights : vec)
         (mu_l mu_r tau eps : fl) (max_iteration : Z) (deg : bool)
         (mx mn : option fl) (fuel : nat)
         (w : world) (res : result locals),
    _minimize_objective fuel fit l r b c0 weights mu_l mu_r tau eps
                        max_iteration deg mx mn false = Some (w, res) ->
    printed w = [].
Proof.
  intros fit l r b c0 weights mu_l mu_r tau eps max_iteration deg mx mn
         fuel w res Hrun.
  apply Orchestrator.minimize_inv in Hrun. destruct Hrun as (w' & Hloop & ->).
  apply loop_quiet in Hloop; [|reflexivity].
  destruct res as [s|[|msg]]; simpl; exact Hloop.
Qed.

(** Where a normal end leaves the results (epsilon not NaN): in the
    accessors and in the snapshot of the state data. *)
Lemma normal_end (fit : IterativeFitting) (l r : matrix) (b : fl)
      (c0 weights : vec) (mu_l mu_r tau eps : fl) (max_iteration : Z)
      (deg : bool) (mx mn : option fl) (verbose : bool) (fuel : nat)
      (w : world) (s : locals) :
  is_nan eps = false ->
  _minimize_objective fuel fit l r b c0 weights mu_l mu_r tau eps
                      max_iteration deg mx mn verbose = Some (w, Ok s) ->
  (_l_cs_value (obj w), _r_cs_value (obj w), _beta_value (obj w))
  = (Some (l_cs s), Some (r_cs s), Some (beta s))
  /\ snapshot (obj w) = (l_cs s, r_cs s, beta s, nth 0 (r_cs s) []).
Proof.
  intros Heps Hrun.
  apply Orchestrator.minimize_inv in Hrun. destruct Hrun as (w' & Hloop & ->).
  assert (Hinf : fl_geb PInf eps = true)
    by (rewrite FloatFacts.inf_geb; now rewrite Heps).
  pose proof Hloop as Hin. apply LoopFacts.loop_enters in Hin; [|exact Hinf].
  pose proof Hloop as Hsnap. apply loop_snapshot in Hsnap; [|exact Hin].
  destruct Hsnap as [Hsnap Hr0].
  split.
  - destruct verbose; reflexivity.
  - transitivity (snapshot (obj w'));
      [destruct verbose; reflexivity | now rewrite Hsnap, Hr0].
Qed.

(** What [_minimize_objective] never writes. *)
Lemma run_keeps_static (fit : IterativeFitting) (l r : matrix) (b : fl)
      (c0 weights : vec) (mu_l mu_r tau eps : fl) (max_iteration : Z)
      (deg : bool) (mx mn : option fl) (verbose : bool) (fuel : nat)
      (w : world) (res : result locals) :
  _minimize_objective fuel fit l r b c0 weights mu_l mu_r tau eps
                      max_iteration deg mx mn verbose = Some (w, res) ->
  (_solver_type (obj w), _power_signals_d (obj w), _rank_k (obj w),
   _matrix_l0 (obj w), _test_days (obj w),
   Fitting.weights (_state_data (obj w)))
  = (_solver_type fit, _power_signals_d fit, _rank_k fit, _matrix_l0 fit,
     _test_days fit, Fitting.weights (_state_data fit)).
Proof.
  intro Hrun.
  apply Orchestrator.minimize_inv in Hrun. destruct Hrun as (w' & Hloop & ->).
  apply loop_keeps_static in Hloop.
  rewrite finish_keeps_static, Hloop.
  unfold initial_world. now destruct verbose.
Qed.

(** X3.  When [_minimize_objective] ends normally (epsilon not NaN), three
    records of the result agree: the published accessors hold the factors
    and the degradation rate of the last pass, and the snapshot in the
    state data holds the same factors and rate together with the [r0] that
    is row 0 of the final right factor. *)
Theorem normal_end_publishes_last_pass :
  forall (fit : IterativeFitting) (l r : matrix) (b : fl) (c0 weights : vec)
         (mu_l mu_r tau eps : fl) (max_iteration : Z) (deg : bool)
         (mx mn : option fl) (verbose : bool) (fuel : nat)
         (w : world) (s : locals),
    is_nan eps = false ->
    _minimize_objective fuel fit l r b c0 weights mu_l mu_r tau eps
                        max_iteration deg mx mn verbose = Some (w, Ok s) ->
    (_l_cs_value (obj w), _r_cs_value (obj w), _beta_value (obj w))
    = (Some (l_cs s), Some (r_cs s), Some (beta s))
    /\ snapshot (obj w) = (l_cs s, r_cs s, beta s, nth 0 (r_cs s) []).
Proof.
  intros fit l r b c0 weights mu_l mu_r tau eps max_iteration deg mx mn
         verbose fuel w s Heps Hrun.
  eapply normal_end; eauto.
Qed.

(** X8.  [_minimize_objective] never writes its inputs: however
    it ends, the solver type, the data matrix, the rank, [_matrix_l0], the
    test days and the weights stored in the state data are those of the
    object it was called on. *)
Theorem fit_never_writes_its_inputs :
  forall (fit : IterativeFitting) (l r : matrix) (b : fl) (c0 weights : vec)
         (mu_l mu_r tau eps : fl) (max_iteration : Z) (deg : bool)
         (mx mn : option fl) (verbose : bool) (fuel : nat)
         (w : world) (res : result locals),
    _minimize_objective fuel fit l r b c0 weights mu_l mu_r tau eps
                        max_iteration deg mx mn verbose = Some (w, res) ->
    (_solver_type (obj w), _power_signals_d (obj w), _rank_k (obj w),
     _matrix_l0 (obj w), _test_days (obj w),
     Fitting.weights (_state_data (obj w)))
    = (_solver_type fit, _power_signals_d fit, _rank_k fit, _matrix_l0 fit,
       _test_days fit, Fitting.weights (_state_data fit)).
Proof.
  intros fit l r b c0 weights mu_l mu_r tau eps max_iteration deg mx mn
         verbose fuel w res Hrun.
  eapply run_keeps_static; eauto.
Qed.

End Claims.

End LoopInvariants.

(* ------------------------------------------------------------------ *)
(** * The fractional improvement *)
(* ------------------------------------------------------------------ *)

Module Improvement.
Import Fitting Runs.

(** For a positive old objective the improvement is negative exactly when
    the new objective is larger. *)
Lemma negative_iff_increase (a b : Q) :
  0 < a -> fl_ltb (raw_improvement (Fin a) (Fin b)) fzero = Qltb a b.
Proof.
  intro Ha. unfold raw_improvement. simpl.
  assert (Hc : (a ?= 0) = Gt) by (apply Qgt_alt; exact Ha).
  rewrite Hc. simpl.
  assert (Hinv : 0 < / a) by (apply Qinv_lt_0_compat; exact Ha).
  apply eq_true_iff_eq. rewrite !FloatFacts.Qltb_true.
  unfold Qdiv. split; intro H; nra.
Qed.

(** With both objectives zero the improvement is [0/0]. *)
Lemma zero_over_zero (a b : Q) :
  a == 0 -> b == 0 -> raw_improvement (Fin a) (Fin b) = NaN.
Proof.
  intros Ha Hb. unfold raw_improvement. simpl.
  assert (Hc : (a ?= 0) = Eq) by (apply Qeq_alt; exact Ha).
  assert (Hn : ((a + - b) * 1 ?= 0) = Eq) by (apply Qeq_alt; lra).
  now rewrite Hc, Hn.
Qed.

Section WithBackend.
Context {num : Numeric} {mz : Minimization} {cvx : ClearSky.Solver}.

(** What the steps of a pass of [minimize_objective] leave alone. *)
Lemma min_L_frame (x y : ClearSky.IterativeClearSky) :
  ClearSky.min_L x = Ok y ->
  (ClearSky.D y, ClearSky.k y, ClearSky.R_cs y, ClearSky.beta y,
   ClearSky.good_fit y, ClearSky.r0 y, ClearSky.mu_L y, ClearSky.mu_R y,
   ClearSky.tau y, ClearSky.weights y, ClearSky.test_days y)
  = (ClearSky.D x, ClearSky.k x, ClearSky.R_cs x, ClearSky.beta x,
     ClearSky.good_fit x, ClearSky.r0 x, ClearSky.mu_L x, ClearSky.mu_R x,
     ClearSky.tau x, ClearSky.weights x, ClearSky.test_days x).
Proof.
  intro H. apply SolverStatus.min_L_returns in H.
  destruct H as (v & _ & ->). reflexivity.
Qed.

Lemma min_R_frame (x y : ClearSky.IterativeClearSky) (calc_deg : bool)
      (max_deg min_deg : option fl) :
  ClearSky.min_R x calc_deg max_deg min_deg = Ok y ->
  (ClearSky.D y, ClearSky.k y, ClearSky.L_cs y, ClearSky.good_fit y,
   ClearSky.mu_L y, ClearSky.mu_R y, ClearSky.tau y, ClearSky.weights y,
   ClearSky.test_days y)
  = (ClearSky.D x, ClearSky.k x, ClearSky.L_cs x, ClearSky.good_fit x,
     ClearSky.mu_L x, ClearSky.mu_R x, ClearSky.tau x, ClearSky.weights x,
     ClearSky.test_days x).
Proof.
  intro H. apply SolverStatus.min_R_returns in H.
  destruct H as (v & b & _ & ->).
  now destruct ((365 <? ncols (ClearSky.D x))%nat && calc_deg).
Qed.

Lemma apply_test_days_frame (x : ClearSky.IterativeClearSky) :
  (ClearSky.D (ClearSky.apply_test_days x),
   ClearSky.k (ClearSky.apply_test_days x),
   ClearSky.L_cs (ClearSky.apply_test_days x),
   ClearSky.R_cs (ClearSky.apply_test_days x),
   ClearSky.beta (ClearSky.apply_test_days x),
   ClearSky.good_fit (ClearSky.apply_test_days x),
   ClearSky.r0 (ClearSky.apply_test_days x),
   ClearSky.mu_L (ClearSky.apply_test_days x),
   ClearSky.mu_R (ClearSky.apply_test_days x),
   ClearSky.tau (ClearSky.apply_test_days x),
   ClearSky.test_days (ClearSky.apply_test_days x))
  = (ClearSky.D x, ClearSky.k x, ClearSky.L_cs x, ClearSky.R_cs x,
     ClearSky.beta x, ClearSky.good_fit x, ClearSky.r0 x, ClearSky.mu_L x,
     ClearSky.mu_R x, ClearSky.tau x, ClearSky.test_days x).
Proof.
  unfold ClearSky.apply_test_days.
  destruct (ClearSky.test_days x) eqn:E; simpl; rewrite ?E; reflexivity.
Qed.

(** A completed pass, taken apart: the object after the weight update and
    the two minimizers, and what the pass does with it. *)
Lemma sky_body_inv (max_iter : Z) (calc_deg : bool)
      (max_deg min_deg : option fl) (s s' : ClearSky.loop_state) :
  ClearSky.loop_body max_iter calc_deg max_deg min_deg s = Ok s' ->
  exists self1 self2 : ClearSky.IterativeClearSky,
    ClearSky.min_L (ClearSky.apply_test_days (ClearSky.self_of s)) = Ok self1
    /\ ClearSky.min_R self1 calc_deg max_deg min_deg = Ok self2
    /\ ClearSky.old_obj s' = ClearSky.calc_objective self2
    /\ ClearSky.self_of s'
       = (if fl_ltb (raw_improvement (ClearSky.old_obj s)
                                     (ClearSky.old_obj s')) fzero
          then ClearSky.set_good_fit self2 false else self2).
Proof.
  intro H. unfold ClearSky.loop_body, bind in H.
  destruct (ClearSky.min_L _) as [self1|] eqn:HL; [|discriminate H].
  destruct (ClearSky.min_R _ _ _ _) as [self2|] eqn:HR; [|discriminate H].
  exists self1, self2.
  split; [first [exact HL | reflexivity]|].
  split; [first [exact HR | reflexivity]|].
  unfold raw_improvement.
  destruct (fl_ltb _ fzero) eqn:Hneg; destruct (_ <=? _)%Z;
    inversion H; subst; clear H; simpl; rewrite Hneg; split; reflexivity.
Qed.

(** What one pass of [minimize_objective] does to [good_fit]. *)
Lemma sky_body_good_fit (max_iter : Z) (calc_deg : bool)
      (max_deg min_deg : option fl) (s s' : ClearSky.loop_state) :
  ClearSky.loop_body max_iter calc_deg max_deg min_deg s = Ok s' ->
  ClearSky.good_fit (ClearSky.self_of s')
  = (ClearSky.good_fit (ClearSky.self_of s)
     && negb (fl_ltb (raw_improvement (ClearSky.old_obj s)
                                      (ClearSky.old_obj s')) fzero)).
Proof.
  intro H. apply sky_body_inv in H.
  destruct H as (self1 & self2 & HL & HR & _ & ->).
  apply min_L_frame in HL. apply min_R_frame in HR.
  pose proof (apply_test_days_frame (ClearSky.self_of s)) as HT.
  inversion HL. inversion HR. inversion HT.
  destruct (fl_ltb _ fzero); simpl.
  - now rewrite andb_false_r.
  - rewrite andb_true_r. congruence.
Qed.

(** X4.  When the objective before a pass is finite and positive and the
    objective after it is finite, the pass records an increase exactly when
    the new objective is larger than the old one: [obj_increase] becomes
    set, and [good_fit] of [IterativeClearSky] cleared, if and only if the
    objective grew; otherwise both keep their value. *)
Theorem increase_flag_means_larger_objective :
  forall (mu_l mu_r tau : fl) (weights : vec) (max_iteration : Z)
         (verbose : bool) (f1_last : fl) (w w' : world) (s s' : locals)
         (calc_deg : bool) (max_deg min_deg : option fl)
         (t t' : ClearSky.loop_state) (a b c d : Q),
    loop_body mu_l mu_r tau weights max_iteration verbose f1_last w s
    = (w', Ok s') ->
    old_objective_value s = Fin a -> old_objective_value s' = Fin b ->
    0 < a ->
    ClearSky.loop_body max_iteration calc_deg max_deg min_deg t = Ok t' ->
    ClearSky.old_obj t = Fin c -> ClearSky.old_obj t' = Fin d ->
    0 < c ->
    obj_increase (_state_data (obj w'))
    = (obj_increase (_state_data (obj w)) || Qltb a b)
    /\ ClearSky.good_fit (ClearSky.self_of t')
       = (ClearSky.good_fit (ClearSky.self_of t) && negb (Qltb c d)).
Proof.
  intros mu_l mu_r tau weights max_iteration verbose f1_last w w' s s'
         calc_deg max_deg min_deg t t' a b c d Hb Ha Hb' Hpos Ht Hc Hd Hcpos.
  split.
  - apply LoopFacts.body_state in Hb.
    destruct Hb as (_ & _ & _ & Hflag & _).
    rewrite Hflag, Ha, Hb'. now rewrite negative_iff_increase.
  - apply sky_body_good_fit in Ht.
    rewrite Ht, Hc, Hd. now rewrite negative_iff_increase.
Qed.

(** X5.  When the objective is zero before and after a pass that stays
    below the cap, the improvement is [0/0 = NaN]: the loop test fails for
    every epsilon, so the loop ends with that pass, and no increase is
    recorded. *)
Theorem zero_objective_ends_the_loop :
  forall (mu_l mu_r tau : fl) (weights : vec) (max_iteration : Z)
         (verbose : bool) (f1_last : fl) (w w' : world) (s s' : locals)
         (calc_deg : bool) (max_deg min_deg : option fl)
         (t t' : ClearSky.loop_state) (a b c d : Q),
    loop_body mu_l mu_r tau weights max_iteration verbose f1_last w s
    = (w', Ok s') ->
    old_objective_value s = Fin a -> old_objective_value s' = Fin b ->
    a == 0 -> b == 0 -> (iteration s' < max_iteration)%Z ->
    ClearSky.loop_body max_iteration calc_deg max_deg min_deg t = Ok t' ->
    ClearSky.old_obj t = Fin c -> ClearSky.old_obj t' = Fin d ->
    c == 0 -> d == 0 -> (ClearSky.it t' < max_iteration)%Z ->
    (improvement s' = NaN
     /\ (forall eps : fl, fl_geb (improvement s') eps = false)
     /\ obj_increase (_state_data (obj w'))
        = obj_increase (_state_data (obj w)))
    /\
    (ClearSky.improvement t' = NaN
     /\ (forall eps : fl, fl_geb (ClearSky.improvement t') eps = false)
     /\ ClearSky.good_fit (ClearSky.self_of t')
        = ClearSky.good_fit (ClearSky.self_of t)).
Proof.
  intros mu_l mu_r tau weights max_iteration verbose f1_last w w' s s'
         calc_deg max_deg min_deg t t' a b c d
         Hb Ha Hb' Ha0 Hb0 Hlt Ht Hc Hd Hc0 Hd0 Htlt.
  split.
  - assert (Himp : improvement s' = NaN).
    { apply LoopFacts.body_below_cap in Hb; [|exact Hlt].
      rewrite Hb, Ha, Hb'. cbv zeta.
      now rewrite (zero_over_zero Ha0 Hb0). }
    split; [exact Himp|]. split.
    + intro eps. rewrite Himp. now destruct eps.
    + apply LoopFacts.body_state in Hb.
      destruct Hb as (_ & _ & _ & Hflag & _).
      rewrite Hflag, Ha, Hb', (zero_over_zero Ha0 Hb0).
      apply orb_false_r.
  - assert (Himp : ClearSky.improvement t' = NaN).
    { apply SkyLoopFacts.sky_body_below_cap in Ht; [|exact Htlt].
      rewrite Ht, Hc, Hd. cbv zeta.
      now rewrite (zero_over_zero Hc0 Hd0). }
    split; [exact Himp|]. split.
    + intro eps. rewrite Himp. now destruct eps.
    + apply sky_body_good_fit in Ht.
      rewrite Ht, Hc, Hd, (zero_over_zero Hc0 Hd0).
      apply andb_true_r.
Qed.

End WithBackend.

End Improvement.

(* ------------------------------------------------------------------ *)
(** * main.py: what [minimize_objective] keeps *)
(* ------------------------------------------------------------------ *)

Module SkyInvariants.
Import ClearSky Meaning.

(** Zeroing the same days twice is zeroing them once. *)
Lemma zero_at_length (days : list nat) (w : vec) :
  length (zero_at days w) = length w.
Proof.
  unfold zero_at. rewrite length_map, length_combine, length_seq. lia.
Qed.

Lemma zero_at_nth (days : list nat) (w : vec) (d : nat) :
  (d < length w)%nat ->
  nth d (zero_at days w) NaN
  = if existsb (Nat.eqb d) days then fzero else nth d w NaN.
Proof.
  intro Hlt. unfold zero_at.
  set (f := fun p : nat * fl =>
              if existsb (Nat.eqb (fst p)) days then fzero else snd p).
  rewrite (nth_indep _ NaN (f (0%nat, NaN)))
    by (rewrite length_map, length_combine, length_seq; lia).
  rewrite map_nth, combine_nth by now rewrite length_seq.
  rewrite seq_nth by exact Hlt. reflexivity.
Qed.

Lemma zero_at_idempotent (days : list nat) (w : vec) :
  zero_at days (zero_at days w) = zero_at days w.
Proof.
  apply (nth_ext _ _ NaN NaN).
  - now rewrite !zero_at_length.
  - intros d Hd. rewrite !zero_at_length in Hd.
    rewrite zero_at_nth by now rewrite zero_at_length.
    rewrite zero_at_nth by exact Hd.
    now destruct (existsb (Nat.eqb d) days).
Qed.

Section WithBackend.
Context {num : Numeric} {cvx : Solver}.
Variables (eps : fl) (max_iter : Z) (calc_deg : bool)
          (max_deg min_deg : option fl).

(** A relation that every pass respects holds between the loop head where
    the loop starts and the one where it ends. *)
Lemma sky_loop_rel (R : loop_state -> loop_state -> Prop) :
  (forall s, R s s) ->
  (forall a b c, R a b -> R b c -> R a c) ->
  (forall s s', loop_body max_iter calc_deg max_deg min_deg s = Ok s' ->
                R s s') ->
  forall (fuel : nat) (s s' : loop_state),
    while_loop fuel eps max_iter calc_deg max_deg min_deg s = Some (Ok s') ->
    R s s'.
Proof.
  intros Hrefl Htrans Hstep fuel.
  induction fuel as [|fuel IH]; intros s s' H; simpl in H.
  - destruct (fl_geb (improvement s) eps); [discriminate H|].
    inversion H. apply Hrefl.
  - destruct (fl_geb (improvement s) eps); [|inversion H; apply Hrefl].
    destruct (loop_body max_iter calc_deg max_deg min_deg s) as [s1|e] eqn:Hb;
      [|discriminate H].
    eapply Htrans; [eapply Hstep; exact Hb | eapply IH; exact H].
Qed.

Lemma masked_idempotent (x : IterativeClearSky) (w : vec) :
  masked x (masked x w) = masked x w.
Proof.
  unfold masked. destruct (test_days x); [|reflexivity].
  apply zero_at_idempotent.
Qed.

Lemma apply_test_days_weights (x : IterativeClearSky) :
  weights (apply_test_days x) = masked x (weights x).
Proof.
  unfold apply_test_days, masked. now destruct (test_days x).
Qed.

Lemma sky_body_problem_data (s s' : loop_state) :
  loop_body max_iter calc_deg max_deg min_deg s = Ok s' ->
  problem_data (self_of s') = problem_data (self_of s)
  /\ weights (self_of s') = masked (self_of s) (weights (self_of s)).
Proof.
  intro H. apply Improvement.sky_body_inv in H.
  destruct H as (self1 & self2 & HL & HR & _ & ->).
  apply Improvement.min_L_frame in HL. apply Improvement.min_R_frame in HR.
  pose proof (Improvement.apply_test_days_frame (self_of s)) as HT.
  pose proof (apply_test_days_weights (self_of s)) as HW.
  inversion HL. inversion HR. inversion HT. unfold problem_data.
  destruct (fl_ltb _ fzero); simpl; split; congruence.
Qed.

(** Without the degradation branch a pass leaves [beta] alone. *)
Lemma sky_body_beta (s s' : loop_state) :
  (365 <? ncols (D (self_of s)))%nat && calc_deg = false ->
  loop_body max_iter calc_deg max_deg min_deg s = Ok s' ->
  beta (self_of s') = beta (self_of s).
Proof.
  intros Hoff H. apply Improvement.sky_body_inv in H.
  destruct H as (self1 & self2 & HL & HR & _ & ->).
  pose proof HL as HLf. apply Improvement.min_L_frame in HLf.
  pose proof (Improvement.apply_test_days_frame (self_of s)) as HT.
  inversion HLf. inversion HT.
  apply SolverStatus.min_R_returns in HR. destruct HR as (v & b & _ & ->).
  assert (HD : D self1 = D (self_of s)) by congruence.
  rewrite HD, Hoff.
  destruct (fl_ltb _ fzero); simpl; congruence.
Qed.

(** The loop as a whole: the problem data stay, and the weights are either
    untouched (no pass) or masked once. *)
Lemma sky_loop_problem_data (fuel : nat) (s s' : loop_state) :
  while_loop fuel eps max_iter calc_deg max_deg min_deg s = Some (Ok s') ->
  problem_data (self_of s') = problem_data (self_of s)
  /\ (weights (self_of s') = weights (self_of s)
      \/ weights (self_of s') = masked (self_of s) (weights (self_of s))).
Proof.
  apply (sky_loop_rel
           (fun a b =>
              problem_data (self_of b) = problem_data (self_of a)
              /\ (weights (self_of b) = weights (self_of a)
                  \/ weights (self_of b)
                     = masked (self_of a) (weights (self_of a))))).
  - intro a. split; [reflexivity | now left].
  - intros a b c [Hab Hwab] [Hbc Hwbc].
    split; [congruence|].
    assert (Hm : forall w, masked (self_of b) w = masked (self_of a) w).
    { intro w. unfold masked. unfold problem_data in Hab.
      assert (E : test_days (self_of b) = test_days (self_of a))
        by congruence.
      now rewrite E. }
    destruct Hwab as [Hwab|Hwab], Hwbc as [Hwbc|Hwbc].
    + left. congruence.
    + right. rewrite Hwbc, Hm, Hwab. reflexivity.
    + right. congruence.
    + right. rewrite Hwbc, Hm, Hwab. apply masked_idempotent.
  - intros a b Hab. apply sky_body_problem_data in Hab.
    destruct Hab as [Hp Hw]. split; [exact Hp | now right].
Qed.

End WithBackend.

Section Claims.
Context {num : Numeric} {cvx : Solver}.

(** X6.  [minimize_objective] never writes the problem data: when it
    returns, the data matrix, the rank, [mu_L], [mu_R], [tau] and the test
    days of the object are those it started with, and (epsilon not NaN) the
    weights are the starting weights with the test days set to zero once,
    however many passes were made.  (The factors, [beta], [r0] and
    [good_fit] are what the loop writes; nothing is said about them
    here.) *)
Theorem fit_leaves_problem_data_alone :
  forall (fuel : nat) (self : IterativeClearSky) (eps : fl) (max_iter : Z)
         (calc_deg : bool) (max_deg min_deg : option fl) (s : loop_state),
    is_nan eps = false ->
    minimize_objective fuel self eps max_iter calc_deg max_deg min_deg
    = Some (Ok s) ->
    (D (self_of s), k (self_of s), mu_L (self_of s), mu_R (self_of s),
     tau (self_of s), test_days (self_of s))
    = (D self, k self, mu_L self, mu_R self, tau self, test_days self)
    /\ weights (self_of s) = weights (apply_test_days self).
Proof.
  intros fuel self eps max_iter calc_deg max_deg min_deg s Heps H.
  unfold minimize_objective in H.
  destruct (while_loop _ _ _ _ _ _ _) as [[s1|e]|] eqn:Hloop;
    try discriminate H.
  inversion H; subst s; clear H. simpl.
  assert (Hinf : fl_geb PInf eps = true)
    by (rewrite FloatFacts.inf_geb; now rewrite Heps).
  destruct fuel as [|fuel]; simpl in Hloop; rewrite Hinf in Hloop;
    [discriminate Hloop|].
  destruct (loop_body _ _ _ _ (initial_loop_state self)) as [s0|e] eqn:Hb;
    [|discriminate Hloop].
  apply sky_body_problem_data in Hb. destruct Hb as [Hd0 Hw0].
  apply sky_loop_problem_data in Hloop. destruct Hloop as [Hd1 Hw1].
  simpl in Hd0, Hw0.
  assert (Hm : forall w, masked (self_of s0) w = masked self w).
  { intro w. unfold masked. unfold problem_data in Hd0. simpl in Hd0.
    assert (E : test_days (self_of s0) = test_days self) by congruence.
    now rewrite E. }
  split.
  - change (problem_data (self_of s1) = problem_data self).
    rewrite Hd1. exact Hd0.
  - rewrite apply_test_days_weights.
    destruct Hw1 as [Hw1|Hw1]; rewrite Hw1.
    + exact Hw0.
    + rewrite Hm, Hw0. apply (masked_idempotent self).
Qed.

(** X7.  With 365 days or fewer, or with [calc_deg] off, [beta] is no
    variable of any problem [min_R] builds, and [minimize_objective] returns
    with the [beta] it was called with. *)
Theorem beta_untouched_without_degradation :
  forall (fuel : nat) (self : IterativeClearSky) (eps : fl) (max_iter : Z)
         (calc_deg : bool) (max_deg min_deg : option fl) (s : loop_state),
    (365 <? ncols (D self))%nat && calc_deg = false ->
    minimize_objective fuel self eps max_iter calc_deg max_deg min_deg
    = Some (Ok s) ->
    beta (self_of s) = beta self
    /\ existsb Meaning.mentions_beta
               (constraints_R (build_problem_R (self_of s) calc_deg
                                               max_deg min_deg)) = false.
Proof.
  intros fuel self eps max_iter calc_deg max_deg min_deg s Hoff H.
  unfold minimize_objective in H.
  destruct (while_loop _ _ _ _ _ _ _) as [[s1|e]|] eqn:Hloop;
    try discriminate H.
  inversion H; subst s; clear H. simpl.
  apply (@sky_loop_rel _ _ eps max_iter calc_deg max_deg min_deg
           (fun a b =>
              D (self_of b) = D (self_of a)
              /\ ((365 <? ncols (D (self_of a)))%nat && calc_deg = false ->
                  beta (self_of b) = beta (self_of a)))) in Hloop.
  - destruct Hloop as [HD Hbeta]. simpl in HD, Hbeta.
    split; [now apply Hbeta|].
    unfold build_problem_R; simpl. rewrite HD.
    destruct (365 <? ncols (D self))%nat; simpl in Hoff |- *;
      [subst calc_deg|]; reflexivity.
  - intro a. now split.
  - intros a b c [Hab Hbab] [Hbc Hbbc]. split; [congruence|].
    intro Ha. rewrite Hbbc, Hbab; [reflexivity | exact Ha |].
    now rewrite Hab.
  - intros a b Hab. split.
    + apply sky_body_problem_data in Hab. destruct Hab as [Hp _].
      unfold problem_data in Hp. congruence.
    + intro Ha. eapply sky_body_beta; eauto.
Qed.

End Claims.

End SkyInvariants.

(* ------------------------------------------------------------------ *)
(** * main.py: the subproblems of [min_L] and [min_R] *)
(* ------------------------------------------------------------------ *)

Module Subproblems.
Import ClearSky Meaning.

Section WithBackend.
Context {num : Numeric} {cvx : Solver}.

(** X9.  With more than 365 days and [calc_deg] on, every [beta] that meets
    the bounds [min_R] hands to the solver is at least -0.25, whatever
    [min_deg] is, and meets the two optional bounds when they are given: a
    [min_deg] below -0.25 cannot lower the floor. *)
Theorem degradation_floor_is_fixed :
  forall (self : IterativeClearSky) (max_deg min_deg : option fl) (b : fl),
    (365 < ncols (D self))%nat ->
    forallb (beta_within b)
            (constraints_R (build_problem_R self true max_deg min_deg))
    = true ->
    fl_leb (Fin (- (1 # 4))) b = true
    /\ (forall lo : fl, min_deg = Some lo -> fl_leb lo b = true)
    /\ (forall hi : fl, max_deg = Some hi -> fl_leb b hi = true).
Proof.
  intros self max_deg min_deg b Hn H.
  apply Nat.ltb_lt in Hn.
  unfold build_problem_R in H. cbn [constraints_R] in H.
  rewrite Hn in H. rewrite forallb_forall in H.
  split; [|split].
  - apply (H (beta_ge (Fin (- (1 # 4))))). simpl. auto.
  - intros lo ->. apply (H (beta_ge lo)). simpl.
    right; right; right. apply in_or_app. right. left. reflexivity.
  - intros hi ->. apply (H (beta_le hi)). simpl. auto.
Qed.

(** X10.  A status other than ["optimal"] makes [min_L] raise the very
    exception [min_R] raises for that status: the message of [min_L] names
    the right factor too, so the exception does not tell which of the two
    minimizers failed. *)
Theorem left_failure_is_reported_as_right :
  forall (self self' : IterativeClearSky) (calc_deg : bool)
         (max_deg min_deg : option fl) (status : string)
         (value_L value_R : matrix) (value_beta : fl),
    status <> "optimal"%string ->
    solve_L (build_problem_L self) = Solved status value_L ->
    solve_R (build_problem_R self' calc_deg max_deg min_deg)
    = Solved status (value_R, value_beta) ->
    min_L self = Raise (ProblemStatusError ("Minimize R status: " ++ status))
    /\ min_R self' calc_deg max_deg min_deg = min_L self.
Proof.
  intros self self' calc_deg max_deg min_deg status vL vR vb Hst HL HR.
  unfold min_L, min_R. rewrite HL, HR.
  destruct (String.eqb_spec status "optimal") as [E|E]; [contradiction|].
  simpl. split; reflexivity.
Qed.

End WithBackend.

End Subproblems.

(* ------------------------------------------------------------------ *)
(** * The sign convention of the decomposition *)
(* ------------------------------------------------------------------ *)

Module SignConvention.
Import Startup Meaning.

Ltac compared :=
  repeat match goal with
         | H : (_ ?= _) = Eq |- _ => apply Qeq_alt in H
         | H : (_ ?= _) = Lt |- _ => apply Qlt_alt in H
         | H : (_ ?= _) = Gt |- _ => apply Qgt_alt in H
         end.

Lemma same_value_refl (x : fl) : same_value x x = true.
Proof.
  destruct x; simpl; try reflexivity. apply Qeq_bool_iff. reflexivity.
Qed.

Lemma same_value_trans (x y z : fl) :
  same_value x y = true -> same_value y z = true -> same_value x z = true.
Proof.
  destruct x, y, z; simpl; try discriminate; auto.
  intros H1 H2. apply Qeq_bool_iff in H1, H2. apply Qeq_bool_iff.
  now rewrite H1.
Qed.

Lemma add_same (x x' y y' : fl) :
  same_value x x' = true -> same_value y y' = true ->
  same_value (fl_add x y) (fl_add x' y') = true.
Proof.
  destruct x, x', y, y'; simpl; try discriminate; auto.
  intros H1 H2. apply Qeq_bool_iff in H1, H2. apply Qeq_bool_iff.
  now rewrite H1, H2.
Qed.

Lemma flip_add (x y : fl) :
  same_value (fl_add (flip x) (flip y)) (flip (fl_add x y)) = true.
Proof.
  destruct x, y; try reflexivity. simpl. apply Qeq_bool_iff. ring.
Qed.

(** Changing the sign of every summand changes the sign of the sum. *)
Lemma sum_flip (l : vec) :
  forall a a' : fl,
    same_value a' (flip a) = true ->
    same_value (fold_left fl_add (map flip l) a')
               (flip (fold_left fl_add l a)) = true.
Proof.
  induction l as [|x l IH]; simpl; intros a a' H; [exact H|].
  apply IH.
  eapply same_value_trans;
    [apply add_same; [exact H | apply same_value_refl] | apply flip_add].
Qed.

Lemma np_sum_flip (l : vec) :
  same_value (np_sum (map flip l)) (flip (np_sum l)) = true.
Proof. apply sum_flip. reflexivity. Qed.

Lemma ltb_same (x y : fl) :
  same_value x y = true -> fl_ltb x fzero = fl_ltb y fzero.
Proof.
  destruct x as [a| | |], y as [b| | |]; simpl; try discriminate; auto.
  intro H. apply Qeq_bool_iff in H.
  destruct (Qltb a 0) eqn:Ea, (Qltb b 0) eqn:Eb; try reflexivity.
  - apply FloatFacts.Qltb_true in Ea.
    assert (Hb : b < 0) by (rewrite <- H; exact Ea).
    apply FloatFacts.Qltb_true in Hb. congruence.
  - apply FloatFacts.Qltb_true in Eb.
    assert (Ha : a < 0) by (rewrite H; exact Eb).
    apply FloatFacts.Qltb_true in Ha. congruence.
Qed.

Lemma flip_negative (x : fl) :
  fl_ltb x fzero = true -> fl_ltb (flip x) fzero = false.
Proof.
  destruct x as [a| | |]; simpl; try discriminate; try reflexivity.
  intro H. apply FloatFacts.Qltb_true in H.
  unfold Qltb. rewrite negb_false_iff. apply Qle_bool_iff. lra.
Qed.

Lemma column0_flipped (U : matrix) :
  column 0 (flip_column0 U) = map flip (column 0 U).
Proof.
  unfold column, flip_column0. rewrite !map_map.
  apply map_ext. intros [|x r]; reflexivity.
Qed.

(** The two signs cancel in a product. *)
Lemma inf_times_flipped (positive : bool) (a : Q) :
  inf_times positive (a * -1) = inf_times (negb positive) a.
Proof.
  unfold inf_times.
  destruct (a * -1 ?= 0) eqn:E1, (a ?= 0) eqn:E2; destruct positive;
    try reflexivity; exfalso; compared; lra.
Qed.

Lemma flip_mul (x y : fl) :
  same_value (fl_mul (flip x) (flip y)) (fl_mul x y) = true.
Proof.
  destruct x as [a| | |], y as [b| | |]; try reflexivity.
  - simpl. apply Qeq_bool_iff. ring.
  - change (same_value (inf_times false (a * -1)) (inf_times true a) = true).
    rewrite inf_times_flipped. apply same_value_refl.
  - change (same_value (inf_times true (a * -1)) (inf_times false a) = true).
    rewrite inf_times_flipped. apply same_value_refl.
  - change (same_value (inf_times false (b * -1)) (inf_times true b) = true).
    rewrite inf_times_flipped. apply same_value_refl.
  - change (same_value (inf_times true (b * -1)) (inf_times false b) = true).
    rewrite inf_times_flipped. apply same_value_refl.
Qed.

Lemma flipped_entry_U (U : matrix) (i : nat) :
  nth 0 (nth i (flip_column0 U) []) NaN = flip (nth 0 (nth i U []) NaN).
Proof.
  unfold flip_column0.
  match goal with
  | |- context [map ?g U] =>
      transitivity (nth 0 (g (nth i U [])) NaN);
        [f_equal; apply (map_nth g U [] i)|]
  end.
  destruct (nth i U []); reflexivity.
Qed.

Lemma flipped_entry_V (V : matrix) (j : nat) :
  nth j (nth 0 (flip_row0 V) []) NaN = flip (nth j (nth 0 V []) NaN).
Proof.
  destruct V as [|row rest]; simpl.
  - now destruct j.
  - change NaN with (flip NaN) at 1. apply map_nth.
Qed.

(** X11.  After the sign adjustment of the decomposition (in both classes)
    the sum of the first column of [U] is not negative, whatever the
    entries are, and adjusting a second time changes nothing. *)
Theorem first_column_sum_is_not_negative :
  forall U V : matrix,
    fl_ltb (np_sum (column 0 (fst (_adjust_low_rank_matrices U V)))) fzero
    = false
    /\ _adjust_low_rank_matrices (fst (_adjust_low_rank_matrices U V))
                                 (snd (_adjust_low_rank_matrices U V))
       = _adjust_low_rank_matrices U V.
Proof.
  intros U V.
  assert (H : fl_ltb (np_sum (column 0
                (fst (_adjust_low_rank_matrices U V)))) fzero = false).
  { unfold _adjust_low_rank_matrices.
    destruct (fl_ltb (np_sum (column 0 U)) fzero) eqn:E; simpl; [|exact E].
    rewrite column0_flipped, (ltb_same _ _ (np_sum_flip _)).
    now apply flip_negative. }
  split; [exact H|].
  unfold _adjust_low_rank_matrices at 1. rewrite H.
  now destruct (_adjust_low_rank_matrices U V).
Qed.

(** X12.  The sign adjustment flips the first column of [U] and the first
    row of [V] together or not at all: every product of an entry of that
    column with an entry of that row keeps its value, and all other columns
    of [U] and rows of [V] are left as they were. *)
Theorem sign_flip_cancels_in_the_product :
  forall (U V : matrix) (i j : nat),
    same_value
      (fl_mul (nth 0 (nth i (fst (_adjust_low_rank_matrices U V)) []) NaN)
              (nth j (nth 0 (snd (_adjust_low_rank_matrices U V)) []) NaN))
      (fl_mul (nth 0 (nth i U []) NaN) (nth j (nth 0 V []) NaN)) = true
    /\ cols (from 1) (fst (_adjust_low_rank_matrices U V))
       = cols (from 1) U
    /\ from 1 (snd (_adjust_low_rank_matrices U V)) = from 1 V.
Proof.
  intros U V i j. unfold _adjust_low_rank_matrices.
  destruct (fl_ltb (np_sum (column 0 U)) fzero); simpl.
  - split; [|split].
    + rewrite flipped_entry_U, flipped_entry_V. apply flip_mul.
    + unfold cols, flip_column0. rewrite map_map.
      apply map_ext. intros [|x r]; reflexivity.
    + now destruct V.
  - split; [apply same_value_refl | split; reflexivity].
Qed.

End SignConvention.

(* ------------------------------------------------------------------ *)
(** * iterative_fitting.py: [_handle_time_shift] *)
(* ------------------------------------------------------------------ *)

Module TimeShift.
Import Startup.

Lemma isclose_self (x : fl) : np_isclose x x = negb (is_nan x).
Proof.
  destruct x as [q| | |]; simpl; try reflexivity.
  apply Qle_bool_iff.
  assert (E : Qabs (q - q) == 0).
  { assert (Z : q - q == 0) by ring. rewrite Z. reflexivity. }
  rewrite E. pose proof (Qabs_nonneg q). lra.
Qed.

Lemma row_close_self (r : vec) :
  forallb (fun b : bool => b) (zip_with np_isclose r r)
  = negb (existsb is_nan r).
Proof.
  induction r as [|x r IH]; simpl; [reflexivity|].
  rewrite IH, isclose_self. now destruct (is_nan x).
Qed.

Lemma all_close_self (D : matrix) :
  all_close D D = negb (existsb (existsb is_nan) D).
Proof.
  unfold all_close. induction D as [|r D IH]; simpl; [reflexivity|].
  rewrite forallb_app, IH, row_close_self.
  now destruct (existsb is_nan r).
Qed.

(** X13.  When [fix_time_shifts] returns the data unchanged, the matrix kept
    is the data, and [_fixed_time_stamps] is set exactly when the data
    contain a NaN: [np.isclose] holds NaN close to nothing, itself
    included, so a gap in the measurements is recorded as a repaired time
    shift. *)
Theorem gaps_are_recorded_as_time_shifts :
  forall (env : Collaborators) (power_signals_d : matrix),
    fix_time_shifts power_signals_d = power_signals_d ->
    _handle_time_shift power_signals_d true
    = (power_signals_d, existsb (existsb is_nan) power_signals_d).
Proof.
  intros env D H. unfold _handle_time_shift.
  rewrite H, all_close_self.
  now destruct (existsb (existsb is_nan) D).
Qed.

End TimeShift.

(* ------------------------------------------------------------------ *)
(** * Test days *)
(* ------------------------------------------------------------------ *)

Module TestDays.
Import Startup.

Lemma insert_day_In (d x : nat) (l : list nat) :
  In x (insert_day d l) <-> x = d \/ In x l.
Proof.
  induction l as [|y l IH]; simpl.
  - intuition.
  - destruct (d <=? y)%nat; simpl; [intuition|].
    rewrite IH. intuition.
Qed.

Lemma np_sort_In (x : nat) (l : list nat) : In x (np_sort l) <-> In x l.
Proof.
  unfold np_sort. induction l as [|y l IH]; simpl; [reflexivity|].
  rewrite insert_day_In, IH. intuition.
Qed.

(** A choice of [n] different days out of [n] takes every day. *)
Lemma full_choice (n : nat) (l : list nat) :
  NoDup l -> length l = n -> (forall d, In d l -> (d < n)%nat) ->
  forall d, (d < n)%nat -> In d l.
Proof.
  intros Hnd Hlen Hrange d Hd.
  assert (Hincl : incl l (seq 0 n)).
  { intros x Hx. apply in_seq. specialize (Hrange x Hx). lia. }
  assert (Hback : incl (seq 0 n) l).
  { apply NoDup_length_incl; [exact Hnd | rewrite length_seq; lia
                              | exact Hincl]. }
  apply Hback. apply in_seq. lia.
Qed.

(** Zeroing every index leaves zeros only. *)
Lemma zero_at_everywhere (days : list nat) (w : vec) :
  (forall d, (d < length w)%nat -> In d days) ->
  zero_at days w = repeat fzero (length w).
Proof.
  intro Hall. apply (nth_ext _ _ NaN NaN).
  - now rewrite SkyInvariants.zero_at_length, repeat_length.
  - intros d Hd. rewrite SkyInvariants.zero_at_length in Hd.
    rewrite Weights.zero_at_days by auto.
    symmetry. apply nth_repeat_lt. exact Hd.
Qed.

(** X14.  [reserve_test_data=True] counts as the fraction 1: all [n] days
    are reserved ([np.random.choice] draws [n] different days below [n]),
    so [_obtain_weights] of [IterativeFitting] computes weights that are
    all zero, and the first pass of [minimize_objective] leaves
    [IterativeClearSky] with weights that are all zero: no day is left to
    fit. *)
Theorem reserving_everything_leaves_nothing_to_fit :
  forall (env : Collaborators) (mz : Fitting.Minimization)
         (fit : Fitting.IterativeFitting) (sky : ClearSky.IterativeClearSky)
         (n : nat),
    NoDup (np_random_choice n (Z.of_nat n)) ->
    length (np_random_choice n (Z.of_nat n)) = n ->
    (forall d, In d (np_random_choice n (Z.of_nat n)) -> (d < n)%nat) ->
    Fitting._test_days fit = _set_testdays n ReserveTrue ->
    Fitting.weights (Fitting._state_data fit) = [] ->
    length (Fitting.obtain_weights (Fitting._power_signals_d fit)) = n ->
    ClearSky.test_days sky = _set_testdays n ReserveTrue ->
    length (ClearSky.weights sky) = n ->
    Fitting._obtain_weights fit = repeat fzero n
    /\ ClearSky.weights (ClearSky.apply_test_days sky) = repeat fzero n.
Proof.
  intros env mz fit sky n Hnd Hlen Hrange Hfit Hempty Hfresh Hsky Hw.
  assert (Hall : forall d, (d < n)%nat ->
                           In d (np_sort (np_random_choice n (Z.of_nat n)))).
  { intros d Hd. apply np_sort_In. now apply full_choice with (n := n). }
  unfold _set_testdays in Hfit, Hsky. simpl in Hfit, Hsky.
  split.
  - unfold Fitting._obtain_weights. rewrite Hempty, Hfit.
    rewrite zero_at_everywhere by (rewrite Hfresh; exact Hall).
    now rewrite Hfresh.
  - unfold ClearSky.apply_test_days. rewrite Hsky. simpl.
    rewrite zero_at_everywhere by (rewrite Hw; exact Hall).
    now rewrite Hw.
Qed.

End TestDays.

(* ------------------------------------------------------------------ *)
(** * iterative_fitting.py: [execute], called again *)
(* ------------------------------------------------------------------ *)

Module Resume.
Import Fitting Runs Startup Execute.

Section WithBackend.
Context {num : Numeric} {mz : Minimization} {env : Collaborators}.

(** [execute], taken apart. *)
Lemma execute_inv (fuel : nat) (fit : IterativeFitting) (svd : Decomposition)
      (mu_l mu_r tau eps : fl) (max_iteration : Z) (deg : bool)
      (mx mn : option fl) (verbose : bool) (anns : list announcement)
      (w : world) (res : result locals) :
  execute fuel fit svd mu_l mu_r tau eps max_iteration deg mx mn verbose
  = Some (anns, w, res) ->
  exists w0 : world,
    _minimize_objective
      fuel (fst (_obtain_initial_values fit svd))
      (fst (fst (snd (_obtain_initial_values fit svd))))
      (snd (fst (snd (_obtain_initial_values fit svd))))
      (snd (snd (_obtain_initial_values fit svd)))
      (_obtain_initial_component_r0 (fst (_obtain_initial_values fit svd))
                                    svd)
      (_obtain_weights (fst (_obtain_initial_values fit svd)))
      mu_l mu_r tau eps max_iteration deg mx mn verbose
    = Some (w0, res)
    /\ w = on_obj (fun self =>
                     _store_final_state_data
                       self
                       (_obtain_weights
                          (fst (_obtain_initial_values fit svd)))) w0.
Proof.
  unfold execute.
  destruct (_obtain_initial_values fit svd) as [fit' [[l0 r0'] b0]] eqn:E.
  cbn [fst snd].
  destruct (_minimize_objective _ _ _ _ _ _ _ _ _ _ _ _ _ _ _ _)
    as [[w0 res0]|]; [|discriminate].
  intro H. inversion H; subst. exists w0. split; reflexivity.
Qed.

(** The first step of [execute] changes neither the state data nor what
    [_obtain_weights] reads. *)
Lemma initial_values_keep (fit : IterativeFitting) (svd : Decomposition) :
  _state_data (fst (_obtain_initial_values fit svd)) = _state_data fit
  /\ _power_signals_d (fst (_obtain_initial_values fit svd))
     = _power_signals_d fit
  /\ _test_days (fst (_obtain_initial_values fit svd)) = _test_days fit.
Proof. repeat split; reflexivity. Qed.

Lemma obtain_weights_same (a b : IterativeFitting) :
  Fitting.weights (_state_data a) = Fitting.weights (_state_data b) ->
  _power_signals_d a = _power_signals_d b ->
  _test_days a = _test_days b ->
  _obtain_weights a = _obtain_weights b.
Proof.
  intros Hw Hd Ht. unfold _obtain_weights. now rewrite Hw, Hd, Ht.
Qed.

(** Storing the weights a fit was run with makes [_obtain_weights] return
    them again. *)
Lemma stored_weights_come_back (fit after : IterativeFitting) :
  _power_signals_d after = _power_signals_d fit ->
  _test_days after = _test_days fit ->
  Fitting.weights (_state_data after) = _obtain_weights fit ->
  _obtain_weights after = _obtain_weights fit.
Proof.
  intros Hd Ht Hw. unfold _obtain_weights at 1. rewrite Hw, Hd, Ht.
  destruct (_obtain_weights fit) as [|x rest] eqn:E; [|reflexivity].
  unfold _obtain_weights in E.
  destruct (Fitting.weights (_state_data fit)); [exact E | discriminate E].
Qed.

(** [clear_sky_signals] reads the published factors and nothing else. *)
Lemma signals_from_published (a b : IterativeFitting) :
  published a = published b -> clear_sky_signals a = clear_sky_signals b.
Proof.
  unfold published, clear_sky_signals. intro H.
  injection H as Hl Hr _ _ _ _. now rewrite Hl, Hr.
Qed.

Lemma signals_survive_storing (x : IterativeFitting) (weights : vec) :
  clear_sky_signals (_store_final_state_data x weights)
  = clear_sky_signals x.
Proof. reflexivity. Qed.

End WithBackend.

Section Claims.
Context {num : Numeric} {mz : Minimization} {env : Collaborators}.

(** X15.  A second call of [execute] starts where the first one ended.
    After a call that ended normally (epsilon not NaN) with factors that are
    not empty, [_obtain_initial_values] on the object returns the factors of
    the last pass and its degradation rate (a rate equal to zero comes back
    as [0.0]), whatever the decomposition holds;
    [_obtain_initial_component_r0] returns row 0 of the final right factor
    when that row is not empty; and [_obtain_weights] returns the weights
    the first call used. *)
Theorem second_call_resumes_where_the_first_ended :
  forall (fuel : nat) (fit : IterativeFitting) (svd svd' : Decomposition)
         (mu_l mu_r tau eps : fl) (max_iteration : Z) (deg : bool)
         (mx mn : option fl) (verbose : bool) (anns : list announcement)
         (w : world) (s : locals),
    is_nan eps = false ->
    execute fuel fit svd mu_l mu_r tau eps max_iteration deg mx mn verbose
    = Some (anns, w, Ok s) ->
    (0 < size (l_cs s))%nat -> (0 < size (r_cs s))%nat ->
    snd (_obtain_initial_values (obj w) svd')
    = (l_cs s, r_cs s,
       if differs_from_zero (beta s) then beta s else Fin 0)
    /\ (nth 0 (r_cs s) [] <> [] ->
        _obtain_initial_component_r0 (obj w) svd' = nth 0 (r_cs s) [])
    /\ _obtain_weights (obj w) = _obtain_weights fit.
Proof.
  intros fuel fit svd svd' mu_l mu_r tau eps max_iteration deg mx mn verbose
         anns w s Heps Hrun Hl Hr.
  apply execute_inv in Hrun. destruct Hrun as (w0 & Hrun & ->).
  pose proof Hrun as Hend. apply LoopInvariants.normal_end in Hend;
    [|exact Heps].
  destruct Hend as [_ Hsnap].
  apply LoopInvariants.run_keeps_static in Hrun.
  unfold snapshot in Hsnap.
  injection Hsnap as Hlv Hrv Hbv Hc0. injection Hrun as _ Hd _ _ Ht Hw.
  apply Nat.ltb_lt in Hl, Hr.
  split; [|split].
  - unfold _obtain_initial_values. cbn [snd obj on_obj].
    unfold _store_final_state_data, with_state_data.
    cbn [_state_data l_value r_value Fitting.beta_value].
    rewrite Hlv, Hrv, Hbv, Hl, Hr. reflexivity.
  - intro Hrow. unfold _obtain_initial_component_r0. cbn [obj on_obj].
    unfold _store_final_state_data, with_state_data.
    cbn [_state_data component_r0]. rewrite Hc0.
    destruct (nth 0 (r_cs s) []); [contradiction | reflexivity].
  - cbn [obj on_obj].
    transitivity (_obtain_weights (fst (_obtain_initial_values fit svd))).
    + apply stored_weights_come_back.
      * exact Hd.
      * exact Ht.
      * reflexivity.
    + apply obtain_weights_same; reflexivity.
Qed.

(** X17.  After [execute], [clear_sky_signals] is the product of the
    factors of the last pass when the fit ended normally.  When a minimizer
    failed it is the product of the factors the call started from, not of
    the last completed pass: the [else] branch that publishes the results
    is skipped, and only [_obtain_initial_values] has written the
    accessors. *)
Theorem clear_sky_signals_after_execute :
  forall (fuel : nat) (fit : IterativeFitting) (svd : Decomposition)
         (mu_l mu_r tau eps : fl) (max_iteration : Z) (deg : bool)
         (mx mn : option fl) (verbose : bool) (anns : list announcement)
         (w : world) (res : result locals),
    execute fuel fit svd mu_l mu_r tau eps max_iteration deg mx mn verbose
    = Some (anns, w, res) ->
    clear_sky_signals (obj w)
    = Some (match res with
            | Ok s => matmul (l_cs s) (r_cs s)
            | Raise _ =>
                matmul (fst (fst (snd (_obtain_initial_values fit svd))))
                       (snd (fst (snd (_obtain_initial_values fit svd))))
            end).
Proof.
  intros fuel fit svd mu_l mu_r tau eps max_iteration deg mx mn verbose
         anns w res Hrun.
  apply execute_inv in Hrun. destruct Hrun as (w0 & Hrun & ->).
  apply Orchestrator.minimize_inv in Hrun.
  destruct Hrun as (w' & Hloop & ->).
  destruct res as [s|e].
  - unfold clear_sky_signals. now destruct verbose.
  - apply LoopFacts.loop_keeps_published in Hloop.
    pose proof (Orchestrator.finish_after_raise
                  verbose
                  (_obtain_weights (fst (_obtain_initial_values fit svd)))
                  w' e) as Hfin.
    destruct Hfin as (_ & _ & Hpub).
    cbn [obj on_obj]. rewrite signals_survive_storing.
    rewrite (signals_from_published (eq_trans Hpub Hloop)).
    unfold initial_world. now destruct verbose.
Qed.

End Claims.

End Resume.

(* ------------------------------------------------------------------ *)
(** * The two classes compute one objective *)
(* ------------------------------------------------------------------ *)

Module Agreement.

Section WithBackend.
Context {num : Numeric} {mz : Fitting.Minimization}.

(** X16.  On one data matrix, rank, factors, weights and parameters,
    [IterativeFitting._calculate_objective] and
    [IterativeClearSky.calc_objective] return the same four components and
    the same sum, provided the right factor has as many columns as the
    data: the first tests the value of the factor for the 367-day
    threshold, the second the declared shape of the variable.  The
    degradation rate passed to [_calculate_objective] plays no part. *)
Theorem both_classes_compute_one_objective :
  forall (fit : Fitting.IterativeFitting) (sky : ClearSky.IterativeClearSky)
         (beta_value : fl),
    ClearSky.D sky = Fitting._power_signals_d fit ->
    ClearSky.k sky = Fitting._rank_k fit ->
    ncols (ClearSky.R_cs sky) = ncols (ClearSky.D sky) ->
    Fitting._calculate_objective fit (ClearSky.mu_L sky) (ClearSky.mu_R sky)
                                 (ClearSky.tau sky) (ClearSky.L_cs sky)
                                 (ClearSky.R_cs sky) beta_value
                                 (ClearSky.weights sky)
    = ClearSky.calc_components sky
    /\ np_sum (Fitting._calculate_objective
                 fit (ClearSky.mu_L sky) (ClearSky.mu_R sky)
                 (ClearSky.tau sky) (ClearSky.L_cs sky) (ClearSky.R_cs sky)
                 beta_value (ClearSky.weights sky))
       = ClearSky.calc_objective sky.
Proof.
  intros fit sky beta_value HD Hk Hn.
  assert (H : Fitting._calculate_objective
                fit (ClearSky.mu_L sky) (ClearSky.mu_R sky)
                (ClearSky.tau sky) (ClearSky.L_cs sky) (ClearSky.R_cs sky)
                beta_value (ClearSky.weights sky)
              = ClearSky.calc_components sky).
  { unfold Fitting._calculate_objective, ClearSky.calc_components.
    now rewrite <- HD, <- Hk, Hn. }
  split; [exact H|]. unfold ClearSky.calc_objective. now rewrite H.
Qed.

End WithBackend.

End Agreement.

(* ------------------------------------------------------------------ *)
(** * The further properties on the samples *)
(* ------------------------------------------------------------------ *)

Module OnSamples.
Import Samples MoreSamples Scenarios Startup Execute Meaning ExtraSamples.

(** A fit on an object whose four flags are set ends normally and leaves
    all four set. *)
Lemma flags_are_never_cleared_witness :
  match run_flagged 10 true with
  | Some (w, Ok _) =>
      Fitting.f1_increase (Fitting._state_data (Fitting.obj w)) = true
      /\ Fitting.obj_increase (Fitting._state_data (Fitting.obj w)) = true
      /\ Fitting.is_solver_error (Fitting._state_data (Fitting.obj w)) = true
      /\ Fitting.is_problem_status_error
           (Fitting._state_data (Fitting.obj w)) = true
  | _ => False
  end.
Proof.
  destruct (run_flagged 10 true) as [[w [s|e]]|] eqn:E;
    try (vm_compute in E; discriminate E).
  unfold run_flagged in E.
  apply LoopInvariants.flags_are_never_cleared in E.
  destruct E as (H1 & H2 & H3 & H4).
  repeat split; [apply H1 | apply H2 | apply H3 | apply H4]; reflexivity.
Defined.

(** The same fit with [verbose] off prints nothing. *)
Lemma quiet_fit_prints_nothing_witness :
  match run_flagged 10 false with
  | Some (w, Ok _) => Fitting.printed w = []
  | _ => False
  end.
Proof.
  destruct (run_flagged 10 false) as [[w [s|e]]|] eqn:E;
    try (vm_compute in E; discriminate E).
  unfold run_flagged in E.
  apply LoopInvariants.quiet_fit_prints_nothing in E. exact E.
Defined.

(** The 1x1 sample moves to [r = 5] and stays: accessors and snapshot hold
    the factors of the last pass. *)
Lemma normal_end_publishes_last_pass_witness :
  match run_1x1 one_step 10 0 [Fin 1] eps_default 100 true with
  | Some (w, Ok s) =>
      (Fitting._l_cs_value (Fitting.obj w),
       Fitting._r_cs_value (Fitting.obj w),
       Fitting._beta_value (Fitting.obj w))
      = (Some (Fitting.l_cs s), Some (Fitting.r_cs s), Some (Fitting.beta s))
      /\ Runs.snapshot (Fitting.obj w)
         = (Fitting.l_cs s, Fitting.r_cs s, Fitting.beta s,
            nth 0 (Fitting.r_cs s) [])
  | _ => False
  end.
Proof.
  destruct (run_1x1 one_step 10 0 [Fin 1] eps_default 100 true)
    as [[w [s|e]]|] eqn:E; try (vm_compute in E; discriminate E).
  unfold run_1x1 in E.
  apply LoopInvariants.normal_end_publishes_last_pass in E;
    [exact E | reflexivity].
Defined.

(** A fit that fails in its second pass has not touched its inputs. *)
Lemma fit_never_writes_its_inputs_witness :
  match run_1x1 fails_second 10 0 [Fin 1] eps_default 100 true with
  | Some (w, Raise _) =>
      Fitting._power_signals_d (Fitting.obj w) = one_by_one 10
      /\ Fitting._test_days (Fitting.obj w) = None
      /\ Fitting.weights (Fitting._state_data (Fitting.obj w)) = []
  | _ => False
  end.
Proof.
  destruct (run_1x1 fails_second 10 0 [Fin 1] eps_default 100 true)
    as [[w [s|e]]|] eqn:E; try (vm_compute in E; discriminate E).
  unfold run_1x1 in E.
  apply LoopInvariants.fit_never_writes_its_inputs in E.
  injection E as _ Hd _ _ Ht Hw.
  split; [exact Hd | split; [exact Ht | exact Hw]].
Defined.

(** A pass in which the objective rises from 4 to 5.6, in both classes:
    the increase is recorded. *)
Lemma increase_flag_means_larger_objective_witness :
  match first_pass_1x1 rise 5 [Fin 1] 100 true,
        sky_first_pass 3 5 [Fin 1] 100 with
  | (w', Ok _), Ok t' =>
      Fitting.obj_increase (Fitting._state_data (Fitting.obj w')) = true
      /\ ClearSky.good_fit (ClearSky.self_of t') = false
  | _, _ => False
  end.
Proof.
  destruct (first_pass_1x1 rise 5 [Fin 1] 100 true) as [w' [s'|e]] eqn:E1;
    try (vm_compute in E1; discriminate E1).
  destruct (sky_first_pass 3 5 [Fin 1] 100) as [t'|e] eqn:E2;
    try (vm_compute in E2; discriminate E2).
  pose proof E1 as C1. vm_compute in C1. injection C1 as Cw Cs.
  pose proof E2 as C2. vm_compute in C2. injection C2 as Ct.
  unfold first_pass_1x1 in E1. unfold sky_first_pass in E2.
  edestruct (@Improvement.increase_flag_means_larger_objective
               sample_numeric rise (sky_solver 3)) as [H1 H2].
  - exact E1.
  - cbv. reflexivity.
  - rewrite <- Cs. cbv. reflexivity.
  - reflexivity.
  - exact E2.
  - cbv. reflexivity.
  - rewrite <- Ct. cbv. reflexivity.
  - reflexivity.
  - split; [rewrite H1 | rewrite H2]; reflexivity.
Defined.

(** With the right factor at 10 the 1x1 objective is zero before and after
    a pass: the improvement is NaN in both classes. *)
Lemma zero_objective_ends_the_loop_witness :
  match first_pass_1x1 idle 10 [Fin 1] 100 true,
        sky_first_pass 10 10 [Fin 1] 100 with
  | (_, Ok s'), Ok t' =>
      Fitting.improvement s' = NaN
      /\ fl_geb (Fitting.improvement s') eps_default = false
      /\ ClearSky.improvement t' = NaN
      /\ fl_geb (ClearSky.improvement t') eps_default = false
  | _, _ => False
  end.
Proof.
  destruct (first_pass_1x1 idle 10 [Fin 1] 100 true) as [w' [s'|e]] eqn:E1;
    try (vm_compute in E1; discriminate E1).
  destruct (sky_first_pass 10 10 [Fin 1] 100) as [t'|e] eqn:E2;
    try (vm_compute in E2; discriminate E2).
  pose proof E1 as C1. vm_compute in C1. injection C1 as Cw Cs.
  pose proof E2 as C2. vm_compute in C2. injection C2 as Ct.
  unfold first_pass_1x1 in E1. unfold sky_first_pass in E2.
  edestruct (@Improvement.zero_objective_ends_the_loop
               sample_numeric idle (sky_solver 10))
    as [(H1 & H2 & _) (H3 & H4 & _)].
  - exact E1.
  - cbv. reflexivity.
  - rewrite <- Cs. cbv. reflexivity.
  - reflexivity.
  - reflexivity.
  - rewrite <- Cs. reflexivity.
  - exact E2.
  - cbv. reflexivity.
  - rewrite <- Ct. cbv. reflexivity.
  - reflexivity.
  - reflexivity.
  - rewrite <- Ct. reflexivity.
  - split; [exact H1|]. split; [apply H2|]. split; [exact H3 | apply H4].
Defined.

(** A fit of the sample whose only day is a test day: the data stay, the
    weight of the day is zero. *)
Lemma fit_leaves_problem_data_alone_witness :
  match @ClearSky.minimize_objective sample_numeric (sky_solver 5) 10
          clearsky_reserved eps_default 100 true None None with
  | Some (Ok s) =>
      ClearSky.D (ClearSky.self_of s) = one_by_one 10
      /\ ClearSky.test_days (ClearSky.self_of s) = Some [0%nat]
      /\ ClearSky.weights (ClearSky.self_of s) = [fzero]
  | _ => False
  end.
Proof.
  destruct (@ClearSky.minimize_objective sample_numeric (sky_solver 5) 10
              clearsky_reserved eps_default 100 true None None)
    as [[s|e]|] eqn:E; try (vm_compute in E; discriminate E).
  apply SkyInvariants.fit_leaves_problem_data_alone in E; [|reflexivity].
  destruct E as [Hp Hw]. injection Hp as HD _ _ _ _ Ht.
  split; [exact HD | split; [exact Ht | exact Hw]].
Defined.

(** One day of data: no degradation branch, [beta] stays 0. *)
Lemma beta_untouched_without_degradation_witness :
  match sky_run 10 5 0 [Fin 1] eps_default 100 with
  | Some (Ok s) => ClearSky.beta (ClearSky.self_of s) = fzero
  | _ => False
  end.
Proof.
  let r := eval vm_compute in (sky_run 10 5 0 [Fin 1] eps_default 100) in
  (assert (E : sky_run 10 5 0 [Fin 1] eps_default 100 = r)
     by (vm_compute; reflexivity);
   assert (F : @ClearSky.minimize_objective
                 sample_numeric (sky_solver 5) 10 (clearsky_1x1 0 [Fin 1])
                 eps_default 100 true (Some fzero) (Some (Fin (- (1 # 4))))
               = r)
     by (vm_compute; reflexivity)).
  rewrite E. cbv beta iota.
  apply SkyInvariants.beta_untouched_without_degradation in F;
    [|reflexivity].
  destruct F as [Hb _]. exact Hb.
Defined.

(** Over 366 days, with [min_deg = -0.5]: a rate of -0.1 meets the bounds
    and lies above the fixed floor. *)
Lemma degradation_floor_is_fixed_witness :
  forallb (beta_within (Fin (- (1 # 10))))
          (ClearSky.constraints_R
             (@ClearSky.build_problem_R sample_numeric clearsky_366 true
                (Some fzero) (Some (Fin (- (1 # 2)))))) = true
  /\ fl_leb (Fin (- (1 # 4))) (Fin (- (1 # 10))) = true.
Proof.
  assert (H : forallb (beta_within (Fin (- (1 # 10))))
                (ClearSky.constraints_R
                   (@ClearSky.build_problem_R sample_numeric clearsky_366
                      true (Some fzero) (Some (Fin (- (1 # 2)))))) = true)
    by (vm_compute; reflexivity).
  split; [exact H|].
  apply Subproblems.degradation_floor_is_fixed in H;
    [destruct H as [H _]; exact H
    | apply Nat.ltb_lt; vm_compute; reflexivity].
Defined.

(** A solver that finds both problems infeasible: [min_L] and [min_R]
    raise one and the same exception. *)
Lemma left_failure_is_reported_as_right_witness :
  @ClearSky.min_L sample_numeric infeasible_solver (clearsky_1x1 5 [Fin 1])
  = Raise (ProblemStatusError "Minimize R status: infeasible")
  /\ @ClearSky.min_R sample_numeric infeasible_solver
       (clearsky_1x1 5 [Fin 1]) true None None
     = @ClearSky.min_L sample_numeric infeasible_solver
         (clearsky_1x1 5 [Fin 1]).
Proof.
  eapply (@Subproblems.left_failure_is_reported_as_right
            sample_numeric infeasible_solver).
  - discriminate.
  - reflexivity.
  - reflexivity.
Defined.

(** Data with one missing measurement and a repair that changes nothing:
    the data are kept and marked as repaired. *)
Lemma gaps_are_recorded_as_time_shifts_witness :
  @_handle_time_shift idle_collaborators gap_2x2 true = (gap_2x2, true).
Proof.
  apply (@TimeShift.gaps_are_recorded_as_time_shifts idle_collaborators).
  reflexivity.
Defined.

(** One day, reserved in full: its fresh weight 1 becomes 0 in both
    classes. *)
Lemma reserving_everything_leaves_nothing_to_fit_witness :
  @Fitting._obtain_weights weighted_step fitting_reserved = [fzero]
  /\ ClearSky.weights (ClearSky.apply_test_days clearsky_reserved)
     = [fzero].
Proof.
  apply (@TestDays.reserving_everything_leaves_nothing_to_fit
           idle_collaborators weighted_step fitting_reserved
           clearsky_reserved 1).
  - repeat constructor. simpl. tauto.
  - reflexivity.
  - intros d [<-|[]]. lia.
  - reflexivity.
  - reflexivity.
  - reflexivity.
  - reflexivity.
  - reflexivity.
Defined.

(** [execute] on the fresh 1x1 object moves the right factor to 5; a second
    call would start from there, with the weights of the first. *)
Lemma second_call_resumes_where_the_first_ended_witness :
  match execute_1x1 10 with
  | Some (_, w, Ok _) =>
      snd (@_obtain_initial_values (Fitting.obj w) svd_1x1)
      = (one_by_one 1, one_by_one 5, Fin 0)
      /\ @Fitting._obtain_weights weighted_step (Fitting.obj w) = [Fin 1]
  | _ => False
  end.
Proof.
  let r := eval vm_compute in (execute_1x1 10) in
  (assert (E : execute_1x1 10 = r) by (vm_compute; reflexivity);
   assert (F : @execute sample_numeric weighted_step idle_collaborators 10
                 fitting_1x1 svd_1x1 (Fin 1) (Fin 20) (Fin (8 # 10))
                 eps_default 100 true None None true = r)
     by (vm_compute; reflexivity)).
  rewrite E. cbv beta iota.
  apply (@Resume.second_call_resumes_where_the_first_ended
           sample_numeric weighted_step idle_collaborators) with
    (svd' := svd_1x1) in F.
  - destruct F as (H1 & _ & H3). rewrite H1, H3.
    split; vm_compute; reflexivity.
  - reflexivity.
  - apply Nat.ltb_lt. vm_compute. reflexivity.
  - apply Nat.ltb_lt. vm_compute. reflexivity.
Defined.

(** The two 1x1 samples hold the same data: both classes compute the
    objective 4 for the right factor 5. *)
Lemma both_classes_compute_one_objective_witness :
  @Fitting._calculate_objective sample_numeric fitting_1x1 (Fin 1) (Fin 20)
    (Fin (8 # 10)) (one_by_one 1) (one_by_one 5) (Fin 7) [Fin 1]
  = @ClearSky.calc_components sample_numeric (clearsky_1x1 5 [Fin 1]).
Proof.
  apply (@Agreement.both_classes_compute_one_objective
           sample_numeric fitting_1x1 (clearsky_1x1 5 [Fin 1]) (Fin 7));
    reflexivity.
Defined.

(** A first call of [execute] whose right minimizer fails at once: the
    clear-sky signal is the product of the starting factors 1 and 10. *)
Lemma clear_sky_signals_after_execute_witness :
  match execute_failing 10 with
  | Some (_, w, Raise _) =>
      clear_sky_signals (Fitting.obj w)
      = Some (matmul (one_by_one 1) (one_by_one 10))
  | _ => False
  end.
Proof.
  let r := eval vm_compute in (execute_failing 10) in
  (assert (E : execute_failing 10 = r) by (vm_compute; reflexivity);
   assert (F : @execute sample_numeric failing_step idle_collaborators 10
                 fitting_1x1 svd_1x1 (Fin 1) (Fin 20) (Fin (8 # 10))
                 eps_default 100 true None None true = r)
     by (vm_compute; reflexivity)).
  rewrite E. cbv beta iota.
  apply Resume.clear_sky_signals_after_execute in F.
  rewrite F. vm_compute. reflexivity.
Defined.

End OnSamples.
